(** * Response post-processing and model selection: a shallow embedding

    The JavaScript sources embedded here are
    - [utils/responseFormatter.js]  (text cleaner, classifier, formatters),
    - [services/enhancedLLMService.js] (model / strategy selector),
    - [utils/responseQualityAnalyzer.js] (quality metrics),
    - [services/llamaService.js] (JSON recovery paths).

    Further on, [utils/conversationUtils.js] (conversation flow), the
    message list of the conversational endpoint, and the input checks,
    error replies and model catalogue of [routes/llama.js],
    [routes/enhancedLLM.js] and [routes/models.js].

    JavaScript strings are sequences of UTF-16 code units, and the regular
    expressions of the sources carry no [u] flag, so they work on code units
    too.  A string is therefore a [list N]. *)

From Stdlib Require Import String Ascii DecimalString.
From Stdlib Require Import List Bool Arith NArith ZArith QArith Qabs Qround.
From Stdlib Require Import Lia Lqa.
Import ListNotations.

Close Scope Q_scope.
Set Warnings "-register-all".

(* ================================================================= *)
(** ** JavaScript strings *)

Module JS.

Definition cu := N.
Definition jsstring := list cu.

(** An ASCII literal of the source. *)
Definition lit (s : string) : jsstring :=
  map N_of_ascii (list_ascii_of_string s).
Arguments lit s%_string.

Definition NL : cu := 10%N.
Definition BULLET : cu := 0x2022%N.

Definition in_range (lo hi c : cu) : bool := ((lo <=? c) && (c <=? hi))%N.

(** WhiteSpace and LineTerminator of ECMAScript: the class [\s] and the
    characters removed by [trim]. *)
Definition is_line_terminator (c : cu) : bool :=
  ((c =? 10) || (c =? 13) || (c =? 0x2028) || (c =? 0x2029))%N.

Definition is_space (c : cu) : bool :=
  (in_range 9%N 13%N c || (c =? 32) || (c =? 0xA0) || (c =? 0x1680)
   || in_range 0x2000%N 0x200A%N c || (c =? 0x2028) || (c =? 0x2029)
   || (c =? 0x202F) || (c =? 0x205F) || (c =? 0x3000) || (c =? 0xFEFF))%N.

Definition is_upper (c : cu) : bool := in_range 65%N 90%N c.
Definition is_lower (c : cu) : bool := in_range 97%N 122%N c.
Definition is_digit (c : cu) : bool := in_range 48%N 57%N c.

(** [toLowerCase].  Every keyword the program searches for is ASCII, so what
    matters is which code units become ASCII letters: the ASCII capitals,
    U+212A (Kelvin sign, to k) and U+0130 (to i followed by U+0307).  The
    other letters of Unicode are mapped among non-ASCII code units by
    JavaScript and are left in place here. *)
Definition lower1 (c : cu) : jsstring :=
  if is_upper c then [(c + 32)%N]
  else if (c =? 0x212A)%N then [107%N]
  else if (c =? 0x130)%N then [105%N; 0x307%N]
  else [c].

Definition toLowerCase (s : jsstring) : jsstring := flat_map lower1 s.

(** [toUpperCase] of one code unit, on the ASCII letters. *)
Definition upper1 (c : cu) : jsstring :=
  if is_lower c then [(c - 32)%N] else [c].

Fixpoint starts_with (p s : jsstring) : bool :=
  match p, s with
  | [], _ => true
  | _ :: _, [] => false
  | a :: p', b :: s' => (a =? b)%N && starts_with p' s'
  end.

(** [s.includes(p)] *)
Fixpoint includes (s p : jsstring) : bool :=
  starts_with p s ||
  match s with
  | [] => false
  | _ :: s' => includes s' p
  end.

Fixpoint trimStart (s : jsstring) : jsstring :=
  match s with
  | [] => []
  | c :: s' => if is_space c then trimStart s' else s
  end.

Fixpoint trimEnd (s : jsstring) : jsstring :=
  match s with
  | [] => []
  | c :: s' =>
      match trimEnd s' with
      | [] => if is_space c then [] else [c]
      | r => c :: r
      end
  end.

Definition trim (s : jsstring) : jsstring := trimEnd (trimStart s).

(** [a.join(sep)] *)
Fixpoint join (sep : jsstring) (l : list jsstring) : jsstring :=
  match l with
  | [] => []
  | [x] => x
  | x :: r => x ++ sep ++ join sep r
  end.

(** [s.split(re)] for a regular expression that matches the non-empty runs
    of one character class, such as [/[.!?]+/]. *)
Fixpoint split_runs_go (sep : cu -> bool) (acc : jsstring) (in_sep : bool)
    (s : jsstring) : list jsstring :=
  match s with
  | [] => [rev acc]
  | c :: s' =>
      if sep c then
        if in_sep then split_runs_go sep acc true s'
        else rev acc :: split_runs_go sep [] true s'
      else split_runs_go sep (c :: acc) false s'
  end.

Definition split_runs (sep : cu -> bool) (s : jsstring) : list jsstring :=
  split_runs_go sep [] false s.

(** [s.split(' ')]: every occurrence of the one-character separator cuts. *)
Fixpoint split_char_go (sep : cu) (acc : jsstring) (s : jsstring)
    : list jsstring :=
  match s with
  | [] => [rev acc]
  | c :: s' =>
      if (c =? sep)%N then rev acc :: split_char_go sep [] s'
      else split_char_go sep (c :: acc) s'
  end.

Definition split_char (sep : cu) (s : jsstring) : list jsstring :=
  split_char_go sep [] s.

(** Decimal rendering of an index inside a template literal. *)
Definition of_nat (n : nat) : jsstring :=
  lit (NilZero.string_of_uint (Nat.to_uint n)).

Definition is_empty (s : jsstring) : bool :=
  match s with [] => true | _ => false end.

(** Equality of strings, [===]. *)
Fixpoint eqb (a b : jsstring) : bool :=
  match a, b with
  | [], [] => true
  | x :: a', y :: b' => (x =? y)%N && eqb a' b'
  | _, _ => false
  end.

(** JavaScript values, as far as the program passes them around. *)
Inductive value : Type :=
| VUndefined
| VNull
| VBool (b : bool)
| VNum (q : Q)
| VStr (s : jsstring)
| VArr (l : list value)
| VObj (props : list (jsstring * value)).

Definition truthy (v : value) : bool :=
  match v with
  | VUndefined | VNull => false
  | VBool b => b
  | VNum q => negb (Qeq_bool q 0)
  | VStr s => negb (is_empty s)
  | VArr _ | VObj _ => true
  end.

Definition is_string (v : value) : bool :=
  match v with VStr _ => true | _ => false end.

End JS.

Import JS.

(* ================================================================= *)
(** ** The regular-expression replacements of the cleaner *)

Module Regex.

(** A matcher sees the code unit before the current position ([None] at the
    start of the input) and the rest of the input.  When the pattern matches
    at this position it gives the replacement text and the length of the
    match, which is at least one for every pattern below. *)
Definition matcher := option cu -> jsstring -> option (jsstring * nat).

(** [s.replace(re, rep)] with the [g] flag: matches are taken from left to
    right, the search resuming where the last match ended. *)
Fixpoint replace_go (m : matcher) (prev : option cu) (skip : nat)
    (s : jsstring) : jsstring :=
  match s with
  | [] => []
  | c :: s' =>
      match skip with
      | S k => replace_go m (Some c) k s'
      | O =>
          match m prev s with
          | Some (rep, len) => rep ++ replace_go m (Some c) (pred len) s'
          | None => c :: replace_go m (Some c) O s'
          end
      end
  end.

Definition replace_all (m : matcher) (s : jsstring) : jsstring :=
  replace_go m None 0 s.

(** [s.replace(re, rep)] without the [g] flag: the leftmost match only. *)
Fixpoint replace_first_go (m : matcher) (prev : option cu) (s : jsstring)
    : jsstring :=
  match s with
  | [] => []
  | c :: s' =>
      match m prev s with
      | Some (rep, len) => rep ++ skipn len s
      | None => c :: replace_first_go m (Some c) s'
      end
  end.

Definition replace_first (m : matcher) (s : jsstring) : jsstring :=
  replace_first_go m None s.

Fixpoint count_while (p : cu -> bool) (s : jsstring) : nat :=
  match s with
  | [] => 0
  | c :: s' => if p c then S (count_while p s') else 0
  end.

(** Index of the first occurrence of [p] in [s]. *)
Fixpoint find_from (p s : jsstring) : option nat :=
  if starts_with p s then Some 0
  else match s with
       | [] => None
       | _ :: s' => option_map S (find_from p s')
       end.

(** The lazy [.*?] followed by the literal [p]: the first occurrence of [p]
    that is reached without crossing a line terminator. *)
Fixpoint lazy_dot_until (p s : jsstring) : option nat :=
  if starts_with p s then Some 0
  else match s with
       | [] => None
       | c :: s' =>
           if is_line_terminator c then None
           else option_map S (lazy_dot_until p s')
       end.

Definition at_input_start (prev : option cu) : bool :=
  match prev with None => true | Some _ => false end.

(** [^] under the [m] flag. *)
Definition at_line_start (prev : option cu) : bool :=
  match prev with None => true | Some c => is_line_terminator c end.

(** [$] under the [m] flag, looking at what follows. *)
Definition at_line_end (rest : jsstring) : bool :=
  match rest with [] => true | c :: _ => is_line_terminator c end.

Definition fence : jsstring := lit "```".

(** [/```[\s\S]*?```/g] replaced by the empty string. *)
Definition m_fence : matcher := fun _ s =>
  if starts_with fence s then
    match find_from fence (skipn 3 s) with
    | Some j => Some ([], 3 + j + 3)
    | None => None
    end
  else None.

(** [/d(.*?)d/g] replaced by ['$1'], for a delimiter [d]. *)
Definition m_wrapped (d : jsstring) : matcher := fun _ s =>
  if starts_with d s then
    let body := skipn (length d) s in
    match lazy_dot_until d body with
    | Some j => Some (firstn j body, length d + j + length d)
    | None => None
    end
  else None.

(** [/X{k,}/g] for a character class [X], replaced by [rep]. *)
Definition m_run (p : cu -> bool) (k : nat) (rep : jsstring) : matcher :=
  fun _ s =>
    let n := count_while p s in
    if k <=? n then Some (rep, n) else None.

(** [/([^\s])\1{2,}/g] replaced by ['$1']. *)
Definition m_cluster : matcher := fun _ s =>
  match s with
  | [] => None
  | c :: s' =>
      if is_space c then None
      else
        let n := count_while (N.eqb c) s' in
        if 2 <=? n then Some ([c], S n) else None
  end.

Definition is_quote (c : cu) : bool := ((c =? 34) || (c =? 39))%N.

(** [/^["']|["']$/g] replaced by the empty string. *)
Definition m_quote : matcher := fun prev s =>
  match s with
  | [] => None
  | c :: s' =>
      if is_quote c && (at_input_start prev || is_empty s')
      then Some ([], 1) else None
  end.

(** Case-insensitive comparison under the [i] flag.  The patterns are ASCII;
    without the [u] flag a code unit of 128 or more is never identified with
    an ASCII one, so only the ASCII letters fold. *)
Definition fold_case (c : cu) : cu := if is_lower c then (c - 32)%N else c.

Fixpoint starts_with_ci (p s : jsstring) : bool :=
  match p, s with
  | [], _ => true
  | _ :: _, [] => false
  | a :: p', b :: s' => (fold_case a =? fold_case b)%N && starts_with_ci p' s'
  end.

Definition ai_prefixes : list jsstring :=
  [ lit "Here's"; lit "Here is"; lit "I'll"; lit "I will"; lit "Let me";
    lit "Based on"; lit "According to"; lit "As an AI";
    lit "As a customer service representative"; lit "As a helpful assistant" ].

Definition ai_suffixes : list jsstring :=
  [ lit "I hope this helps"; lit "Let me know if you need anything else";
    lit "Feel free to ask";
    lit "Is there anything else I can help you with" ].

Fixpoint first_alt (alts : list jsstring) (s : jsstring) : option nat :=
  match alts with
  | [] => None
  | a :: r => if starts_with_ci a s then Some (length a) else first_alt r s
  end.

Definition comma_or_space (c : cu) : bool := (c =? 44)%N || is_space c.
Definition dot_or_bang (c : cu) : bool := ((c =? 46) || (c =? 33))%N.

(** [/^(Here's|...)[,\s]*/gi] replaced by the empty string. *)
Definition m_prefix : matcher := fun prev s =>
  if at_input_start prev then
    match first_alt ai_prefixes s with
    | Some n => Some ([], n + count_while comma_or_space (skipn n s))
    | None => None
    end
  else None.

(** [/(I hope this helps|...)[.!]*$/gi] replaced by the empty string. *)
Definition m_suffix : matcher := fun _ s =>
  if existsb (fun a => starts_with_ci a s
                       && forallb dot_or_bang (skipn (length a) s))
             ai_suffixes
  then Some ([], length s) else None.

Definition is_bullet (c : cu) : bool :=
  ((c =? 45) || (c =? 42) || (c =? 0x2022))%N.

(** [/^[\s]*[-*•]\s*/gm] replaced by the empty string. *)
Definition m_bullet : matcher := fun prev s =>
  if at_line_start prev then
    let n := count_while is_space s in
    match skipn n s with
    | c :: r =>
        if is_bullet c then Some ([], n + 1 + count_while is_space r)
        else None
    | [] => None
    end
  else None.

Definition dot_or_paren (c : cu) : bool := ((c =? 46) || (c =? 41))%N.

(** [/^[\s]*\d+[.)]\s*/gm] replaced by the empty string. *)
Definition m_numbered : matcher := fun prev s =>
  if at_line_start prev then
    let n := count_while is_space s in
    let s1 := skipn n s in
    let d := count_while is_digit s1 in
    if 1 <=? d then
      match skipn d s1 with
      | c :: r =>
          if dot_or_paren c
          then Some ([], n + d + 1 + count_while is_space r)
          else None
      | [] => None
      end
    else None
  else None.

Definition upper_or_space (c : cu) : bool := is_upper c || is_space c.

(** [/^[A-Z][A-Z\s]+:$/gm] replaced by the empty string. *)
Definition m_header : matcher := fun prev s =>
  if at_line_start prev then
    match s with
    | c :: r =>
        if is_upper c then
          let n := count_while upper_or_space r in
          if 1 <=? n then
            match skipn n r with
            | k :: r2 =>
                if (k =? 58)%N && at_line_end r2
                then Some ([], 1 + n + 1) else None
            | [] => None
            end
          else None
        else None
    | [] => None
    end
  else None.

(** Index of the last line feed of [s], counted from one. *)
Fixpoint after_last_nl (s : jsstring) : option nat :=
  match s with
  | [] => None
  | c :: s' =>
      match after_last_nl s' with
      | Some k => Some (S k)
      | None => if (c =? NL)%N then Some 1 else None
      end
  end.

(** [/^\s*\n/] replaced by the empty string: the greedy [\s*] gives back
    what it must for the line feed to follow. *)
Definition m_leading_blank : matcher := fun prev s =>
  if at_input_start prev then
    match after_last_nl (firstn (count_while is_space s) s) with
    | Some k => Some ([], k)
    | None => None
    end
  else None.

(** [/\n\s*$/] replaced by the empty string. *)
Definition m_trailing_blank : matcher := fun _ s =>
  match s with
  | c :: r =>
      if (c =? NL)%N && forallb is_space r then Some ([], length s) else None
  | [] => None
  end.

End Regex.

Import Regex.

(* ================================================================= *)
(** ** utils/responseFormatter.js *)

Module ResponseFormatter.

Local Open Scope string_scope.
Local Open Scope list_scope.

(** [kws.some(k => text.includes(k))], written in the source as a chain of
    [||] over [text.includes(...)]. *)
Definition text_has (text : jsstring) (kws : list string) : bool :=
  existsb (fun k => includes text (lit k)) kws.

(** The same chain over [s.toLowerCase().includes(...)]. *)
Definition mentions (s : jsstring) (kws : list string) : bool :=
  text_has (toLowerCase s) kws.

Definition is_sentence_end (c : cu) : bool :=
  ((c =? 46) || (c =? 33) || (c =? 63))%N.

(** The fourteen normalization passes of [cleanAIResponse], in order. *)
Definition cleaned (response : jsstring) : jsstring :=
  let s := replace_all m_fence response in
  let s := replace_all (m_wrapped (lit "**")) s in
  let s := replace_all (m_wrapped (lit "*")) s in
  let s := replace_all (m_wrapped (lit "`")) s in
  let s := replace_all (m_run (N.eqb NL) 3 [NL; NL]) s in
  let s := trim s in
  let s := replace_all m_prefix s in
  let s := replace_all m_suffix s in
  let s := replace_all (m_run (N.eqb 33) 2 (lit "!")) s in
  let s := replace_all (m_run (N.eqb 63) 2 (lit "?")) s in
  let s := replace_all (m_run (N.eqb 46) 2 (lit ".")) s in
  let s := replace_all m_cluster s in
  let s := replace_all (m_run is_space 2 (lit " ")) s in
  let s := replace_all m_quote s in
  let s := replace_all m_bullet s in
  let s := replace_all m_numbered s in
  let s := replace_all m_header s in
  let s := replace_first m_leading_blank s in
  replace_first m_trailing_blank s.

Inductive ContentType :=
| Review | Analysis | Conversation | CustomerService | General.

(** The strings that the source uses for the tags. *)
Definition type_name (t : ContentType) : string :=
  match t with
  | Review => "review"
  | Analysis => "analysis"
  | Conversation => "conversation"
  | CustomerService => "customer_service"
  | General => "general"
  end.

Record ContentStructure := {
  type : ContentType;
  keyPoints : list jsstring;
  positiveAspects : list jsstring;
  negativeAspects : list jsstring;
  suggestions : list jsstring;
  questions : list jsstring;
  statements : list jsstring;
  topics : list jsstring;
  totalSentences : nat
}.

(** [[...new Set(topics)]]: the first occurrence of each label is kept. *)
Fixpoint dedupe (seen : list jsstring) (l : list jsstring) : list jsstring :=
  match l with
  | [] => []
  | x :: r =>
      if existsb (JS.eqb x) seen then dedupe seen r
      else x :: dedupe (x :: seen) r
  end.

Definition extractTopicKeywords (text : jsstring) : list jsstring :=
  let topics := [] in
  let topics :=
    if text_has text ["food"; "restaurant"; "dining"; "meal"]
    then topics ++ map lit ["restaurant"; "food"; "dining"] else topics in
  let topics :=
    if text_has text ["hotel"; "accommodation"; "room"; "stay"]
    then topics ++ map lit ["hotel"; "accommodation"; "travel"] else topics in
  let topics :=
    if text_has text ["product"; "item"; "purchase"; "buy"]
    then topics ++ map lit ["product"; "shopping"; "consumer"] else topics in
  let topics :=
    if text_has text ["service"; "support"; "help"; "assistance"]
    then topics ++ map lit ["service"; "support"; "customer care"]
    else topics in
  let topics :=
    if text_has text ["app"; "software"; "technology"; "digital"]
    then topics ++ map lit ["technology"; "software"; "digital"]
    else topics in
  dedupe [] topics.

Definition QUESTION_MARK : jsstring := lit "?".

Definition analyzeEnhancedContentStructure (sentences : list jsstring)
    : ContentStructure :=
  let text := toLowerCase (join (lit " ") sentences) in
  let type :=
    if text_has text ["rating"; "stars"; "recommend"; "experience"; "food";
                      "service"; "quality"] then Review
    else if text_has text ["analysis"; "sentiment"; "key points"; "summary";
                           "findings"; "insights"] then Analysis
    else if text_has text ["hello"; "hi"; "how are you"; "chat";
                           "conversation"] then Conversation
    else if text_has text ["customer"; "service"; "apologize"; "resolve";
                           "issue"; "problem"] then CustomerService
    else General in
  {| type := type;
     keyPoints :=
       filter (fun s => mentions s ["important"; "key"; "main"; "primary";
                                    "essential"; "critical"]) sentences;
     positiveAspects :=
       filter (fun s => mentions s ["like"; "love"; "good"; "great";
                                    "amazing"; "excellent"; "outstanding";
                                    "fantastic"]) sentences;
     negativeAspects :=
       filter (fun s => mentions s ["disappointing"; "bad"; "poor";
                                    "terrible"; "awful"; "horrible";
                                    "unacceptable"]) sentences;
     suggestions :=
       filter (fun s => mentions s ["suggest"; "recommend"; "could";
                                    "should"; "might"; "consider"]) sentences;
     questions := filter (fun s => includes s QUESTION_MARK) sentences;
     statements :=
       filter (fun s => negb (includes s QUESTION_MARK)) sentences;
     topics := extractTopicKeywords text;
     totalSentences := length sentences |}.

Definition capitalizeFirst (str : jsstring) : jsstring :=
  match str with
  | [] => str
  | c :: rest => upper1 c ++ rest
  end.

(** The emoji of the headings, as UTF-16 code units. *)
Definition MEMO : jsstring := [0xD83D; 0xDCDD]%N.        (* U+1F4DD *)
Definition SPARKLES : jsstring := [0x2728]%N.
Definition WARNING : jsstring := [0x26A0; 0xFE0F]%N.
Definition STAR : jsstring := [0xD83C; 0xDF1F]%N.        (* U+1F31F *)
Definition HOUSE : jsstring := [0xD83C; 0xDFE0]%N.       (* U+1F3E0 *)
Definition MONEY : jsstring := [0xD83D; 0xDCB0]%N.       (* U+1F4B0 *)
Definition BULB : jsstring := [0xD83D; 0xDCA1]%N.        (* U+1F4A1 *)
Definition TARGET : jsstring := [0xD83C; 0xDFAF]%N.      (* U+1F3AF *)
Definition CHART : jsstring := [0xD83D; 0xDCCA]%N.       (* U+1F4CA *)
Definition MAGNIFIER : jsstring := [0xD83D; 0xDD0D]%N.   (* U+1F50D *)
Definition SMILE : jsstring := [0xD83D; 0xDE0A]%N.       (* U+1F60A *)
Definition CLIPBOARD : jsstring := [0xD83D; 0xDCCB]%N.   (* U+1F4CB *)
Definition ROCKET : jsstring := [0xD83D; 0xDE80]%N.      (* U+1F680 *)
Definition TREND : jsstring := [0xD83D; 0xDCC8]%N.       (* U+1F4C8 *)
Definition THOUGHT : jsstring := [0xD83D; 0xDCAD]%N.     (* U+1F4AD *)
Definition THINKING : jsstring := [0xD83E; 0xDD14]%N.    (* U+1F914 *)
Definition SPEECH : jsstring := [0xD83D; 0xDCAC]%N.      (* U+1F4AC *)
Definition HANDSHAKE : jsstring := [0xD83E; 0xDD1D]%N.   (* U+1F91D *)
Definition WRENCH : jsstring := [0xD83D; 0xDD27]%N.      (* U+1F527 *)
Definition GIFT : jsstring := [0xD83C; 0xDF81]%N.        (* U+1F381 *)
Definition PHONE : jsstring := [0xD83D; 0xDCDE]%N.       (* U+1F4DE *)
Definition PIN : jsstring := [0xD83D; 0xDCCC]%N.         (* U+1F4CC *)

(** [l.forEach((x, index) => { formatted += f(index, x) })] *)
Fixpoint forEach (f : nat -> jsstring -> jsstring) (index : nat)
    (l : list jsstring) : jsstring :=
  match l with
  | [] => []
  | x :: r => f index x ++ forEach f (S index) r
  end.

(** The three shapes of list line used by the renderers. *)
Definition bullet_line (_ : nat) (x : jsstring) : jsstring :=
  lit "   " ++ [BULLET] ++ lit " " ++ capitalizeFirst x ++ lit "." ++ [NL].

Definition numbered_line (index : nat) (x : jsstring) : jsstring :=
  lit "   " ++ of_nat (index + 1) ++ lit ". " ++ capitalizeFirst x
  ++ lit "." ++ [NL].

Definition plain_line (_ : nat) (x : jsstring) : jsstring :=
  lit "   " ++ capitalizeFirst x ++ lit "." ++ [NL].

(** [if (l.length > 0) { formatted += heading; l.slice(0, cap).forEach(...);
    formatted += '\n'; }] *)
Definition section (heading : jsstring)
    (line : nat -> jsstring -> jsstring) (cap : nat) (l : list jsstring)
    : jsstring :=
  if (0 <? length l)%nat
  then heading ++ [NL] ++ forEach line 0 (firstn cap l) ++ [NL]
  else [].

Definition REVIEW_POSITIVE : jsstring :=
  TARGET ++ lit " Overall, this was a positive experience that I would recommend to others.".
Definition REVIEW_NEGATIVE : jsstring :=
  TARGET ++ lit " While there were some issues, there's potential for improvement with the right changes.".
Definition REVIEW_MIXED : jsstring :=
  TARGET ++ lit " This was a mixed experience with both positive and negative aspects to consider.".

Definition review_conclusion_keywords : list string :=
  ["recommend"; "return"; "worth"; "overall"; "conclusion"; "final"].

Definition formatEnhancedReviewResponse (sentences : list jsstring)
    (structure : ContentStructure) : jsstring :=
  let opening :=
    find (fun s => mentions s ["experience"; "visit"; "tried"; "went";
                               "recently"; "last"]) sentences in
  let formatted :=
    match opening with
    | Some o => MEMO ++ lit " " ++ capitalizeFirst o ++ lit "." ++ [NL; NL]
    | None => []
    end in
  let formatted := formatted
    ++ section (SPARKLES ++ lit " What I Really Enjoyed:") bullet_line 4
         (positiveAspects structure) in
  let formatted := formatted
    ++ section (WARNING ++ lit " Areas for Improvement:") bullet_line 3
         (negativeAspects structure) in
  let highlights :=
    filter (fun s => mentions s ["highlight"; "memorable"; "standout";
                                 "impressive"; "notable"]) sentences in
  let formatted := formatted
    ++ section (STAR ++ lit " Memorable Highlights:") numbered_line 3
         highlights in
  let experienceDetails :=
    filter (fun s => mentions s ["atmosphere"; "ambiance"; "environment";
                                 "setting"; "vibe"; "feel"]) sentences in
  let formatted := formatted
    ++ section (HOUSE ++ lit " Atmosphere & Environment:") plain_line 2
         experienceDetails in
  let valueAspects :=
    filter (fun s => mentions s ["price"; "cost"; "value"; "worth";
                                 "expensive"; "affordable"]) sentences in
  let formatted := formatted
    ++ section (MONEY ++ lit " Value & Pricing:") plain_line 2 valueAspects in
  let formatted := formatted
    ++ section (BULB ++ lit " Recommendations:") bullet_line 3
         (suggestions structure) in
  let conclusion :=
    find (fun s => mentions s review_conclusion_keywords) sentences in
  let formatted := formatted ++
    match conclusion with
    | Some c => TARGET ++ lit " " ++ capitalizeFirst c ++ lit "."
    | None =>
        let positiveCount := length (positiveAspects structure) in
        let negativeCount := length (negativeAspects structure) in
        if (negativeCount <? positiveCount)%nat then REVIEW_POSITIVE
        else if (positiveCount <? negativeCount)%nat then REVIEW_NEGATIVE
        else REVIEW_MIXED
    end in
  trim formatted.

Definition formatEnhancedAnalysisResponse (sentences : list jsstring)
    (structure : ContentStructure) : jsstring :=
  let summary :=
    find (fun s => mentions s ["overall"; "summary"; "in conclusion";
                               "main takeaway"]) sentences in
  let formatted :=
    match summary with
    | Some x => CHART ++ lit " Executive Summary:" ++ [NL]
                ++ capitalizeFirst x ++ lit "." ++ [NL; NL]
    | None => []
    end in
  let findings :=
    filter (fun s => mentions s ["found"; "discovered"; "identified";
                                 "detected"; "observed"; "noticed"])
           sentences in
  let formatted := formatted
    ++ section (MAGNIFIER ++ lit " Detailed Findings:") numbered_line 5
         findings in
  let sentimentSentences :=
    filter (fun s => mentions s ["positive"; "negative"; "neutral";
                                 "sentiment"; "emotion"; "tone"]) sentences in
  let formatted := formatted
    ++ section (SMILE ++ lit " Sentiment Analysis:") bullet_line 3
         sentimentSentences in
  let formatted := formatted ++
    match topics structure with
    | [] => []
    | topic0 :: _ =>
        let topicSentences :=
          filter (fun s => existsb (fun topic =>
                             includes (toLowerCase s) topic)
                           (topics structure)) sentences in
        CLIPBOARD ++ lit " " ++ capitalizeFirst topic0
        ++ lit "-Specific Insights:" ++ [NL]
        ++ forEach numbered_line 0 (firstn 3 topicSentences) ++ [NL]
    end in
  let formatted := formatted
    ++ section (BULB ++ lit " Strategic Recommendations:") bullet_line 4
         (suggestions structure) in
  let actionItems :=
    filter (fun s => mentions s ["action"; "next"; "step"; "plan";
                                 "implement"; "improve"]) sentences in
  let formatted := formatted
    ++ section (ROCKET ++ lit " Action Items & Next Steps:") numbered_line 4
         actionItems in
  let impactSentences :=
    filter (fun s => mentions s ["impact"; "effect"; "result"; "outcome";
                                 "consequence"]) sentences in
  let formatted := formatted ++
    (if (0 <? length impactSentences)%nat
     then TREND ++ lit " Impact Assessment:" ++ [NL]
          ++ forEach bullet_line 0 (firstn 2 impactSentences)
     else []) in
  trim formatted.

Inductive Topic :=
| TopicTechnology | TopicFuture | TopicEntertainment | TopicPersonal
| TopicAssistance | TopicGeneral.

Inductive Mood := MoodPositive | MoodConcerned | MoodThoughtful | MoodNeutral.

Definition extractConversationTopic (text : jsstring) : Topic :=
  if text_has text ["ai"; "artificial intelligence"] then TopicTechnology
  else if text_has text ["future"; "tomorrow"] then TopicFuture
  else if text_has text ["story"; "joke"] then TopicEntertainment
  else if text_has text ["day"; "going"] then TopicPersonal
  else if text_has text ["help"; "understand"] then TopicAssistance
  else TopicGeneral.

Definition extractConversationSentiment (text : jsstring) : Mood :=
  if text_has text ["amazing"; "awesome"; "great"] then MoodPositive
  else if text_has text ["worried"; "concerned"; "problem"] then MoodConcerned
  else if text_has text ["curious"; "wonder"; "think"] then MoodThoughtful
  else MoodNeutral.

Record ConversationContext := {
  hasGreeting : bool;
  hasQuestion : bool;
  hasPersonalInsights : bool;
  isCasual : bool;
  isThoughtful : bool;
  topic : Topic;
  sentiment : Mood
}.

Definition analyzeConversationContext (sentences : list jsstring)
    : ConversationContext :=
  let text := toLowerCase (join (lit " ") sentences) in
  {| hasGreeting := text_has text ["hello"; "hi"; "hey"; "thanks"];
     hasQuestion := text_has text ["?"];
     hasPersonalInsights := text_has text ["think"; "believe"; "feel"];
     isCasual := text_has text ["cool"; "awesome"; "great"];
     isThoughtful := text_has text ["interesting"; "fascinating"; "consider"];
     topic := extractConversationTopic text;
     sentiment := extractConversationSentiment text |}.

(** [l.slice(from, to)] *)
Definition slice (from to : nat) (l : list jsstring) : list jsstring :=
  firstn (to - from) (skipn from l).

Definition structureMainResponse (sentences : list jsstring)
    (context : ConversationContext) : jsstring :=
  let openingSentences := slice 0 2 sentences in
  let mainContent := slice 2 5 sentences in
  let closingSentences := slice 5 7 sentences in
  let structured :=
    if (0 <? length openingSentences)%nat
    then join (lit " ") (map capitalizeFirst openingSentences) ++ [NL; NL]
    else [] in
  let structured := structured ++
    (if (0 <? length mainContent)%nat
     then (if hasQuestion context
           then THINKING ++ lit " Here's what I think:" ++ [NL]
           else if isCasual context then SMILE ++ lit " "
           else THOUGHT ++ lit " ")
          ++ forEach (fun _ sentence => capitalizeFirst sentence ++ lit " ")
                     0 mainContent
          ++ [NL; NL]
     else []) in
  structured ++
    (if (0 <? length closingSentences)%nat
     then join (lit " ") (map capitalizeFirst closingSentences)
     else []).

Definition generateConversationalClosing (context : ConversationContext)
    (sentences : list jsstring) : jsstring :=
  let existingFollowUp :=
    find (fun s => mentions s ["what about you"; "how about";
                               "what do you think"; "any thoughts";
                               "your experience"; "your opinion"])
         sentences in
  match existingFollowUp with
  | Some f => SPEECH ++ lit " " ++ capitalizeFirst f
  | None =>
      if hasQuestion context then
        SPEECH ++ lit " What are your thoughts on this? I'd love to hear your perspective!"
      else if isCasual context then
        SPEECH ++ lit " How about you? What's your take on this?"
      else if isThoughtful context then
        SPEECH ++ lit " What do you think about this? I'm curious about your viewpoint."
      else
        SPEECH ++ lit " What are your thoughts? I'd love to continue this conversation!"
  end.

(** What a template literal prints for the result of [capitalizeFirst] on
    the outcome of [find]: the text ["undefined"] when nothing was found. *)
Definition show_found (found : option jsstring) : jsstring :=
  match found with
  | Some s => capitalizeFirst s
  | None => lit "undefined"
  end.

Definition formatEnhancedConversationResponse (sentences : list jsstring)
    (structure : ContentStructure) : jsstring :=
  let context := analyzeConversationContext sentences in
  let formatted :=
    if hasGreeting context then
      let greeting :=
        find (fun s => mentions s ["hello"; "hi"; "hey"; "thanks";
                                   "thank you"; "appreciate"]) sentences in
      show_found greeting ++ lit "." ++ [NL; NL]
    else [] in
  let mainResponse := filter (fun s => (10 <? length s)%nat) sentences in
  let formatted := formatted ++
    (if (0 <? length mainResponse)%nat
     then structureMainResponse mainResponse context ++ [NL; NL]
     else []) in
  let formatted := formatted ++
    (if hasPersonalInsights context then
       let insights :=
         filter (fun s => mentions s ["think"; "believe"; "feel";
                                      "experience"; "opinion"; "view"])
                sentences in
       section (THOUGHT ++ lit " My Perspective:") plain_line 2 insights
     else []) in
  let closing := generateConversationalClosing context sentences in
  trim (formatted ++ closing).

Definition formatEnhancedCustomerServiceResponse (sentences : list jsstring)
    (structure : ContentStructure) : jsstring :=
  let acknowledgment :=
    find (fun s => mentions s ["understand"; "apologize"; "sorry"; "concern";
                               "issue"; "problem"]) sentences in
  let formatted :=
    match acknowledgment with
    | Some a =>
        HANDSHAKE ++ lit " " ++ capitalizeFirst a ++ lit "." ++ [NL; NL]
    | None => []
    end in
  let problemAnalysis :=
    filter (fun s => mentions s ["situation"; "circumstance"; "experience";
                                 "issue"; "problem"; "concern"]) sentences in
  let formatted := formatted
    ++ section (CLIPBOARD ++ lit " Understanding Your Situation:")
         bullet_line 3 problemAnalysis in
  let solutions :=
    filter (fun s => mentions s ["solution"; "resolve"; "fix"; "address";
                                 "correct"; "improve"]) sentences in
  let formatted := formatted
    ++ section (WRENCH ++ lit " Immediate Solutions:") numbered_line 4
         solutions in
  let improvements :=
    filter (fun s => mentions s ["improve"; "enhance"; "better"; "upgrade";
                                 "develop"; "advance"]) sentences in
  let formatted := formatted
    ++ section (ROCKET ++ lit " Long-term Improvements:") bullet_line 3
         improvements in
  let compensation :=
    filter (fun s => mentions s ["compensate"; "refund"; "discount";
                                 "credit"; "offer"; "gesture"]) sentences in
  let formatted := formatted
    ++ section (GIFT ++ lit " Goodwill Gestures:") bullet_line 2
         compensation in
  let followUp :=
    find (fun s => mentions s ["contact"; "reach"; "follow up";
                               "get in touch"; "available"]) sentences in
  let formatted := formatted ++
    match followUp with
    | Some f => PHONE ++ lit " " ++ capitalizeFirst f
    | None =>
        PHONE ++ lit " Please don't hesitate to reach out if you need any further assistance."
    end in
  trim formatted.

Definition formatEnhancedGeneralResponse (sentences : list jsstring)
    (structure : ContentStructure) : jsstring :=
  let formatted :=
    match sentences with
    | mainPoint :: _ =>
        if is_empty mainPoint then []
        else PIN ++ lit " Main Point:" ++ [NL] ++ capitalizeFirst mainPoint
             ++ lit "." ++ [NL; NL]
    | [] => []
    end in
  let explanations := slice 1 6 sentences in
  let formatted := formatted
    ++ section (CLIPBOARD ++ lit " Detailed Explanation:") numbered_line 5
         explanations in
  let insights :=
    filter (fun s => mentions s ["important"; "key"; "essential"; "critical";
                                 "significant"; "notable"]) sentences in
  let formatted := formatted
    ++ section (BULB ++ lit " Key Insights:") bullet_line 3 insights in
  let applications :=
    filter (fun s => mentions s ["example"; "instance"; "case"; "scenario";
                                 "situation"; "application"]) sentences in
  let formatted := formatted
    ++ section (MAGNIFIER ++ lit " Practical Examples:") numbered_line 2
         applications in
  let conclusion :=
    find (fun s => mentions s ["therefore"; "thus"; "in summary"; "overall";
                               "conclusion"; "final"]) sentences in
  let formatted := formatted ++
    match conclusion with
    | Some c => TARGET ++ lit " " ++ capitalizeFirst c
    | None =>
        TARGET ++ lit " In summary, this topic encompasses multiple important aspects that deserve careful consideration and thoughtful discussion."
    end in
  trim formatted.

(** The tokenizer: [text.split(/[.!?]+/).map(s => s.trim())
    .filter(s => s.length > 0)]. *)
Definition tokenize (text : jsstring) : list jsstring :=
  filter (fun s => (0 <? length s)%nat)
         (map trim (split_runs is_sentence_end text)).

Definition formatForEnhancedDepthAndRelevance (text : jsstring) : jsstring :=
  if is_empty text then text
  else
    let sentences := tokenize text in
    let structure := analyzeEnhancedContentStructure sentences in
    match type structure with
    | Review => formatEnhancedReviewResponse sentences structure
    | Analysis => formatEnhancedAnalysisResponse sentences structure
    | Conversation => formatEnhancedConversationResponse sentences structure
    | CustomerService =>
        formatEnhancedCustomerServiceResponse sentences structure
    | General => formatEnhancedGeneralResponse sentences structure
    end.

(** [cleanAIResponse(response)] on an arbitrary JavaScript value. *)
Definition cleanAIResponse (response : value) : value :=
  match response with
  | VStr s =>
      if is_empty s then response
      else VStr (formatForEnhancedDepthAndRelevance (cleaned s))
  | _ => response
  end.


End ResponseFormatter.

Import ResponseFormatter.

(* ================================================================= *)
(** ** Numbers

    A JavaScript number is a binary64 float.  Numbers are modelled as
    rationals, with a rounding operator [rnd] applied to the result of every
    arithmetic operation and to every decimal literal that a binary64 does
    not hold exactly (literals such as [0.5], [1.5] and the integers are
    written as they are).  Exact arithmetic is the instance [exact]; the
    properties of round-to-nearest that a proof needs are stated as
    hypotheses where it needs them. *)

Module Num.

Definition exact (x : Q) : Q := x.

(** [a > b] *)
Definition gtb (a b : Q) : bool := negb (Qle_bool a b).
(** [a >= b] *)
Definition geb (a b : Q) : bool := Qle_bool b a.
(** [a <= b] *)
Definition leb (a b : Q) : bool := Qle_bool a b.

(** [Math.min(a, b)] and [Math.max(a, b)] *)
Definition min (a b : Q) : Q := if Qle_bool a b then a else b.
Definition max (a b : Q) : Q := if Qle_bool a b then b else a.

Definition of_nat (n : nat) : Q := inject_Z (Z.of_nat n).

(** Rounding to the nearest multiple of 2^-60, halves upwards: an
    arithmetic that loses digits, for the examples. *)
Definition grid (x : Q) : Q :=
  (inject_Z (Qfloor (x * (1152921504606846976 # 1) + (1 # 2)))
   * (1 # 1152921504606846976))%Q.

End Num.

(* ================================================================= *)
(** ** services/enhancedLLMService.js *)

Module EnhancedLLMService.

Local Open Scope string_scope.
Local Open Scope list_scope.

Record ModelConfig := {
  name : jsstring;
  baseURL : jsstring;
  strengths : list jsstring;
  temperature : Q;
  maxTokens : Q
}.

Record Models := {
  llama : ModelConfig;
  gpt4 : ModelConfig;
  claude : ModelConfig;
  gemini : ModelConfig
}.

Record Pattern := {
  p_structure : list jsstring;
  p_tone : list jsstring;
  p_length : jsstring;
  p_complexity : jsstring
}.

(** The keys of [this.responsePatterns]. *)
Inductive PatternKey := KConversation | KAnalysis | KCustomerService | KReview.

(** [this.responsePatterns]: one object, created by the constructor and
    shared by every call on the service. *)
Record Patterns := {
  conversation : Pattern;
  analysis : Pattern;
  customer_service : Pattern;
  review : Pattern
}.

Definition get_pattern (ps : Patterns) (k : PatternKey) : Pattern :=
  match k with
  | KConversation => conversation ps
  | KAnalysis => analysis ps
  | KCustomerService => customer_service ps
  | KReview => review ps
  end.

Definition set_tone (p : Pattern) (t : list jsstring) : Pattern :=
  {| p_structure := p_structure p; p_tone := t;
     p_length := p_length p; p_complexity := p_complexity p |}.

(** The array [this.responsePatterns[k].tone] after a [push] on it. *)
Definition push_tone (ps : Patterns) (k : PatternKey) (x : jsstring)
    : Patterns :=
  let upd p := set_tone p (p_tone p ++ [x]) in
  match k with
  | KConversation =>
      {| conversation := upd (conversation ps); analysis := analysis ps;
         customer_service := customer_service ps; review := review ps |}
  | KAnalysis =>
      {| conversation := conversation ps; analysis := upd (analysis ps);
         customer_service := customer_service ps; review := review ps |}
  | KCustomerService =>
      {| conversation := conversation ps; analysis := analysis ps;
         customer_service := upd (customer_service ps); review := review ps |}
  | KReview =>
      {| conversation := conversation ps; analysis := analysis ps;
         customer_service := customer_service ps; review := upd (review ps) |}
  end.

Inductive ContentType :=
| CConversation | CAnalysis | CReview | CCustomerService | CInquiry
| CGeneral.

Definition content_name (c : ContentType) : string :=
  match c with
  | CConversation => "conversation"
  | CAnalysis => "analysis"
  | CReview => "review"
  | CCustomerService => "customer_service"
  | CInquiry => "inquiry"
  | CGeneral => "general"
  end.

Inductive Complexity := High | Medium | Low.
Inductive Sentiment := Positive | Negative | Neutral.
Inductive Urgency := UrgencyHigh | UrgencyNormal.
Inductive Domain :=
| DRestaurant | DHospitality | DRetail | DService | DTechnology | DGeneral.
Inductive Intent :=
| IQuestion | ISupport | IFeedback | IComplaint | IRecommendation
| IGeneral.

Record Analysis := {
  contentType : ContentType;
  complexity : Complexity;
  sentiment : Sentiment;
  urgency : Urgency;
  domain : Domain;
  userIntent : Intent
}.

(** [this.responsePatterns[contentType]]: the object has no entry for
    ['inquiry'] and ['general']. *)
Definition pattern_key (c : ContentType) : option PatternKey :=
  match c with
  | CConversation => Some KConversation
  | CAnalysis => Some KAnalysis
  | CCustomerService => Some KCustomerService
  | CReview => Some KReview
  | CInquiry | CGeneral => None
  end.

(** An array held by a strategy: either the very array of the registry
    (the same object, so that a [push] through one name is seen through the
    other) or an array created by the call. *)
Inductive ArrayRef :=
| RegistryTone (k : PatternKey)
| Fresh (l : list jsstring).

Definition deref (ps : Patterns) (r : ArrayRef) : list jsstring :=
  match r with
  | RegistryTone k => p_tone (get_pattern ps k)
  | Fresh l => l
  end.

Record Strategy := {
  model : ModelConfig;
  s_temperature : Q;
  s_maxTokens : Q;
  s_structure : list jsstring;
  s_tone : ArrayRef;
  s_length : jsstring;
  s_complexity : jsstring;
  enhancements : list jsstring
}.

Definition detectContentType (input : jsstring) : ContentType :=
  let text := toLowerCase input in
  if text_has text ["hello"; "hi"; "how are you"] then CConversation
  else if text_has text ["analyze"; "analysis"; "sentiment"] then CAnalysis
  else if text_has text ["review"; "experience"; "visit"] then CReview
  else if text_has text ["problem"; "issue"; "complaint"]
       then CCustomerService
  else if text_has text ["question"; "help"; "explain"] then CInquiry
  else CGeneral.

(** [words.filter(word => text.includes(word)).length] *)
Definition count_present (text : jsstring) (words : list string) : nat :=
  length (filter (fun w => includes text (lit w)) words).

Definition detectSentiment (input : jsstring) : Sentiment :=
  let text := toLowerCase input in
  let positiveWords := ["good"; "great"; "amazing"; "excellent"; "love";
                        "like"; "happy"; "satisfied"] in
  let negativeWords := ["bad"; "terrible"; "awful"; "hate"; "disappointed";
                        "angry"; "frustrated"] in
  let positiveCount := count_present text positiveWords in
  let negativeCount := count_present text negativeWords in
  if (negativeCount <? positiveCount)%nat then Positive
  else if (positiveCount <? negativeCount)%nat then Negative
  else Neutral.

Definition assessUrgency (input : jsstring) : Urgency :=
  let text := toLowerCase input in
  if text_has text ["urgent"; "asap"; "immediately"; "emergency";
                    "critical"; "now"]
  then UrgencyHigh else UrgencyNormal.

Definition detectDomain (input : jsstring) : Domain :=
  let text := toLowerCase input in
  if text_has text ["restaurant"; "food"; "dining"] then DRestaurant
  else if text_has text ["hotel"; "accommodation"; "stay"] then DHospitality
  else if text_has text ["product"; "purchase"; "buy"] then DRetail
  else if text_has text ["service"; "support"; "help"] then DService
  else if text_has text ["technology"; "app"; "software"] then DTechnology
  else DGeneral.

Definition inferUserIntent (input : jsstring) (context : value) : Intent :=
  let text := toLowerCase input in
  if text_has text ["?"] then IQuestion
  else if text_has text ["help"; "support"] then ISupport
  else if text_has text ["review"; "feedback"] then IFeedback
  else if text_has text ["complain"; "issue"] then IComplaint
  else if text_has text ["suggest"; "recommend"] then IRecommendation
  else IGeneral.

Definition content_eqb (a b : ContentType) : bool :=
  match a, b with
  | CConversation, CConversation | CAnalysis, CAnalysis
  | CReview, CReview | CCustomerService, CCustomerService
  | CInquiry, CInquiry | CGeneral, CGeneral => true
  | _, _ => false
  end.

Section Rounding.

Variable rnd : Q -> Q.

(** [this.models], as the constructor builds it. *)
Definition initial_models : Models :=
  {| llama :=
       {| name := lit "meta/llama-3.1-70b-instruct";
          baseURL := lit "https://integrate.api.nvidia.com/v1/chat/completions";
          strengths := map lit ["conversation"; "creative_writing";
                                "analysis"];
          temperature := rnd (6 # 10);
          maxTokens := 3072 |};
     gpt4 :=
       {| name := lit "gpt-4";
          baseURL := lit "https://api.openai.com/v1/chat/completions";
          strengths := map lit ["reasoning"; "structured_analysis";
                                "technical"];
          temperature := rnd (4 # 10);
          maxTokens := 4000 |};
     claude :=
       {| name := lit "claude-3-sonnet-20240229";
          baseURL := lit "https://api.anthropic.com/v1/messages";
          strengths := map lit ["empathy"; "customer_service";
                                "detailed_analysis"];
          temperature := rnd (3 # 10);
          maxTokens := 4000 |};
     gemini :=
       {| name := lit "gemini-pro";
          baseURL := lit "https://generativelanguage.googleapis.com/v1beta/models/gemini-pro:generateContent";
          strengths := map lit ["multimodal"; "creative";
                                "diverse_responses"];
          temperature := rnd (7 # 10);
          maxTokens := 2048 |} |}.

(** [this.responsePatterns], as the constructor builds it. *)
Definition initial_patterns : Patterns :=
  {| conversation :=
       {| p_structure := map lit ["greeting"; "main_content"; "engagement";
                                  "closing"];
          p_tone := map lit ["friendly"; "casual"; "engaging"];
          p_length := lit "medium";
          p_complexity := lit "moderate" |};
     analysis :=
       {| p_structure := map lit ["summary"; "key_findings"; "insights";
                                  "recommendations"];
          p_tone := map lit ["professional"; "objective"; "detailed"];
          p_length := lit "long";
          p_complexity := lit "high" |};
     customer_service :=
       {| p_structure := map lit ["acknowledgment"; "understanding";
                                  "solution"; "follow_up"];
          p_tone := map lit ["empathetic"; "professional"; "helpful"];
          p_length := lit "medium";
          p_complexity := lit "moderate" |};
     review :=
       {| p_structure := map lit ["experience"; "highlights"; "details";
                                  "recommendation"];
          p_tone := map lit ["personal"; "authentic"; "informative"];
          p_length := lit "medium";
          p_complexity := lit "moderate" |} |}.

Definition assessComplexity (input : jsstring) : Complexity :=
  let wordCount := length (split_char 32%N input) in
  let sentenceCount := length (split_runs is_sentence_end input) in
  let avgWordsPerSentence :=
    rnd (Num.of_nat wordCount / Num.of_nat sentenceCount)%Q in
  if (100 <? wordCount)%nat && Num.gtb avgWordsPerSentence 15 then High
  else if (50 <? wordCount)%nat && Num.gtb avgWordsPerSentence 10
       then Medium
  else Low.

Definition selectOptimalModel (models : Models) (a : Analysis)
    (context : value) : ModelConfig :=
  if content_eqb (contentType a) CCustomerService
     || match userIntent a with IComplaint => true | _ => false end
  then claude models
  else if content_eqb (contentType a) CAnalysis
          || match complexity a with High => true | _ => false end
  then gpt4 models
  else if content_eqb (contentType a) CReview
          || match domain a with DGeneral => true | _ => false end
  then gemini models
  else llama models.

(** [a || b] on a possibly empty string: the left operand when it is
    truthy. *)
Definition or_default (a : option jsstring) (b : jsstring) : jsstring :=
  match a with
  | Some x => if is_empty x then b else x
  | None => b
  end.

(** [generateResponseStrategy(analysis, selectedModel)], threading the
    registry it reads and writes.  [strategy.tone] is the registry's own
    array when the content type has a pattern, and [push] then writes to
    that array. *)
Definition generateResponseStrategy (ps : Patterns) (a : Analysis)
    (selectedModel : ModelConfig) : Strategy * Patterns :=
  let pat := option_map (get_pattern ps) (pattern_key (contentType a)) in
  let s_temp := temperature selectedModel in
  let s_max := maxTokens selectedModel in
  let structure :=
    match pat with
    | Some p => p_structure p
    | None => [lit "main_content"]
    end in
  let tone :=
    match pattern_key (contentType a) with
    | Some k => RegistryTone k
    | None => Fresh [lit "professional"]
    end in
  let len := or_default (option_map p_length pat) (lit "medium") in
  let cpx := or_default (option_map p_complexity pat) (lit "moderate") in
  let enh := [] in
  (* if (urgency === 'high') *)
  let '(s_temp, enh) :=
    match urgency a with
    | UrgencyHigh =>
        (Num.min (rnd (s_temp + rnd (2 # 10))%Q) 1,
         enh ++ [lit "urgent_response"])
    | UrgencyNormal => (s_temp, enh)
    end in
  (* if (sentiment === 'negative') *)
  let '(enh, tone, ps) :=
    match sentiment a with
    | Negative =>
        (enh ++ [lit "empathetic_tone"],
         match tone with
         | RegistryTone k => tone
         | Fresh l => Fresh (l ++ [lit "empathetic"])
         end,
         match tone with
         | RegistryTone k => push_tone ps k (lit "empathetic")
         | Fresh _ => ps
         end)
    | _ => (enh, tone, ps)
    end in
  (* if (complexity === 'high') *)
  let '(s_max, enh) :=
    match complexity a with
    | High =>
        (Num.min (rnd (s_max * (3 # 2))%Q) 8000,
         enh ++ [lit "detailed_explanation"])
    | _ => (s_max, enh)
    end in
  ({| model := selectedModel;
      s_temperature := s_temp;
      s_maxTokens := s_max;
      s_structure := structure;
      s_tone := tone;
      s_length := len;
      s_complexity := cpx;
      enhancements := enh |}, ps).

Definition calculateConfidence (a : Analysis) : Q :=
  let confidence := (1 # 2)%Q in
  let confidence :=
    if content_eqb (contentType a) CGeneral then confidence
    else rnd (confidence + rnd (2 # 10))%Q in
  let confidence :=
    match sentiment a with
    | Neutral => confidence
    | _ => rnd (confidence + rnd (1 # 10))%Q
    end in
  let confidence :=
    match domain a with
    | DGeneral => confidence
    | _ => rnd (confidence + rnd (1 # 10))%Q
    end in
  let confidence :=
    match userIntent a with
    | IGeneral => confidence
    | _ => rnd (confidence + rnd (1 # 10))%Q
    end in
  Num.min confidence 1.

Record Selection := {
  sel_analysis : Analysis;
  selectedModel : ModelConfig;
  responseStrategy : Strategy;
  confidence : Q
}.

(** The service object: its two tables. *)
Record Service := {
  models : Models;
  responsePatterns : Patterns
}.

Definition new_service : Service :=
  {| models := initial_models; responsePatterns := initial_patterns |}.

(** [analyzeInputAndSelectModel(input, context)]: the result and the service
    as the call leaves it. *)
Definition analyzeInputAndSelectModel (this : Service) (input : jsstring)
    (context : value) : Selection * Service :=
  let a :=
    {| contentType := detectContentType input;
       complexity := assessComplexity input;
       sentiment := detectSentiment input;
       urgency := assessUrgency input;
       domain := detectDomain input;
       userIntent := inferUserIntent input context |} in
  let m := selectOptimalModel (models this) a context in
  let '(strategy, ps) :=
    generateResponseStrategy (responsePatterns this) a m in
  ({| sel_analysis := a;
      selectedModel := m;
      responseStrategy := strategy;
      confidence := calculateConfidence a |},
   {| models := models this; responsePatterns := ps |}).

(** The service after [n] calls of [analyzeInputAndSelectModel] with the
    same arguments, each call working on the object the last one left. *)
Fixpoint after_calls (n : nat) (this : Service) (input : jsstring)
    (context : value) : Service :=
  match n with
  | O => this
  | S k =>
      after_calls k (snd (analyzeInputAndSelectModel this input context))
                  input context
  end.

End Rounding.

(** The four provider calls of [callModelAPI]. *)
Inductive Provider := LlamaAPI | OpenAIAPI | AnthropicAPI | GeminiAPI.

(** [callModelAPI]: the provider that is called for a model, chosen by
    substrings of the model name; [None] stands for
    [throw new Error('Unsupported model: ...')]. *)
Definition callModelAPI (model : ModelConfig) : option Provider :=
  if includes (name model) (lit "llama") then Some LlamaAPI
  else if includes (name model) (lit "gpt") then Some OpenAIAPI
  else if includes (name model) (lit "claude") then Some AnthropicAPI
  else if includes (name model) (lit "gemini") then Some GeminiAPI
  else None.

End EnhancedLLMService.

(* ================================================================= *)
(** ** utils/responseQualityAnalyzer.js *)

Module ResponseQualityAnalyzer.

Local Open Scope string_scope.
Local Open Scope list_scope.

(** The outcome of a method: a value, or the [TypeError] that JavaScript
    throws on a property access or a call on [undefined]. *)
Inductive result (A : Type) : Type :=
| Ok (a : A)
| TypeError.
Arguments Ok {A} a.
Arguments TypeError {A}.

Definition bind {A B : Type} (r : result A) (f : A -> result B) : result B :=
  match r with
  | Ok a => f a
  | TypeError => TypeError
  end.

(** [l.some(f)] for a callback that may throw. *)
Fixpoint some_m {A : Type} (f : A -> result bool) (l : list A)
    : result bool :=
  match l with
  | [] => Ok false
  | x :: r =>
      match f x with
      | TypeError => TypeError
      | Ok true => Ok true
      | Ok false => some_m f r
      end
  end.

(** [l.forEach(f)] threading an accumulator, for a callback that may throw. *)
Fixpoint forEach_m {A S : Type} (f : S -> A -> result S) (acc : S)
    (l : list A) : result S :=
  match l with
  | [] => Ok acc
  | x :: r => bind (f acc x) (fun acc' => forEach_m f acc' r)
  end.

Record OptimalLength := { min : Q; max : Q }.

Record Pattern := {
  requiredElements : list jsstring;
  optimalLength : OptimalLength;
  tone : list jsstring;
  structure : list jsstring
}.

Definition conversation : Pattern :=
  {| requiredElements := map lit ["greeting"; "main_content"; "engagement"];
     optimalLength := {| min := 50; max := 200 |};
     tone := map lit ["friendly"; "casual"; "engaging"];
     structure := map lit ["opening"; "body"; "closing"] |}.

Definition analysis : Pattern :=
  {| requiredElements := map lit ["summary"; "key_points"; "insights";
                                  "recommendations"];
     optimalLength := {| min := 150; max := 500 |};
     tone := map lit ["professional"; "objective"; "detailed"];
     structure := map lit ["executive_summary"; "detailed_analysis";
                           "conclusions"] |}.

Definition customer_service : Pattern :=
  {| requiredElements := map lit ["acknowledgment"; "understanding";
                                  "solution"; "follow_up"];
     optimalLength := {| min := 100; max := 300 |};
     tone := map lit ["empathetic"; "professional"; "helpful"];
     structure := map lit ["empathy"; "problem_understanding"; "solution";
                           "next_steps"] |}.

Definition review : Pattern :=
  {| requiredElements := map lit ["experience"; "highlights"; "details";
                                  "recommendation"];
     optimalLength := {| min := 100; max := 400 |};
     tone := map lit ["personal"; "authentic"; "informative"];
     structure := map lit ["context"; "experience"; "evaluation";
                           "recommendation"] |}.

(** The own properties of [this.responsePatterns], in insertion order. *)
Definition responsePatterns : list (string * Pattern) :=
  [ ("conversation", conversation); ("analysis", analysis);
    ("customer_service", customer_service); ("review", review) ].

(** The property names every object literal inherits from
    [Object.prototype]; each holds a function, [__proto__] the prototype
    itself. *)
Definition object_prototype_names : list string :=
  [ "constructor"; "__defineGetter__"; "__defineSetter__"; "hasOwnProperty";
    "__lookupGetter__"; "__lookupSetter__"; "isPrototypeOf";
    "propertyIsEnumerable"; "toString"; "valueOf"; "__proto__";
    "toLocaleString" ].

(** What [obj[key]] finds on an object literal: an own property, a property
    of [Object.prototype] (a truthy value with none of the fields the
    program reads), or nothing ([undefined]). *)
Inductive slot (A : Type) : Type :=
| Own (a : A)
| Inherited
| Absent.
Arguments Own {A} a.
Arguments Inherited {A}.
Arguments Absent {A}.

Fixpoint own_property {A : Type} (obj : list (string * A)) (key : jsstring)
    : option A :=
  match obj with
  | [] => None
  | (k, v) :: r => if JS.eqb (lit k) key then Some v else own_property r key
  end.

Definition get {A : Type} (obj : list (string * A)) (key : jsstring)
    : slot A :=
  match own_property obj key with
  | Some v => Own v
  | None =>
      if existsb (fun n => JS.eqb (lit n) key) object_prototype_names
      then Inherited else Absent
  end.

(** [this.responsePatterns[contentType] || this.responsePatterns.conversation]:
    [None] stands for a value taken from [Object.prototype], on which every
    field of a pattern reads as [undefined]. *)
Definition pattern_for (contentType : jsstring) : option Pattern :=
  match get responsePatterns contentType with
  | Own p => Some p
  | Inherited => None
  | Absent => Some conversation
  end.

Definition synonymMap : list (string * list jsstring) :=
  [ ("greeting", map lit ["hello"; "hi"; "hey"; "welcome"]);
    ("main_content", map lit ["content"; "information"; "details";
                              "explanation"]);
    ("engagement", map lit ["interaction"; "participation"; "involvement"]);
    ("summary", map lit ["overview"; "recap"; "summary"; "brief"]);
    ("key_points", map lit ["main points"; "important points";
                            "key findings"]);
    ("insights", map lit ["observations"; "findings"; "discoveries"]);
    ("recommendations", map lit ["suggestions"; "advice";
                                 "recommendations"]);
    ("acknowledgment", map lit ["understand"; "recognize"; "acknowledge"]);
    ("understanding", map lit ["comprehend"; "grasp"; "understand"]);
    ("solution", map lit ["resolve"; "fix"; "address"; "solve"]);
    ("follow_up", map lit ["next steps"; "follow up"; "continue"]) ].

(** [obj[key] || []] followed by [.some(f)]: a value inherited from
    [Object.prototype] is truthy and has no [some]. *)
Definition some_of {A : Type} (found : slot (list A)) (f : A -> bool)
    : result bool :=
  match found with
  | Own l => Ok (existsb f l)
  | Absent => Ok false
  | Inherited => TypeError
  end.

(** [synonymMap[word] || []] *)
Definition findSynonyms (word : jsstring) : slot (list jsstring) :=
  get synonymMap word.

Definition UNDERSCORE : cu := 95%N.

Section Rounding.

Variable rnd : Q -> Q.

Definition analyzeCompleteness (response contentType : jsstring)
    : result Q :=
  if is_empty response then Ok 0%Q
  else
    match pattern_for contentType with
    | None => TypeError     (* requiredElements is undefined *)
    | Some pattern =>
        let requiredElements := requiredElements pattern in
        let responseLower := toLowerCase response in
        forEach_m
          (fun completenessScore element =>
             let elementWords := split_char UNDERSCORE element in
             bind
               (some_m
                  (fun word =>
                     if includes responseLower word then Ok true
                     else some_of (findSynonyms word)
                            (fun synonym => includes responseLower synonym))
                  elementWords)
               (fun hasElement =>
                  Ok (if hasElement
                      then rnd (completenessScore
                                + rnd (1 / Num.of_nat
                                             (length requiredElements)))%Q
                      else completenessScore)))
          0%Q requiredElements
    end.

(** [/\n\s*\n/] at the current position. *)
Definition m_paragraph_break : matcher := fun _ s =>
  match s with
  | c :: r =>
      if (c =? NL)%N then
        match after_last_nl (firstn (count_while is_space r) r) with
        | Some k => Some ([], 1 + k)
        | None => None
        end
      else None
  | [] => None
  end.

(** [s.split(re)] for a regular expression without groups whose matches are
    not empty. *)
Fixpoint split_re_go (m : matcher) (prev : option cu) (skip : nat)
    (acc : jsstring) (s : jsstring) : list jsstring :=
  match s with
  | [] => [rev acc]
  | c :: s' =>
      match skip with
      | S k => split_re_go m (Some c) k acc s'
      | O =>
          match m prev s with
          | Some (_, len) => rev acc :: split_re_go m (Some c) (pred len) [] s'
          | None => split_re_go m (Some c) O (c :: acc) s'
          end
      end
  end.

Definition split_re (m : matcher) (s : jsstring) : list jsstring :=
  split_re_go m None 0 [] s.

(** [re.test(s)] *)
Fixpoint test_go (m : matcher) (prev : option cu) (s : jsstring) : bool :=
  match s with
  | [] => false
  | c :: s' =>
      match m prev s with
      | Some _ => true
      | None => test_go m (Some c) s'
      end
  end.

Definition test (m : matcher) (s : jsstring) : bool := test_go m None s.

(** [/\n\s*[-*•]\s/] *)
Definition m_has_bullet : matcher := fun _ s =>
  match s with
  | c :: r =>
      if (c =? NL)%N then
        match skipn (count_while is_space r) r with
        | b :: sp :: _ =>
            if is_bullet b && is_space sp then Some ([], 1) else None
        | _ => None
        end
      else None
  | [] => None
  end.

(** [/\n\s*\d+[.)]\s/] *)
Definition m_has_numbered : matcher := fun _ s =>
  match s with
  | c :: r =>
      if (c =? NL)%N then
        let r1 := skipn (count_while is_space r) r in
        let d := count_while is_digit r1 in
        if (1 <=? d)%nat then
          match skipn d r1 with
          | p :: sp :: _ =>
              if dot_or_paren p && is_space sp then Some ([], 1) else None
          | _ => None
          end
        else None
      else None
  | [] => None
  end.

Definition clamp01 (x : Q) : Q := Num.min (Num.max x 0) 1.

Definition analyzeStructure (response contentType : jsstring) : result Q :=
  if is_empty response then Ok 0%Q
  else
    let structureScore := (1 # 2)%Q in
    let paragraphs :=
      filter (fun p => (0 <? length (trim p))%nat)
             (split_re m_paragraph_break response) in
    let structureScore :=
      if (2 <=? length paragraphs)%nat
      then rnd (structureScore + rnd (2 # 10))%Q else structureScore in
    let indicatorCount :=
      length (filter (fun indicator =>
                        includes (toLowerCase response) (lit indicator))
                     ["first"; "second"; "third"; "finally"; "in conclusion";
                      "to summarize"; "overall"]) in
    let structureScore :=
      if (2 <=? indicatorCount)%nat
      then rnd (structureScore + rnd (2 # 10))%Q
      else if (1 <=? indicatorCount)%nat
      then rnd (structureScore + rnd (1 # 10))%Q
      else structureScore in
    let hasBulletPoints := test m_has_bullet response in
    let hasNumberedList := test m_has_numbered response in
    let structureScore :=
      if hasBulletPoints || hasNumberedList
      then rnd (structureScore + rnd (1 # 10))%Q else structureScore in
    Ok (clamp01 structureScore).

Definition toneIndicators : list (string * list jsstring) :=
  [ ("professional", map lit ["professional"; "expert"; "analysis";
                              "recommendation"; "assessment"]);
    ("casual", map lit ["cool"; "awesome"; "great"; "nice"; "fun"]);
    ("friendly", map lit ["hello"; "hi"; "thanks"; "appreciate"; "welcome"]);
    ("empathetic", map lit ["understand"; "sorry"; "apologize"; "care";
                            "concern"]);
    ("formal", map lit ["therefore"; "consequently"; "furthermore";
                        "moreover"; "thus"]) ].

Definition analyzeTone (response contentType : jsstring) : result Q :=
  if is_empty response then Ok 0%Q
  else
    match pattern_for contentType with
    | None => TypeError     (* expectedTones is undefined *)
    | Some pattern =>
        let expectedTones := tone pattern in
        bind
          (forEach_m
             (fun toneScore expectedTone =>
                bind
                  (some_of (get toneIndicators expectedTone)
                     (fun indicator =>
                        includes (toLowerCase response) indicator))
                  (fun hasTone =>
                     Ok (if hasTone
                         then rnd (toneScore + rnd (2 # 10))%Q
                         else toneScore)))
             (1 # 2)%Q expectedTones)
          (fun toneScore => Ok (clamp01 toneScore))
    end.

Definition analyzeLength (response contentType : jsstring) : result Q :=
  if is_empty response then Ok 0%Q
  else
    match pattern_for contentType with
    | None => TypeError     (* optimalLength is undefined *)
    | Some pattern =>
        let wordCount := Num.of_nat (length (split_char 32%N response)) in
        let min := min (optimalLength pattern) in
        let max := max (optimalLength pattern) in
        if Num.geb wordCount min && Num.leb wordCount max then Ok 1%Q
        else if Num.geb wordCount (rnd (min * rnd (8 # 10))%Q)
                && Num.leb wordCount (rnd (max * rnd (12 # 10))%Q)
        then Ok (rnd (8 # 10))
        else if Num.geb wordCount (rnd (min * rnd (6 # 10))%Q)
                && Num.leb wordCount (rnd (max * rnd (14 # 10))%Q)
        then Ok (rnd (6 # 10))
        else Ok (rnd (3 # 10))
    end.

Inductive Metric :=
| coherence | relevance | completeness | clarity | engagement
| m_structure | m_tone | m_length.

Record Metrics := {
  get_coherence : Q;
  get_relevance : Q;
  get_completeness : Q;
  get_clarity : Q;
  get_engagement : Q;
  get_structure : Q;
  get_tone : Q;
  get_length : Q
}.

(** [metrics[metric]] *)
Definition metric (m : Metrics) (k : Metric) : Q :=
  match k with
  | coherence => get_coherence m
  | relevance => get_relevance m
  | completeness => get_completeness m
  | clarity => get_clarity m
  | engagement => get_engagement m
  | m_structure => get_structure m
  | m_tone => get_tone m
  | m_length => get_length m
  end.

(** The object [weights], in the order of [Object.keys]. *)
Definition weights : list (Metric * Q) :=
  [ (coherence, rnd (15 # 100)); (relevance, rnd (15 # 100));
    (completeness, rnd (15 # 100)); (clarity, rnd (15 # 100));
    (engagement, rnd (10 # 100)); (m_structure, rnd (10 # 100));
    (m_tone, rnd (10 # 100)); (m_length, rnd (10 # 100)) ].

Definition calculateOverallScore (metrics : Metrics) : Q :=
  let '(totalScore, totalWeight) :=
    fold_left
      (fun '(totalScore, totalWeight) '(k, w) =>
         (rnd (totalScore + rnd (metric metrics k * w))%Q,
          rnd (totalWeight + w)%Q))
      weights (0%Q, 0%Q) in
  if Num.gtb totalWeight 0 then rnd (totalScore / totalWeight)%Q else 0%Q.

(** [a < b] *)
Definition ltb (a b : Q) : bool := negb (Qle_bool b a).

(** [if (c) l.push(x)] *)
Definition push_if (c : bool) (x : string) (l : list jsstring)
    : list jsstring :=
  if c then l ++ [lit x] else l.

Definition identifyStrengths (metrics : Metrics) : list jsstring :=
  let strengths := [] in
  let strengths :=
    push_if (Num.geb (get_coherence metrics) (rnd (8 # 10)))
      "Excellent logical flow and coherence" strengths in
  let strengths :=
    push_if (Num.geb (get_relevance metrics) (rnd (8 # 10)))
      "Highly relevant to the context" strengths in
  let strengths :=
    push_if (Num.geb (get_completeness metrics) (rnd (8 # 10)))
      "Comprehensive and complete response" strengths in
  let strengths :=
    push_if (Num.geb (get_clarity metrics) (rnd (8 # 10)))
      "Clear and easy to understand" strengths in
  let strengths :=
    push_if (Num.geb (get_engagement metrics) (rnd (8 # 10)))
      "Engaging and interactive" strengths in
  let strengths :=
    push_if (Num.geb (get_structure metrics) (rnd (8 # 10)))
      "Well-structured and organized" strengths in
  let strengths :=
    push_if (Num.geb (get_tone metrics) (rnd (8 # 10)))
      "Appropriate tone for the context" strengths in
  push_if (Num.geb (get_length metrics) (rnd (8 # 10)))
    "Optimal length for the content type" strengths.

Definition identifyWeaknesses (metrics : Metrics) : list jsstring :=
  let weaknesses := [] in
  let weaknesses :=
    push_if (ltb (get_coherence metrics) (1 # 2))
      "Poor logical flow and coherence" weaknesses in
  let weaknesses :=
    push_if (ltb (get_relevance metrics) (1 # 2))
      "Low relevance to the context" weaknesses in
  let weaknesses :=
    push_if (ltb (get_completeness metrics) (1 # 2))
      "Incomplete response" weaknesses in
  let weaknesses :=
    push_if (ltb (get_clarity metrics) (1 # 2))
      "Unclear or confusing" weaknesses in
  let weaknesses :=
    push_if (ltb (get_engagement metrics) (1 # 2))
      "Not engaging enough" weaknesses in
  let weaknesses :=
    push_if (ltb (get_structure metrics) (1 # 2))
      "Poor structure and organization" weaknesses in
  let weaknesses :=
    push_if (ltb (get_tone metrics) (1 # 2))
      "Inappropriate tone" weaknesses in
  push_if (ltb (get_length metrics) (1 # 2))
    "Length not appropriate for content type" weaknesses.

(** [generateSuggestions(analysis)]: of the analysis it reads the metrics
    only. *)
Definition generateSuggestions (metrics : Metrics) : list jsstring :=
  let suggestions := [] in
  let suggestions :=
    push_if (ltb (get_coherence metrics) (rnd (6 # 10)))
      "Add transition words to improve flow between ideas" suggestions in
  let suggestions :=
    push_if (ltb (get_relevance metrics) (rnd (6 # 10)))
      "Focus more on the specific context and user needs" suggestions in
  let suggestions :=
    push_if (ltb (get_completeness metrics) (rnd (6 # 10)))
      "Include more comprehensive information and details" suggestions in
  let suggestions :=
    push_if (ltb (get_clarity metrics) (rnd (6 # 10)))
      "Use shorter sentences and simpler language" suggestions in
  let suggestions :=
    push_if (ltb (get_engagement metrics) (rnd (6 # 10)))
      "Add questions or personal pronouns to increase engagement"
      suggestions in
  let suggestions :=
    push_if (ltb (get_structure metrics) (rnd (6 # 10)))
      "Organize content with clear sections and bullet points"
      suggestions in
  let suggestions :=
    push_if (ltb (get_tone metrics) (rnd (6 # 10)))
      "Adjust tone to better match the expected style" suggestions in
  push_if (ltb (get_length metrics) (rnd (6 # 10)))
    "Adjust response length to better fit the content type" suggestions.

(** [words.filter(word => text.includes(word)).length] *)
Definition how_many (text : jsstring) (words : list string) : nat :=
  length (filter (fun word => includes text (lit word)) words).

Definition analyzeEngagement (response : jsstring) : Q :=
  if is_empty response then 0%Q
  else
    let engagementScore := (1 # 2)%Q in
    (* (response.match(/\?/g) || []).length *)
    let questionCount := length (filter (N.eqb 63%N) response) in
    let engagementScore :=
      if (0 <? questionCount)%nat
      then rnd (engagementScore + rnd (2 # 10))%Q else engagementScore in
    let pronounCount :=
      how_many (toLowerCase response) ["you"; "your"; "we"; "our"; "us"] in
    let engagementScore :=
      if (3 <=? pronounCount)%nat
      then rnd (engagementScore + rnd (2 # 10))%Q
      else if (1 <=? pronounCount)%nat
      then rnd (engagementScore + rnd (1 # 10))%Q
      else engagementScore in
    let emotionalCount :=
      how_many (toLowerCase response)
        ["amazing"; "fantastic"; "wonderful"; "excellent"; "great"; "love";
         "enjoy"; "appreciate"] in
    let engagementScore :=
      if (2 <=? emotionalCount)%nat
      then rnd (engagementScore + rnd (1 # 10))%Q else engagementScore in
    let hasCallToAction :=
      text_has (toLowerCase response)
        ["try"; "consider"; "think about"; "imagine"; "suppose"] in
    let engagementScore :=
      if hasCallToAction
      then rnd (engagementScore + rnd (1 # 10))%Q else engagementScore in
    clamp01 engagementScore.

End Rounding.

(** The values of [this.responsePatterns]. *)
Definition known_patterns : list Pattern :=
  [conversation; analysis; customer_service; review].

(** [response.split(/[.!?]+/).filter(s => s.trim().length > 0)] *)
Definition sentences_of (response : jsstring) : list jsstring :=
  filter (fun s => (0 <? length (trim s))%nat)
         (split_runs is_sentence_end response).

Definition extractKeyPoints (response : jsstring) : list jsstring :=
  if is_empty response then []
  else
    let sentences := sentences_of response in
    (* sentences.forEach(sentence => { if (...) keyPoints.push(sentence.trim()) }) *)
    let keyPoints :=
      map trim
        (filter (fun sentence =>
                   mentions sentence
                     ["important"; "key"; "main"; "primary"; "essential";
                      "critical"; "significant"; "notable"]
                   && (10 <? length (trim sentence))%nat)
                sentences) in
    let keyPoints :=
      if (length keyPoints =? 0)%nat && (0 <? length sentences)%nat
      then keyPoints
           ++ map trim (firstn (Nat.min 3 (length sentences)) sentences)
      else keyPoints in
    firstn 5 keyPoints.

Section MoreMetrics.

Variable rnd : Q -> Q.

(** [a.slice(-n)] *)
Definition slice_last (n : nat) (l : list jsstring) : list jsstring :=
  skipn (length l - n) l.

Definition transitions : list string :=
  ["however"; "therefore"; "furthermore"; "moreover"; "in addition";
   "consequently"; "as a result"; "meanwhile"; "subsequently"].

(** The turns of [for (let i = 1; i < sentences.length; i++)] of
    [analyzeCoherence] that are still to run, [previous] being
    [sentences[i-1]] and [rest] the sentences from [sentences[i]] on; the
    result is [coherenceScore] and [transitionCount] after the loop. *)
Fixpoint coherence_loop (previous : jsstring) (rest : list jsstring)
    (coherenceScore : Q) (transitionCount : nat) : Q * nat :=
  match rest with
  | [] => (coherenceScore, transitionCount)
  | current :: rest' =>
      let currentSentence := toLowerCase current in
      let hasTransition := text_has currentSentence transitions in
      let transitionCount :=
        if hasTransition then S transitionCount else transitionCount in
      let prevWords :=
        slice_last 3 (split_char 32%N (toLowerCase previous)) in
      let currentWords := firstn 3 (split_char 32%N currentSentence) in
      let hasContinuity :=
        existsb (fun word => existsb (JS.eqb word) currentWords)
                prevWords in
      let coherenceScore :=
        if hasContinuity then rnd (coherenceScore + rnd (2 # 10))%Q
        else coherenceScore in
      coherence_loop current rest' coherenceScore transitionCount
  end.

Definition analyzeCoherence (response : jsstring) : Q :=
  if is_empty response then 0%Q
  else
    let sentences := sentences_of response in
    match sentences with
    | [] | [_] => (1 # 2)%Q          (* sentences.length < 2 *)
    | first :: rest =>
        let '(coherenceScore, transitionCount) :=
          coherence_loop first rest 0%Q O in
        let n := Num.of_nat (length sentences) in
        let transitionScore :=
          rnd (Num.min (rnd (Num.of_nat transitionCount / n)) 1
               * rnd (3 # 10))%Q in
        let continuityScore :=
          rnd (Num.min (rnd (coherenceScore / n)) 1 * rnd (7 # 10))%Q in
        Num.min (rnd (transitionScore + continuityScore)%Q) 1
    end.

(** [total / count] for two counts: [None] stands for the [NaN] of
    [0 / 0]. *)
Definition average (total count : nat) : option Q :=
  if (count =? 0)%nat then None
  else Some (rnd (Num.of_nat total / Num.of_nat count)%Q).

(** [a <= b] for a number [a] that may be [NaN]. *)
Definition at_most (a : option Q) (b : Q) : bool :=
  match a with
  | Some x => Num.leb x b
  | None => false
  end.

Definition analyzeClarity (response : jsstring) : Q :=
  if is_empty response then 0%Q
  else
    let clarityScore := (1 # 2)%Q in
    let sentences := sentences_of response in
    let avgSentenceLength :=
      average
        (fold_left (fun sum sentence =>
                      (sum + length (split_char 32%N sentence))%nat)
                   sentences O)
        (length sentences) in
    let clarityScore :=
      if at_most avgSentenceLength 15
      then rnd (clarityScore + rnd (2 # 10))%Q
      else if at_most avgSentenceLength 25
      then rnd (clarityScore + rnd (1 # 10))%Q
      else rnd (clarityScore - rnd (1 # 10))%Q in
    let complexWordCount :=
      how_many (toLowerCase response)
        ["notwithstanding"; "aforementioned"; "subsequently";
         "consequently"; "furthermore"] in
    let clarityScore :=
      if (complexWordCount =? 0)%nat
      then rnd (clarityScore + rnd (2 # 10))%Q
      else if (complexWordCount <=? 2)%nat
      then rnd (clarityScore + rnd (1 # 10))%Q
      else rnd (clarityScore - rnd (1 # 10))%Q in
    let passiveCount :=
      how_many (toLowerCase response)
        ["is being"; "are being"; "was being"; "were being"; "has been";
         "have been"] in
    let clarityScore :=
      if (passiveCount =? 0)%nat
      then rnd (clarityScore + rnd (1 # 10))%Q
      else rnd (clarityScore - rnd (1 # 10))%Q in
    clamp01 clarityScore.

End MoreMetrics.

End ResponseQualityAnalyzer.

(* ================================================================= *)
(** ** utils/conversationUtils.js *)

Module ConversationUtils.

Local Open Scope string_scope.
Local Open Scope list_scope.

(** A message of the conversation history. *)
Record Message := { role : jsstring; content : jsstring }.

Inductive Tone := ToneNeutral | ToneEnthusiastic | ToneCurious.
Inductive Complexity := Simple | Detailed.
Inductive Engagement := EngagementMedium | EngagementHigh.

(** The context object; [topics] is a [Set] of strings, kept as the list of
    its members in insertion order. *)
Record Flow := {
  topics : list jsstring;
  tone : Tone;
  complexity : Complexity;
  engagement : Engagement;
  continuity : list bool
}.

(** [set.has(x)] and [set.add(x)] *)
Definition has (set : list jsstring) (x : jsstring) : bool :=
  existsb (JS.eqb x) set.
Definition add (set : list jsstring) (x : jsstring) : list jsstring :=
  if has set x then set else set ++ [x].

Definition hasTopicContinuity (prevText currentText : jsstring) : bool :=
  existsb (fun topic => includes prevText (lit topic)
                        && includes currentText (lit topic))
          ["ai"; "technology"; "future"; "personal"; "help"; "question";
           "think"; "feel"].

Definition is_neutral (t : Tone) : bool :=
  match t with ToneNeutral => true | _ => false end.

(** The callback of [history.forEach((msg, index) => ...)], on the context
    as the earlier turns left it.  [None] stands for the [TypeError] of
    reading [content] of a message that the history does not have. *)
Definition flow_step (history : list Message) (context : Flow) (index : nat)
    (msg : Message) : option Flow :=
  let text := toLowerCase (content msg) in
  let topics := topics context in
  let topics :=
    if text_has text ["ai"; "technology"]
    then add topics (lit "technology") else topics in
  let topics :=
    if text_has text ["future"; "tomorrow"]
    then add topics (lit "future") else topics in
  let topics :=
    if text_has text ["personal"; "day"]
    then add topics (lit "personal") else topics in
  let topics :=
    if text_has text ["help"; "question"]
    then add topics (lit "assistance") else topics in
  let tone := tone context in
  let tone :=
    if text_has text ["!"; "amazing"] then ToneEnthusiastic else tone in
  let tone :=
    if includes text (lit "?") && is_neutral tone then ToneCurious
    else tone in
  let complexity :=
    if (20 <? length (split_char 32%N text))%nat then Detailed
    else complexity context in
  let engagement :=
    if text_has text ["what about you"; "your thoughts"]
    then EngagementHigh else engagement context in
  match index with
  | O =>
      Some {| topics := topics; tone := tone; complexity := complexity;
              engagement := engagement; continuity := continuity context |}
  | S before =>
      match nth_error history before with
      | Some prev =>
          let prevText := toLowerCase (content prev) in
          Some {| topics := topics; tone := tone; complexity := complexity;
                  engagement := engagement;
                  continuity :=
                    continuity context
                    ++ [hasTopicContinuity prevText text] |}
      | None => None
      end
  end.

(** [l.forEach((msg, index) => ...)] from a given index on, threading the
    context. *)
Fixpoint forEach_from (f : Flow -> nat -> Message -> option Flow)
    (context : Flow) (index : nat) (l : list Message) : option Flow :=
  match l with
  | [] => Some context
  | msg :: rest =>
      match f context index msg with
      | Some context' => forEach_from f context' (S index) rest
      | None => None
      end
  end.

Definition initial_flow : Flow :=
  {| topics := []; tone := ToneNeutral; complexity := Simple;
     engagement := EngagementMedium; continuity := [] |}.

Definition analyzeConversationFlow (history : list Message) : option Flow :=
  forEach_from (flow_step history) initial_flow 0 history.

Definition enhanceUserMessage (content : jsstring) (context : Flow)
    : jsstring :=
  if has (topics context) (lit "technology")
     && includes (toLowerCase content) (lit "ai")
  then lit "[Continuing our AI discussion] " ++ content
  else if match engagement context with
          | EngagementHigh => true
          | EngagementMedium => false
          end
          && includes content (lit "?")
  then lit "[Following up on your question] " ++ content
  else match nth_error (continuity context)
                       (length (continuity context) - 1) with
       | Some false => lit "[New topic] " ++ content
       | _ => content
       end.

End ConversationUtils.

(* ================================================================= *)
(** ** services/llamaService.js: the JSON recovery paths *)

Module LlamaService.

Local Open Scope string_scope.
Local Open Scope list_scope.

(** A method either returns or throws what [handleAPIError] makes of the
    error caught by its outer [try]. *)
Inductive outcome (A : Type) : Type :=
| Returned (a : A)
| Thrown.
Arguments Returned {A} a.
Arguments Thrown {A}.

(** What the awaited [axios.post] delivers: a rejection, or a completion
    with the value of [completion.data.choices[0]?.message?.content]
    ([VUndefined] when absent) and of [completion.data.usage]. *)
Inductive Upstream :=
| Rejected
| Completed (content usage : value).

(** [a || b] *)
Definition or_else (a b : value) : value := if truthy a then a else b.

(** A canonical array index: decimal digits without a leading zero, below
    2^32 - 1. *)
Fixpoint digits_value (acc : N) (s : jsstring) : option N :=
  match s with
  | [] => Some acc
  | c :: r =>
      if is_digit c then digits_value (acc * 10 + (c - 48))%N r else None
  end.

Definition array_index (key : jsstring) : option N :=
  match key with
  | [] => None
  | c :: r =>
      if (c =? 48)%N && negb (is_empty r) then None
      else if (10 <? length key)%nat then None
      else match digits_value 0%N key with
           | Some n => if (n <? 4294967295)%N then Some n else None
           | None => None
           end
  end.

(** Creation of a property that the object does not have yet: array indices
    come first, in ascending order, then the other keys in the order of
    their creation. *)
Fixpoint insert_property (key : jsstring) (v : value)
    (props : list (jsstring * value)) : list (jsstring * value) :=
  match props with
  | [] => [(key, v)]
  | (k, x) :: r =>
      match array_index key, array_index k with
      | Some n, Some m =>
          if (n <? m)%N then (key, v) :: props
          else (k, x) :: insert_property key v r
      | Some _, None => (key, v) :: props
      | None, _ => (k, x) :: insert_property key v r
      end
  end.

Fixpoint has_property (key : jsstring) (props : list (jsstring * value))
    : bool :=
  match props with
  | [] => false
  | (k, _) :: r => JS.eqb k key || has_property key r
  end.

Fixpoint replace_property (key : jsstring) (v : value)
    (props : list (jsstring * value)) : list (jsstring * value) :=
  match props with
  | [] => []
  | (k, x) :: r =>
      if JS.eqb k key then (k, v) :: r
      else (k, x) :: replace_property key v r
  end.

(** [obj[key] = v] *)
Definition set_property (props : list (jsstring * value)) (key : jsstring)
    (v : value) : list (jsstring * value) :=
  if has_property key props then replace_property key v props
  else insert_property key v props.

Fixpoint indexed {A : Type} (f : A -> value) (i : nat) (l : list A)
    : list (jsstring * value) :=
  match l with
  | [] => []
  | x :: r => (JS.of_nat i, f x) :: indexed f (S i) r
  end.

(** The own enumerable properties that [{...v}] copies. *)
Definition own_enumerable (v : value) : list (jsstring * value) :=
  match v with
  | VObj props => props
  | VArr l => indexed (fun x => x) 0 l
  | VStr s => indexed (fun c => VStr [c]) 0 s
  | _ => []
  end.

(** [{ ...a, ...b }] for an object [a]. *)
Definition spread (a : list (jsstring * value)) (b : value)
    : list (jsstring * value) :=
  fold_left (fun acc kv => set_property acc (fst kv) (snd kv))
            (own_enumerable b) a.

(** [v.key] for a key that no prototype defines: [undefined], except that
    reading a property of [undefined] or [null] throws. *)
Definition get_property (v : value) (key : string) : option value :=
  match v with
  | VUndefined | VNull => None
  | VObj props =>
      match find (fun kv => JS.eqb (fst kv) (lit key)) props with
      | Some kv => Some (snd kv)
      | None => Some VUndefined
      end
  | _ => Some VUndefined
  end.

Definition str (s : string) : value := VStr (lit s).
Definition prop (k : string) (v : value) : jsstring * value := (lit k, v).

(** [transcript.split(' ').length] *)
Definition wordCount (transcript : jsstring) : value :=
  VNum (Num.of_nat (length (split_char 32%N transcript))).

(** The record assigned in the [catch] of [analyzeVoiceInput]. *)
Definition voice_fallback (transcript : jsstring) : value :=
  VObj [ prop "sentiment" (str "neutral");
         prop "confidence" (VNum (1 # 2));
         prop "keyPoints" (VArr [str "Content analyzed"]);
         prop "topics" (VArr [str "General"]);
         prop "suggestions" (VArr [str "Consider providing more context"]);
         prop "tone" (str "neutral");
         prop "actionItems" (VArr [str "Review transcript"]);
         prop "summary" (str "Voice content was processed");
         prop "wordCount" (wordCount transcript);
         prop "speakingPace" (str "normal") ].

Definition defaultAnalysis (transcript : jsstring)
    : list (jsstring * value) :=
  [ prop "sentiment" (str "neutral");
    prop "confidence" (VNum (1 # 2));
    prop "keyPoints" (VArr []);
    prop "topics" (VArr []);
    prop "suggestions" (VArr []);
    prop "tone" (str "neutral");
    prop "actionItems" (VArr []);
    prop "summary" (str "Analysis completed");
    prop "wordCount" (wordCount transcript);
    prop "speakingPace" (str "normal") ].

(** The record assigned in the [catch] of [generateLocationSuggestions]. *)
Definition location_fallback : value :=
  VObj [ prop "suggestions" (VArr []);
         prop "analysis"
           (VObj [ prop "locationMentioned" (VBool false);
                   prop "locationType" (str "unknown");
                   prop "specificPlace" VNull;
                   prop "cityOrArea" VNull;
                   prop "confidence" (VNum 0) ]) ].

Record VoiceAnalysis := {
  va_success : bool;
  va_analysis : value;
  va_provider : jsstring;
  va_usage : value;
  va_model : jsstring;
  va_timestamp : jsstring
}.

Record LocationSuggestions := {
  ls_success : bool;
  ls_suggestions : value;
  ls_analysis : value;
  ls_provider : jsstring;
  ls_usage : value;
  ls_model : jsstring;
  ls_timestamp : jsstring
}.

Definition PROVIDER : jsstring := lit "Meta Llama 3.1 70B Instruct".
Definition MODEL : jsstring := lit "meta/llama-3.1-70b-instruct".

Section Runtime.

(** [JSON.parse(v)]: [None] when it throws a [SyntaxError]. *)
Variable JSON_parse : value -> option value.
(** The text [JSON.stringify] produces for a value other than [undefined]. *)
Variable serialize : value -> jsstring.
(** [new Date().toISOString()] at the time of the call. *)
Variable now : jsstring.

Definition JSON_stringify (v : value) : value :=
  match v with
  | VUndefined => VUndefined
  | _ => VStr (serialize v)
  end.

(** [content || '{}'] and [content || 'No response generated']: the text
    handed to [JSON.parse] by the two operations. *)
Definition voice_response (content : value) : value :=
  or_else content (str "{}").
Definition location_response (content : value) : value :=
  or_else content (str "No response generated").

(** [try { x = JSON.parse(response) } catch (parseError) { x = fallback }] *)
Definition parse_or (fallback : value) (response : value) : value :=
  match JSON_parse response with
  | Some parsed => parsed
  | None => fallback
  end.

Definition analyzeVoiceInput (transcript : jsstring) (upstream : Upstream)
    : outcome VoiceAnalysis :=
  match upstream with
  | Rejected => Thrown
  | Completed content usage =>
      let response := voice_response content in
      let analysisData := parse_or (voice_fallback transcript) response in
      let finalAnalysis :=
        VObj (spread (defaultAnalysis transcript) analysisData) in
      let cleanedResponse := cleanAIResponse (JSON_stringify finalAnalysis) in
      Returned {| va_success := true;
                  va_analysis := cleanedResponse;
                  va_provider := PROVIDER;
                  va_usage := usage;
                  va_model := MODEL;
                  va_timestamp := now |}
  end.

Definition generateLocationSuggestions (transcript : jsstring)
    (upstream : Upstream) : outcome LocationSuggestions :=
  match upstream with
  | Rejected => Thrown
  | Completed content usage =>
      let response := location_response content in
      let suggestions := parse_or location_fallback response in
      let cleanedResponse := cleanAIResponse (JSON_stringify suggestions) in
      match get_property cleanedResponse "suggestions",
            get_property cleanedResponse "analysis" with
      | Some s, Some a =>
          Returned {| ls_success := true;
                      ls_suggestions := or_else s (VArr []);
                      ls_analysis := or_else a (VObj []);
                      ls_provider := PROVIDER;
                      ls_usage := usage;
                      ls_model := MODEL;
                      ls_timestamp := now |}
      | _, _ => Thrown
      end
  end.

End Runtime.

(** A parser that accepts the text of the empty object and nothing else,
    and a serializer that prints nothing but that text: enough of a runtime
    to run the recovery paths on an example. *)
Definition parse_empty_object_only (v : value) : option value :=
  match v with
  | VStr s => if JS.eqb s (lit "{}") then Some (VObj []) else None
  | _ => None
  end.

Definition serialize_as_empty_object (_ : value) : jsstring := lit "{}".





End LlamaService.

(* ================================================================= *)
(** ** services/enhancedLLMService.js: the quality gate *)

Module ResponseAssessment.

Local Open Scope string_scope.
Local Open Scope list_scope.

(** [structure.replace('_', ' ')]: a string pattern, so the first
    underscore only. *)
Definition m_underscore : matcher := fun _ s =>
  match s with
  | c :: _ => if (c =? 95)%N then Some (lit " ", 1) else None
  | [] => None
  end.

Definition toneWords : list (string * list string) :=
  [ ("professional", ["professional"; "expert"; "analysis";
                      "recommendation"]);
    ("casual", ["cool"; "awesome"; "great"; "nice"]);
    ("empathetic", ["understand"; "sorry"; "apologize"; "care"]) ].

(** The property name that [strategy.tone[0]] gives: the text "undefined"
    for an empty array. *)
Definition first_tone (tone : list jsstring) : jsstring :=
  match tone with
  | t :: _ => t
  | [] => lit "undefined"
  end.

Section Rounding.

Variable rnd : Q -> Q.

(** [assessResponseQuality(response, analysis)], reading the strategy of the
    analysis and, through it, the tone array of the registry.  [None]
    stands for the [TypeError] of calling [filter] on a value inherited from
    [Object.prototype]. *)
Definition assessResponseQuality (ps : EnhancedLLMService.Patterns)
    (response : jsstring) (strategy : EnhancedLLMService.Strategy)
    : option Q :=
  let score := (1 # 2)%Q in
  let wordCount := Z.of_nat (length (split_char 32%N response)) in
  let expectedLength :=
    if JS.eqb (EnhancedLLMService.s_length strategy) (lit "long") then 200%Z
    else if JS.eqb (EnhancedLLMService.s_length strategy) (lit "medium")
    then 100%Z else 50%Z in
  let score :=
    if (Z.abs (wordCount - expectedLength) <? 50)%Z
    then rnd (score + rnd (2 # 10))%Q else score in
  let hasStructure :=
    existsb (fun structure =>
               includes (toLowerCase response)
                        (replace_first m_underscore structure))
            (EnhancedLLMService.s_structure strategy) in
  let score :=
    if hasStructure then rnd (score + rnd (2 # 10))%Q else score in
  let expectedTone :=
    first_tone (EnhancedLLMService.deref ps
                  (EnhancedLLMService.s_tone strategy)) in
  match ResponseQualityAnalyzer.get toneWords expectedTone with
  | ResponseQualityAnalyzer.Inherited => None
  | found =>
      let toneWordCount :=
        match found with
        | ResponseQualityAnalyzer.Own words =>
            length (filter (fun word =>
                              includes (toLowerCase response) (lit word))
                           words)
        | _ => O
        end in
      let score :=
        if (0 <? toneWordCount)%nat
        then rnd (score + rnd (1 # 10))%Q else score in
      Some (Num.min score 1)
  end.

End Rounding.

End ResponseAssessment.

(* ================================================================= *)
(** ** routes/llama.js, routes/enhancedLLM.js: input checks, error replies *)

Module Routes.

Local Open Scope string_scope.
Local Open Scope list_scope.

(** A value [v] that passes [!v || typeof v !== 'string']: a string that is
    not empty. *)
Definition as_text (v : value) : option jsstring :=
  match v with
  | VStr s => if is_empty s then None else Some s
  | _ => None
  end.

(** [/[<>]/g] replaced by the empty string. *)
Definition m_angle : matcher := fun _ s =>
  match s with
  | c :: _ => if ((c =? 60) || (c =? 62))%N then Some ([], 1) else None
  | [] => None
  end.

Inductive Checked :=
| Refused (status : nat) (code : jsstring)
| Accepted (sanitizedText : jsstring).

(** The checks at the head of [POST /llama] and [POST /enhanced-llm], on the
    fields [text], [prompt] and [apiKey] of the request body. *)
Definition check_input (text prompt apiKey : value) : Checked :=
  let inputText := LlamaService.or_else text prompt in
  match as_text inputText with
  | None => Refused 400 (lit "INVALID_INPUT")
  | Some inputText =>
      match as_text apiKey with
      | None => Refused 400 (lit "INVALID_API_KEY")
      | Some _ =>
          if (4000 <? length inputText)%nat
          then Refused 400 (lit "TEXT_TOO_LONG")
          else Accepted (replace_all m_angle (trim inputText))
      end
  end.

(** [v === 401] and [v === 'text'] *)
Definition is_401 (v : value) : bool :=
  match v with VNum q => Qeq_bool q 401 | _ => false end.
Definition is_text (v : value) (s : string) : bool :=
  match v with VStr x => JS.eqb x (lit s) | _ => false end.

Inductive ErrorKind := Authentication | Quota | RateLimit | Other.

(** The chain of tests on [error.status] and [error.code] that the two
    [handleAPIError] methods and the [catch] blocks of the two routes
    share.  [None] stands for the [TypeError] of reading a property of
    [undefined] or [null]. *)
Definition error_kind (error : value) : option ErrorKind :=
  match LlamaService.get_property error "status",
        LlamaService.get_property error "code" with
  | Some status, Some code =>
      Some (if is_401 status || is_text code "authentication_error"
            then Authentication
            else if is_text code "insufficient_quota" then Quota
            else if is_text code "rate_limit_exceeded" then RateLimit
            else Other)
  | _, _ => None
  end.

(** [process.env.NODE_ENV === 'development' ? error.message
                                             : 'Internal server error'] *)
Definition details_of (development : bool) (error : value) : value :=
  if development then
    match LlamaService.get_property error "message" with
    | Some m => m
    | None => VUndefined
    end
  else LlamaService.str "Internal server error".

Definition failure (error code : string) : value :=
  VObj [ LlamaService.prop "success" (VBool false);
         LlamaService.prop "error" (LlamaService.str error);
         LlamaService.prop "code" (LlamaService.str code) ].

Definition failure_with_details (error code : string) (details : value)
    : value :=
  VObj [ LlamaService.prop "success" (VBool false);
         LlamaService.prop "error" (LlamaService.str error);
         LlamaService.prop "code" (LlamaService.str code);
         LlamaService.prop "details" details ].

(** What the route sends: [res.status(status).json(body)]. *)
Record Reply := { status : nat; body : value }.

Module Llama.

(** [LlamaService.handleAPIError(error)]: the object that the methods of
    the service throw in place of the error they caught. *)
Definition handleAPIError (development : bool) (error : value)
    : option value :=
  match error_kind error with
  | Some Authentication =>
      Some (failure
              "Invalid or missing NVIDIA API key. Please check your API key configuration."
              "INVALID_API_KEY")
  | Some Quota =>
      Some (failure "API quota exceeded. Please try again later."
                    "QUOTA_EXCEEDED")
  | Some RateLimit =>
      Some (failure "Rate limit exceeded. Please try again later."
                    "RATE_LIMIT_EXCEEDED")
  | Some Other =>
      Some (failure_with_details "Failed to generate response"
              "LLAMA_API_ERROR" (details_of development error))
  | None => None
  end.

(** The [catch] block of [POST /llama]. *)
Definition route_catch (development : bool) (error : value) : option Reply :=
  match error_kind error with
  | Some Authentication =>
      Some {| status := 401;
              body := failure
                "Invalid or missing NVIDIA API key. Please check your API key configuration."
                "INVALID_API_KEY" |}
  | Some Quota =>
      Some {| status := 429;
              body := failure "API quota exceeded. Please try again later."
                              "QUOTA_EXCEEDED" |}
  | Some RateLimit =>
      Some {| status := 429;
              body := failure "Rate limit exceeded. Please try again later."
                              "RATE_LIMIT_EXCEEDED" |}
  | Some Other =>
      Some {| status := 500;
              body := failure_with_details
                "Failed to generate conversational response"
                "LLAMA_API_ERROR" (details_of development error) |}
  | None => None
  end.

End Llama.

Module Enhanced.

(** [EnhancedLLMService.handleAPIError(error)] *)
Definition handleAPIError (development : bool) (error : value)
    : option value :=
  match error_kind error with
  | Some Authentication =>
      Some (failure
              "Invalid or missing API key. Please check your API key configuration."
              "INVALID_API_KEY")
  | Some Quota =>
      Some (failure "API quota exceeded. Please try again later."
                    "QUOTA_EXCEEDED")
  | Some RateLimit =>
      Some (failure "Rate limit exceeded. Please try again later."
                    "RATE_LIMIT_EXCEEDED")
  | Some Other =>
      Some (failure_with_details "Failed to generate enhanced response"
              "ENHANCED_LLM_ERROR" (details_of development error))
  | None => None
  end.

(** The [catch] block of [POST /enhanced-llm]. *)
Definition route_catch (development : bool) (error : value) : option Reply :=
  match error_kind error with
  | Some Authentication =>
      Some {| status := 401;
              body := failure
                "Invalid or missing API key. Please check your API key configuration."
                "INVALID_API_KEY" |}
  | Some Quota =>
      Some {| status := 429;
              body := failure "API quota exceeded. Please try again later."
                              "QUOTA_EXCEEDED" |}
  | Some RateLimit =>
      Some {| status := 429;
              body := failure "Rate limit exceeded. Please try again later."
                              "RATE_LIMIT_EXCEEDED" |}
  | Some Other =>
      Some {| status := 500;
              body := failure_with_details
                "Failed to generate enhanced response"
                "ENHANCED_LLM_ERROR" (details_of development error) |}
  | None => None
  end.

End Enhanced.

End Routes.

(* ================================================================= *)
(** ** routes/models.js *)

Module ModelsRoute.

Local Open Scope string_scope.
Local Open Scope list_scope.

(** An entry of [modelConfigurations.models].  The numbers are sent as
    they are written and never computed with. *)
Record ModelEntry := {
  key : jsstring;
  name : jsstring;
  useCase : jsstring;
  description : jsstring;
  strengths : list jsstring;
  temperature : Q;
  maxTokens : Q;
  provider : jsstring
}.

Definition models : list ModelEntry :=
  [ {| key := lit "llama-review";
       name := lit "Meta Llama 3.1 70B";
       useCase := lit "review_generation";
       description := lit "Specialized for generating authentic, engaging reviews with natural language flow";
       strengths := map lit ["Natural Language"; "Context Awareness";
                             "Authentic Tone"];
       temperature := 8 # 10;
       maxTokens := 2048;
       provider := lit "NVIDIA" |};
    {| key := lit "llama-customer-service";
       name := lit "Meta Llama 3.1 70B";
       useCase := lit "customer_service";
       description := lit "Optimized for empathetic customer service responses and conflict resolution";
       strengths := map lit ["Empathy"; "Professional Tone";
                             "Problem Solving"];
       temperature := 6 # 10;
       maxTokens := 1536;
       provider := lit "NVIDIA" |};
    {| key := lit "llama-voice-analysis";
       name := lit "Meta Llama 3.1 70B";
       useCase := lit "voice_analysis";
       description := lit "Advanced voice transcript analysis with sentiment detection and key point extraction";
       strengths := map lit ["Sentiment Analysis"; "Key Point Extraction";
                             "Context Understanding"];
       temperature := 4 # 10;
       maxTokens := 3072;
       provider := lit "NVIDIA" |};
    {| key := lit "gpt4-analysis";
       name := lit "GPT-4";
       useCase := lit "detailed_analysis";
       description := lit "High-performance analysis and reasoning for complex content evaluation";
       strengths := map lit ["Reasoning"; "Structured Analysis";
                             "Technical Accuracy"];
       temperature := 3 # 10;
       maxTokens := 4000;
       provider := lit "OpenAI" |};
    {| key := lit "claude-customer-service";
       name := lit "Claude 3 Sonnet";
       useCase := lit "customer_service";
       description := lit "Empathetic customer service with advanced understanding of customer needs";
       strengths := map lit ["Empathy"; "Customer Focus";
                             "Detailed Responses"];
       temperature := 5 # 10;
       maxTokens := 4000;
       provider := lit "Anthropic" |} ].

Definition useCases : list (string * jsstring) :=
  [ ("review_generation",
     lit "Generate authentic, engaging reviews from user input or voice transcripts");
    ("customer_service",
     lit "Create empathetic, professional responses to customer feedback and complaints");
    ("voice_analysis",
     lit "Analyze voice transcripts for sentiment, key points, and actionable insights");
    ("detailed_analysis",
     lit "Perform comprehensive content analysis with structured reasoning and insights") ].

(** What [GET /models/:useCase] sends.  The description is [None] when it
    is a function inherited from [Object.prototype], which [res.json]
    leaves out. *)
Inductive UseCaseReply :=
| NotFound (error : jsstring)
| Found (modelsForUseCase : list ModelEntry) (useCase : jsstring)
        (description : option jsstring).

Definition models_for_use_case (useCase' : jsstring) : UseCaseReply :=
  let modelsForUseCase :=
    filter (fun model => JS.eqb (useCase model) useCase') models in
  if (length modelsForUseCase =? 0)%nat
  then NotFound (lit "No models found for use case: " ++ useCase')
  else
    Found modelsForUseCase useCase'
      match ResponseQualityAnalyzer.get useCases useCase' with
      | ResponseQualityAnalyzer.Own d =>
          Some (if is_empty d then lit "No description available" else d)
      | ResponseQualityAnalyzer.Inherited => None
      | ResponseQualityAnalyzer.Absent =>
          Some (lit "No description available")
      end.

End ModelsRoute.


(* ================================================================= *)
(** ** The rules as the specification words them *)

Module Spec.

Local Open Scope string_scope.
Local Open Scope list_scope.

(** First match wins: the tag of the first rule one of whose keywords
    occurs in the text, and the default when no rule applies. *)
Fixpoint first_match {T : Type} (rules : list (list string * T))
    (default : T) (text : jsstring) : T :=
  match rules with
  | [] => default
  | (kws, tag) :: rest =>
      if text_has text kws then tag else first_match rest default text
  end.




(** Section 4.5: conversation, then analysis, review, customer_service,
    inquiry, default general. *)
Definition selector_rules
    : list (list string * EnhancedLLMService.ContentType) :=
  [ (["hello"; "hi"; "how are you"], EnhancedLLMService.CConversation);
    (["analyze"; "analysis"; "sentiment"], EnhancedLLMService.CAnalysis);
    (["review"; "experience"; "visit"], EnhancedLLMService.CReview);
    (["problem"; "issue"; "complaint"], EnhancedLLMService.CCustomerService);
    (["question"; "help"; "explain"], EnhancedLLMService.CInquiry) ].

Definition select_content_type (text : jsstring)
    : EnhancedLLMService.ContentType :=
  first_match selector_rules EnhancedLLMService.CGeneral text.

(** Section 3: the fixed weighted sum of the eight metrics. *)
Definition weighted_sum (m : ResponseQualityAnalyzer.Metrics) : Q :=
  ((15 # 100) * ResponseQualityAnalyzer.get_coherence m
   + (15 # 100) * ResponseQualityAnalyzer.get_relevance m
   + (15 # 100) * ResponseQualityAnalyzer.get_completeness m
   + (15 # 100) * ResponseQualityAnalyzer.get_clarity m
   + (10 # 100) * ResponseQualityAnalyzer.get_engagement m
   + (10 # 100) * ResponseQualityAnalyzer.get_structure m
   + (10 # 100) * ResponseQualityAnalyzer.get_tone m
   + (10 # 100) * ResponseQualityAnalyzer.get_length m)%Q.

Definition in_unit (x : Q) : Prop := (0 <= x /\ x <= 1)%Q.

(** A metrics record with all eight values in [0,1]. *)
Definition unit_metrics (m : ResponseQualityAnalyzer.Metrics) : Prop :=
  in_unit (ResponseQualityAnalyzer.get_coherence m)
  /\ in_unit (ResponseQualityAnalyzer.get_relevance m)
  /\ in_unit (ResponseQualityAnalyzer.get_completeness m)
  /\ in_unit (ResponseQualityAnalyzer.get_clarity m)
  /\ in_unit (ResponseQualityAnalyzer.get_engagement m)
  /\ in_unit (ResponseQualityAnalyzer.get_structure m)
  /\ in_unit (ResponseQualityAnalyzer.get_tone m)
  /\ in_unit (ResponseQualityAnalyzer.get_length m).

(** The spacing of binary64 numbers between 1 and 2 is 2^-52; rounding to
    nearest moves a number of [0,2] by at most 2^-53, which is below
    [ulp_bound]. *)
Definition ulp_bound : Q := 1 # 1000000000000000.

(** What the proofs use of rounding to nearest: it is monotone, keeps 0
    and 1 and every number it has produced, and moves a number of [0,2] by
    at most [ulp_bound]. *)
Record rounding (rnd : Q -> Q) : Prop := {
  rnd_monotone : forall x y, (x <= y)%Q -> (rnd x <= rnd y)%Q;
  rnd_zero : (rnd 0 == 0)%Q;
  rnd_one : (rnd 1 == 1)%Q;
  rnd_idempotent : forall x, (rnd (rnd x) == rnd x)%Q;
  rnd_error : forall x, (0 <= x)%Q -> (x <= 2)%Q ->
      (x - ulp_bound <= rnd x /\ rnd x <= x + ulp_bound)%Q
}.

Arguments rnd_monotone {rnd}.
Arguments rnd_zero {rnd}.
Arguments rnd_one {rnd}.
Arguments rnd_idempotent {rnd}.
Arguments rnd_error {rnd}.

(** Rounding to nearest at every magnitude: the result of a non-negative
    number is off by at most the fraction [ulp_bound] of it (the relative
    error of a binary64 operation is at most 2^-53). *)
Record relative_rounding (rnd : Q -> Q) : Prop := {
  rel_error : forall x, (0 <= x)%Q ->
      (x * (1 - ulp_bound) <= rnd x /\ rnd x <= x * (1 + ulp_bound))%Q
}.

Arguments rel_error {rnd}.

(** The state of the loop of [calculateOverallScore] after some turns:
    running sums [ts <= tw], within [e] and [f] of the exact sums [S] and
    [W]. *)
Definition score_invariant (ts tw S W e f : Q) : Prop :=
  (0 <= ts /\ ts <= tw
   /\ S - e <= ts /\ ts <= S + e
   /\ W - f <= tw /\ tw <= W + f)%Q.

(** What [analyzeConversationFlow] has built after the messages [seen]:
    one continuity flag for every message but the first, the tone
    "enthusiastic" exactly when a message seen had an exclamation mark or
    the word "amazing", and a set of topics without repetition, drawn from
    the four topic names. *)
Definition flow_invariant (seen : list ConversationUtils.Message)
    (context : ConversationUtils.Flow) : Prop :=
  length (ConversationUtils.continuity context) = length seen - 1
  /\ (ConversationUtils.tone context = ConversationUtils.ToneEnthusiastic
      <-> existsb (fun msg =>
                     text_has (toLowerCase (ConversationUtils.content msg))
                              ["!"; "amazing"]) seen = true)
  /\ NoDup (ConversationUtils.topics context)
  /\ incl (ConversationUtils.topics context)
          (map lit ["technology"; "future"; "personal"; "assistance"]).

(** The tolerance of the weighted-score property. *)
Definition tolerance : Q := 1 # 1000000000.

(** A metrics record for the examples. *)
Definition sample_metrics : ResponseQualityAnalyzer.Metrics :=
  {| ResponseQualityAnalyzer.get_coherence := 1 # 2;
     ResponseQualityAnalyzer.get_relevance := 0;
     ResponseQualityAnalyzer.get_completeness := 2 # 3;
     ResponseQualityAnalyzer.get_clarity := 1;
     ResponseQualityAnalyzer.get_engagement := 7 # 10;
     ResponseQualityAnalyzer.get_structure := 8 # 10;
     ResponseQualityAnalyzer.get_tone := 9 # 10;
     ResponseQualityAnalyzer.get_length := 3 # 10 |}.

(** The review of the fallback example: three positive sentences, one
    negative, none with a conclusion keyword. *)
Definition three_to_one : list jsstring :=
  [ lit "The pasta was great"; lit "I love the decor";
    lit "The staff was amazing"; lit "The wait was terrible" ].

(** The pinned input of the divergence test. *)
Definition pinned : jsstring :=
  lit "Hi there, how's it going? I wanted to get your analysis on this.".

End Spec.
(* ================================================================= *)
(** * Properties *)

Import ResponseFormatter.

Local Open Scope string_scope.
Local Open Scope list_scope.

(** ** Strings *)

Section StringFacts.

Lemma trimEnd_app_keep (a b : jsstring) :
  trimEnd b <> [] -> trimEnd (a ++ b) = a ++ trimEnd b.
Proof.
  intros Hb. induction a as [|c a IH]; simpl.
  - reflexivity.
  - rewrite IH. destruct (a ++ trimEnd b) eqn:E.
    + destruct a; simpl in E; [contradiction | discriminate].
    + reflexivity.
Qed.

Lemma trimEnd_last_kept (b : jsstring) (c : cu) :
  is_space c = false -> trimEnd (b ++ [c]) = b ++ [c].
Proof.
  intros Hc. replace (b ++ [c]) with (b ++ trimEnd [c]) at 2.
  - apply trimEnd_app_keep. simpl. rewrite Hc. discriminate.
  - simpl. rewrite Hc. reflexivity.
Qed.

Lemma trimStart_suffix (a : jsstring) (c : cu) (b : jsstring) :
  is_space c = false ->
  exists a', trimStart (a ++ c :: b) = a' ++ c :: b.
Proof.
  intros Hc. induction a as [|x a IH]; simpl.
  - rewrite Hc. exists []. reflexivity.
  - destruct (is_space x).
    + exact IH.
    + exists (x :: a). reflexivity.
Qed.

(** Trimming keeps a tail that starts and ends with a visible character. *)
Lemma trim_keeps_tail (a : jsstring) (c : cu) (b : jsstring) (d : cu) :
  is_space c = false -> is_space d = false ->
  exists a', trim (a ++ c :: b ++ [d]) = a' ++ c :: b ++ [d].
Proof.
  intros Hc Hd. unfold trim.
  destruct (trimStart_suffix a c (b ++ [d]) Hc) as [a' E].
  exists a'. rewrite E.
  replace (a' ++ c :: b ++ [d]) with ((a' ++ c :: b) ++ [d])
    by (rewrite <- app_assoc; reflexivity).
  apply trimEnd_last_kept. exact Hd.
Qed.


End StringFacts.

(* ================================================================= *)
(** ** Text cleaner *)


(** C8.  For every input that is not a string or is falsy (null, undefined,
    a number, the empty string), [cleanAIResponse] returns the input
    unchanged; the function is total, so nothing is thrown. *)
Theorem cleanAIResponse_passes_through (v : value) :
  is_string v = false \/ truthy v = false -> cleanAIResponse v = v.
Proof.
  intros [H | H]; destruct v as [| |b|q|s|l|props]; simpl in *;
    try reflexivity; try discriminate.
  destruct s; [reflexivity | discriminate].
Qed.

Lemma cleanAIResponse_null_and_42 :
  (is_string VNull = false \/ truthy VNull = false)
  /\ cleanAIResponse VNull = VNull
  /\ cleanAIResponse (VNum 42) = VNum 42
  /\ cleanAIResponse VUndefined = VUndefined
  /\ cleanAIResponse (VStr []) = VStr [].
Proof.
  split; [left; reflexivity|].
  split; [apply cleanAIResponse_passes_through; left; reflexivity|].
  split; [apply cleanAIResponse_passes_through; left; reflexivity|].
  split; [apply cleanAIResponse_passes_through; left; reflexivity|].
  apply cleanAIResponse_passes_through; right; reflexivity.
Defined.




(* ================================================================= *)
(** ** Content classifier *)




Lemma selector_is_first_match (input : jsstring) :
  EnhancedLLMService.detectContentType input
  = Spec.select_content_type (toLowerCase input).
Proof. reflexivity. Qed.

(** C4.  The classifier of section 4.2 and the content-type detector of the
    selector are different functions: the selector tries conversation first
    (then analysis, review, customer_service, inquiry, default general), and
    on the pinned input the classifier answers analysis where the selector
    answers conversation. *)
Theorem classifier_and_selector_diverge :
  (forall input,
     EnhancedLLMService.detectContentType input
     = Spec.select_content_type (toLowerCase input))
  /\ cleaned Spec.pinned = Spec.pinned
  /\ type (analyzeEnhancedContentStructure (tokenize Spec.pinned)) = Analysis
  /\ EnhancedLLMService.detectContentType Spec.pinned
     = EnhancedLLMService.CConversation
  /\ exists input,
       type_name (type (analyzeEnhancedContentStructure (tokenize input)))
       <> EnhancedLLMService.content_name
            (EnhancedLLMService.detectContentType input).
Proof.
  split; [exact selector_is_first_match|].
  split; [vm_compute; reflexivity|].
  split; [vm_compute; reflexivity|].
  split; [vm_compute; reflexivity|].
  exists Spec.pinned. vm_compute. discriminate.
Qed.

(* ================================================================= *)
(** ** Review formatter *)

Lemma review_closings_visible (c : jsstring) :
  In c [REVIEW_POSITIVE; REVIEW_NEGATIVE; REVIEW_MIXED] ->
  exists b, c = 0xD83C%N :: b ++ [46%N].
Proof.
  intros [<- | [<- | [<- | []]]].
  - exists (removelast (tl REVIEW_POSITIVE)). vm_compute. reflexivity.
  - exists (removelast (tl REVIEW_NEGATIVE)). vm_compute. reflexivity.
  - exists (removelast (tl REVIEW_MIXED)). vm_compute. reflexivity.
Qed.

(** C7.  When no sentence matches the conclusion keywords of the review
    formatter, its output ends with one of three canned conclusions, chosen
    by comparing the numbers of positive and negative aspects; with three
    positive aspects and one negative aspect it is the "recommend to others"
    conclusion. *)
Theorem review_fallback_conclusion
    (sentences : list jsstring) (structure : ContentStructure) :
  find (fun s => mentions s review_conclusion_keywords) sentences = None ->
  let positiveCount := length (positiveAspects structure) in
  let negativeCount := length (negativeAspects structure) in
  let closing :=
    if (negativeCount <? positiveCount)%nat then REVIEW_POSITIVE
    else if (positiveCount <? negativeCount)%nat then REVIEW_NEGATIVE
    else REVIEW_MIXED in
  (exists body,
     formatEnhancedReviewResponse sentences structure = body ++ closing)
  /\ (positiveCount = 3 -> negativeCount = 1 ->
      exists body,
        formatEnhancedReviewResponse sentences structure
        = body ++ REVIEW_POSITIVE).
Proof.
  intros Hfind positiveCount negativeCount closing.
  assert (Hclosing : exists body,
            formatEnhancedReviewResponse sentences structure
            = body ++ closing); [|split; [exact Hclosing|]].
  - assert (Hc : exists b, closing = 0xD83C%N :: b ++ [46%N]).
    { apply review_closings_visible. unfold closing.
      destruct (negativeCount <? positiveCount)%nat; [simpl; tauto|].
      destruct (positiveCount <? negativeCount)%nat; simpl; tauto. }
    destruct Hc as [b Hb].
    unfold formatEnhancedReviewResponse. rewrite Hfind. cbv zeta.
    match goal with
    | |- exists body, trim (?a ++ _) = _ =>
        destruct (trim_keeps_tail a 0xD83C%N b 46%N eq_refl eq_refl)
          as [a' Ha']
    end.
    exists a'.
    match goal with
    | |- trim (?a ++ _) = _ => change (trim (a ++ closing) = a' ++ closing)
    end.
    rewrite Hb. exact Ha'.
  - intros Hp Hn. destruct Hclosing as [body Hbody]. exists body.
    rewrite Hbody. unfold closing. rewrite Hp, Hn. reflexivity.
Qed.

Lemma review_fallback_three_to_one :
  let structure := analyzeEnhancedContentStructure Spec.three_to_one in
  find (fun s => mentions s review_conclusion_keywords) Spec.three_to_one
  = None
  /\ length (positiveAspects structure) = 3
  /\ length (negativeAspects structure) = 1
  /\ exists body,
       formatEnhancedReviewResponse Spec.three_to_one structure
       = body ++ REVIEW_POSITIVE.
Proof.
  intros structure.
  assert (Hfind : find (fun s => mentions s review_conclusion_keywords)
                       Spec.three_to_one = None)
    by (vm_compute; reflexivity).
  split; [exact Hfind|].
  split; [vm_compute; reflexivity|].
  split; [vm_compute; reflexivity|].
  apply (proj2 (review_fallback_conclusion Spec.three_to_one structure
                  Hfind)); vm_compute; reflexivity.
Defined.

(* ================================================================= *)
(** ** Model / strategy selector *)

Section Selector.

Import EnhancedLLMService.

Lemma deref_push_tone (ps : Patterns) (k : PatternKey) (x : jsstring) :
  deref (push_tone ps k x) (RegistryTone k)
  = p_tone (get_pattern ps k) ++ [x].
Proof. destruct k; reflexivity. Qed.

(** C6.  The adjustments of the strategy generator: high urgency raises the
    temperature by 0.2, capped at 1.0, and appends "urgent_response";
    negative sentiment appends "empathetic_tone" to the enhancements and
    "empathetic" to the tone list; high complexity multiplies maxTokens by
    1.5, capped at 8000, and appends "detailed_explanation"; otherwise the
    temperature and maxTokens are those of the selected model. *)
Theorem strategy_adjustments
    (rnd : Q -> Q) (ps : Patterns) (a : Analysis) (m : ModelConfig) :
  let s := fst (generateResponseStrategy rnd ps a m) in
  let ps' := snd (generateResponseStrategy rnd ps a m) in
  let base_tone :=
    match pattern_key (contentType a) with
    | Some k => p_tone (get_pattern ps k)
    | None => [lit "professional"]
    end in
  model s = m
  /\ s_temperature s
     = match urgency a with
       | UrgencyHigh => Num.min (rnd (temperature m + rnd (2 # 10))%Q) 1
       | UrgencyNormal => temperature m
       end
  /\ s_maxTokens s
     = match complexity a with
       | High => Num.min (rnd (maxTokens m * (3 # 2))%Q) 8000
       | _ => maxTokens m
       end
  /\ enhancements s
     = match urgency a with
       | UrgencyHigh => [lit "urgent_response"]
       | UrgencyNormal => []
       end
       ++ match sentiment a with
          | Negative => [lit "empathetic_tone"]
          | _ => []
          end
       ++ match complexity a with
          | High => [lit "detailed_explanation"]
          | _ => []
          end
  /\ deref ps' (s_tone s)
     = base_tone ++ match sentiment a with
                    | Negative => [lit "empathetic"]
                    | _ => []
                    end.
Proof.
  destruct a as [ct cx se ur dm ui].
  unfold generateResponseStrategy.
  destruct ur, se, cx; cbn -[lit Num.min push_tone get_pattern deref];
    (repeat split; try reflexivity);
    destruct ct; cbn -[lit push_tone get_pattern deref];
    rewrite ?deref_push_tone, ?app_nil_r; reflexivity.
Qed.

(** A negative analysis whose content type has a pattern leaves the
    registry with one more tone in that pattern. *)
Lemma negative_strategy_writes_registry
    (rnd : Q -> Q) (ps : Patterns) (a : Analysis) (m : ModelConfig)
    (k : PatternKey) :
  sentiment a = Negative -> pattern_key (contentType a) = Some k ->
  snd (generateResponseStrategy rnd ps a m)
  = push_tone ps k (lit "empathetic").
Proof.
  intros Hs Hk. unfold generateResponseStrategy. rewrite Hs, Hk.
  destruct (urgency a), (complexity a); reflexivity.
Qed.

(** C2, on the code: a call with a negative input whose content type has a
    pattern pushes "empathetic" onto the tone array of the registry itself;
    the registry is changed by the call, and the same call made again
    returns a longer tone list. *)
Theorem strategy_mutates_registry (rnd : Q -> Q) :
  let input := lit "this is terrible" in
  let svc := new_service rnd in
  let first := analyzeInputAndSelectModel rnd svc input VUndefined in
  let second := analyzeInputAndSelectModel rnd (snd first) input VUndefined in
  p_tone (conversation (responsePatterns svc))
  = map lit ["friendly"; "casual"; "engaging"]
  /\ p_tone (conversation (responsePatterns (snd first)))
     = map lit ["friendly"; "casual"; "engaging"; "empathetic"]
  /\ responsePatterns (snd first) <> responsePatterns svc
  /\ deref (responsePatterns (snd first))
           (s_tone (responseStrategy (fst first)))
     = map lit ["friendly"; "casual"; "engaging"; "empathetic"]
  /\ deref (responsePatterns (snd second))
           (s_tone (responseStrategy (fst second)))
     = map lit ["friendly"; "casual"; "engaging"; "empathetic"; "empathetic"].
Proof.
  intros input svc first second.
  split; [reflexivity|].
  split; [vm_compute; reflexivity|].
  split; [vm_compute; discriminate|].
  split; vm_compute; reflexivity.
Qed.

End Selector.

(* ================================================================= *)
(** ** JSON recovery paths *)

Section Recovery.

Import LlamaService.


Lemma cleaned_string_has_no_fields (v : value) (key : string) :
  is_string v = true ->
  get_property (cleanAIResponse v) key = Some VUndefined.
Proof.
  destruct v; simpl; try discriminate. intros _.
  destruct s; reflexivity.
Qed.



End Recovery.

(* ================================================================= *)
(** ** Quality analyzer *)

Section QualityAnalyzer.

Import ResponseQualityAnalyzer.

(** A content type that names no property at all is analyzed against the
    conversation pattern. *)
Lemma absent_content_type_defaults (contentType : jsstring) :
  get responsePatterns contentType = Absent ->
  pattern_for contentType = Some conversation.
Proof.
  intros H. unfold pattern_for. rewrite H. reflexivity.
Qed.

Lemma absent_content_type_metrics
    (rnd : Q -> Q) (response contentType : jsstring) :
  get responsePatterns contentType = Absent ->
  analyzeCompleteness rnd response contentType
  = analyzeCompleteness rnd response (lit "conversation")
  /\ analyzeStructure rnd response contentType
     = analyzeStructure rnd response (lit "conversation")
  /\ analyzeTone rnd response contentType
     = analyzeTone rnd response (lit "conversation")
  /\ analyzeLength rnd response contentType
     = analyzeLength rnd response (lit "conversation").
Proof.
  intros H. apply absent_content_type_defaults in H.
  unfold analyzeCompleteness, analyzeTone, analyzeLength.
  rewrite H. repeat split; reflexivity.
Qed.

Lemma general_tag_is_absent :
  get responsePatterns (lit "general") = Absent.
Proof. reflexivity. Qed.

(** C10, on the code: the tag "constructor" is outside the four pattern
    names, yet [responsePatterns["constructor"]] is the function inherited
    from [Object.prototype]; it is truthy, so the conversation default is
    not taken, and the completeness, tone and length metrics throw on its
    missing fields.  The same holds for every property name of
    [Object.prototype]. *)
Theorem inherited_content_type_throws (rnd : Q -> Q) :
  own_property responsePatterns (lit "constructor") = None
  /\ analyzeCompleteness rnd (lit "Hello there.") (lit "constructor")
     = TypeError
  /\ analyzeTone rnd (lit "Hello there.") (lit "constructor")
     = TypeError
  /\ analyzeLength rnd (lit "Hello there.") (lit "constructor")
     = TypeError
  /\ forallb
       (fun name =>
          match analyzeCompleteness rnd (lit "Hello there.") (lit name)
          with
          | TypeError => true
          | Ok _ => false
          end)
       object_prototype_names = true.
Proof.
  repeat split; reflexivity.
Qed.

End QualityAnalyzer.

(** *** The weighted score *)

Section OverallScore.

Import ResponseQualityAnalyzer.
Local Open Scope Q_scope.

Variable rnd : Q -> Q.
Hypothesis R : Spec.rounding rnd.

Let delta := Spec.ulp_bound.

Lemma rnd_nonneg (x : Q) : 0 <= x -> 0 <= rnd x.
Proof.
  intros Hx. rewrite <- (Spec.rnd_zero R). apply (Spec.rnd_monotone R), Hx.
Qed.

Lemma rnd_le_one (x : Q) : x <= 1 -> rnd x <= 1.
Proof.
  intros Hx. rewrite <- (Spec.rnd_one R). apply (Spec.rnd_monotone R), Hx.
Qed.

Lemma scaled_between (x w c : Q) :
  0 <= x -> x <= 1 -> c - delta <= w -> w <= c + delta ->
  x * c - delta <= x * w /\ x * w <= x * c + delta.
Proof.
  intros Hx0 Hx1 Hlo Hhi. unfold delta, Spec.ulp_bound in *. split; nra.
Qed.

(** One turn of the loop of [calculateOverallScore]: the running sums stay
    ordered and within a growing distance of the exact sums. *)
Lemma score_step (x c ts tw S W e f : Q) :
  0 <= x -> x <= 1 -> 0 <= c -> c <= 1 ->
  0 <= ts -> ts <= tw ->
  S - e <= ts -> ts <= S + e -> W - f <= tw -> tw <= W + f ->
  W + c + f <= 3 # 2 ->
  let w := rnd c in
  let ts' := rnd (ts + rnd (x * w)) in
  let tw' := rnd (tw + w) in
  0 <= ts' /\ ts' <= tw'
  /\ (S + x * c) - (e + 3 * delta) <= ts'
  /\ ts' <= (S + x * c) + (e + 3 * delta)
  /\ (W + c) - (f + 2 * delta) <= tw'
  /\ tw' <= (W + c) + (f + 2 * delta).
Proof.
  intros Hx0 Hx1 Hc0 Hc1 Hts0 Hle HSl HSu HWl HWu Hrange w ts' tw'.
  assert (Hw0 : 0 <= w) by (apply rnd_nonneg; exact Hc0).
  destruct (Spec.rnd_error R c Hc0 ltac:(lra)) as [Hwl Hwu].
  fold w in Hwl, Hwu. fold delta in Hwl, Hwu.
  assert (Hd : delta == 1 # 1000000000000000) by reflexivity.
  assert (Hxw0 : 0 <= x * w) by (apply Qmult_le_0_compat; assumption).
  assert (Hxw1 : x * w <= w) by nra.
  destruct (scaled_between x w c Hx0 Hx1 Hwl Hwu) as [Hxl Hxu].
  set (p := rnd (x * w)).
  assert (Hp0 : 0 <= p) by (apply rnd_nonneg; exact Hxw0).
  assert (Hpw : p <= w).
  { pose proof (Spec.rnd_idempotent R c) as Hi. fold w in Hi.
    pose proof (Spec.rnd_monotone R _ _ Hxw1) as Hm. fold p in Hm. lra. }
  destruct (Spec.rnd_error R (x * w) Hxw0 ltac:(lra)) as [Hpl Hpu].
  fold p in Hpl, Hpu. fold delta in Hpl, Hpu.
  assert (Hsum0 : 0 <= ts + p) by lra.
  assert (Hsum : ts + p <= tw + w) by lra.
  destruct (Spec.rnd_error R (ts + p) Hsum0 ltac:(lra)) as [Htl Htu].
  destruct (Spec.rnd_error R (tw + w) ltac:(lra) ltac:(lra)) as [Hvl Hvu].
  fold delta in Htl, Htu, Hvl, Hvu.
  split; [apply rnd_nonneg; exact Hsum0|].
  split; [apply (Spec.rnd_monotone R); exact Hsum|].
  subst ts' tw' p w. repeat split; lra.
Qed.

Lemma score_invariant_step (x c ts tw S W e f : Q) :
  Spec.score_invariant ts tw S W e f ->
  Spec.in_unit x -> Spec.in_unit c -> W + c + f <= 3 # 2 ->
  Spec.score_invariant (rnd (ts + rnd (x * rnd c))) (rnd (tw + rnd c))
    (S + x * c) (W + c) (e + 3 * delta) (f + 2 * delta).
Proof.
  intros (H1 & H2 & H3 & H4 & H5 & H6) [Hx0 Hx1] [Hc0 Hc1] Hr.
  apply score_step; assumption.
Qed.

Lemma gtb_true (a b : Q) : b < a -> Num.gtb a b = true.
Proof.
  intros H. unfold Num.gtb. destruct (Qle_bool a b) eqn:E; [|reflexivity].
  apply Qle_bool_iff in E. lra.
Qed.

(** The quotient of the final sums, before it is rounded. *)
Lemma quotient_close (ts tw S e f : Q) :
  0 <= S -> S <= 1 -> 0 <= e -> 0 <= f -> f <= 1 # 2 ->
  Spec.score_invariant ts tw S 1 e f ->
  0 <= ts / tw /\ ts / tw <= 1
  /\ S - (e + f) * 2 <= ts / tw /\ ts / tw <= S + (e + f) * 2.
Proof.
  intros HS0 HS1 He Hf Hf2 (H1 & H2 & H3 & H4 & H5 & H6).
  assert (Hpos : 0 < tw) by lra.
  split; [apply Qle_shift_div_l; [exact Hpos | lra]|].
  split; [apply Qle_shift_div_r; [exact Hpos | lra]|].
  split.
  - apply Qle_shift_div_l; [exact Hpos|].
    destruct (Qlt_le_dec (S - (e + f) * 2) 0) as [Hneg | Hnn].
    + assert ((S - (e + f) * 2) * tw <= 0) by nra. lra.
    + assert ((S - (e + f) * 2) * tw <= (S - (e + f) * 2) * (1 + f)) by nra.
      nra.
  - apply Qle_shift_div_r; [exact Hpos|].
    assert ((S + (e + f) * 2) * (1 - f) <= (S + (e + f) * 2) * tw) by nra.
    nra.
Qed.

(** C5.  For a metrics record with all eight values in [0,1], and
    arithmetic rounded to nearest, [calculateOverallScore] returns a value
    of [0,1] within 1e-9 of the weighted sum with the weights 0.15 (four
    times) and 0.10 (four times), which add up to 1. *)
Theorem overall_score_bounds (m : Metrics) :
  Spec.unit_metrics m ->
  0 <= calculateOverallScore rnd m
  /\ calculateOverallScore rnd m <= 1
  /\ Qabs (calculateOverallScore rnd m - Spec.weighted_sum m)
     <= Spec.tolerance
  /\ fold_right (fun kw total => snd kw + total) 0 (weights Num.exact) == 1.
Proof.
  intros (M1 & M2 & M3 & M4 & M5 & M6 & M7 & M8).
  assert (U15 : Spec.in_unit (15 # 100)) by (unfold Spec.in_unit; lra).
  assert (U10 : Spec.in_unit (10 # 100)) by (unfold Spec.in_unit; lra).
  assert (I0 : Spec.score_invariant 0 0 0 0 0 0)
    by (unfold Spec.score_invariant; lra).
  (* the eight turns of the loop *)
  pose proof (score_invariant_step _ _ _ _ _ _ _ _ I0 M1 U15) as I1;
    specialize (I1 ltac:(unfold delta, Spec.ulp_bound; lra)).
  pose proof (score_invariant_step _ _ _ _ _ _ _ _ I1 M2 U15) as I2;
    specialize (I2 ltac:(unfold delta, Spec.ulp_bound; lra)).
  pose proof (score_invariant_step _ _ _ _ _ _ _ _ I2 M3 U15) as I3;
    specialize (I3 ltac:(unfold delta, Spec.ulp_bound; lra)).
  pose proof (score_invariant_step _ _ _ _ _ _ _ _ I3 M4 U15) as I4;
    specialize (I4 ltac:(unfold delta, Spec.ulp_bound; lra)).
  pose proof (score_invariant_step _ _ _ _ _ _ _ _ I4 M5 U10) as I5;
    specialize (I5 ltac:(unfold delta, Spec.ulp_bound; lra)).
  pose proof (score_invariant_step _ _ _ _ _ _ _ _ I5 M6 U10) as I6;
    specialize (I6 ltac:(unfold delta, Spec.ulp_bound; lra)).
  pose proof (score_invariant_step _ _ _ _ _ _ _ _ I6 M7 U10) as I7;
    specialize (I7 ltac:(unfold delta, Spec.ulp_bound; lra)).
  pose proof (score_invariant_step _ _ _ _ _ _ _ _ I7 M8 U10) as I8;
    specialize (I8 ltac:(unfold delta, Spec.ulp_bound; lra)).
  clear I0 I1 I2 I3 I4 I5 I6 I7.
  match type of I8 with
  | Spec.score_invariant ?ts ?tw ?S ?W ?e ?f =>
      set (ts8 := ts) in *; set (tw8 := tw) in *;
      set (S8 := S) in *; set (e8 := e) in *; set (f8 := f) in *;
      assert (HW : W == 1) by lra;
      assert (HS : S8 == Spec.weighted_sum m)
        by (unfold S8, Spec.weighted_sum; lra);
      assert (He : e8 == 24 * delta) by (unfold e8; lra);
      assert (Hf : f8 == 16 * delta) by (unfold f8; lra);
      change (calculateOverallScore rnd m)
        with (if Num.gtb tw8 0 then rnd (ts8 / tw8) else 0)
  end.
  assert (Hd : delta == 1 # 1000000000000000) by reflexivity.
  assert (HS0 : 0 <= S8 /\ S8 <= 1).
  { rewrite HS. unfold Spec.weighted_sum, Spec.in_unit in *. lra. }
  assert (I : Spec.score_invariant ts8 tw8 S8 1 e8 f8).
  { unfold Spec.score_invariant in *. lra. }
  destruct (quotient_close ts8 tw8 S8 e8 f8 (proj1 HS0) (proj2 HS0)
              ltac:(lra) ltac:(lra) ltac:(lra) I) as (Q0 & Q1 & Ql & Qu).
  rewrite gtb_true by (unfold Spec.score_invariant in I; lra).
  destruct (Spec.rnd_error R (ts8 / tw8) Q0 ltac:(lra)) as [Rl Ru].
  fold delta in Rl, Ru.
  split; [apply rnd_nonneg; exact Q0|].
  split; [apply rnd_le_one; exact Q1|].
  split; [|reflexivity].
  apply Qabs_Qle_condition. unfold Spec.tolerance. split; lra.
Qed.

End OverallScore.

Section OverallScoreExample.

Import ResponseQualityAnalyzer.
Local Open Scope Q_scope.

Lemma exact_is_rounding : Spec.rounding Num.exact.
Proof.
  constructor; unfold Num.exact, Spec.ulp_bound; intros; try reflexivity;
    try assumption.
  split; lra.
Qed.

Lemma Qfloor_half_up (k : Z) : Qfloor (inject_Z k + (1 # 2)) = k.
Proof.
  apply Z.le_antisymm.
  - apply Z.lt_succ_r. rewrite Zlt_Qlt.
    apply Qle_lt_trans with (inject_Z k + (1 # 2)).
    + apply Qfloor_le.
    + unfold Z.succ. rewrite inject_Z_plus.
      change (inject_Z 1) with 1%Q. lra.
  - rewrite <- (Qfloor_Z k) at 1. apply Qfloor_resp_le. lra.
Qed.

(** Rounding to a grid is a rounding in the sense of the score theorem. *)
Lemma grid_is_rounding : Spec.rounding Num.grid.
Proof.
  constructor.
  - intros x y Hxy. unfold Num.grid.
    apply Qmult_le_compat_r; [|lra].
    rewrite <- Zle_Qle. apply Qfloor_resp_le. lra.
  - reflexivity.
  - reflexivity.
  - intros x. unfold Num.grid at 1.
    set (k := Qfloor (x * (1152921504606846976 # 1) + (1 # 2))).
    change (Num.grid x) with (inject_Z k * (1 # 1152921504606846976)).
    assert (E : inject_Z k * (1 # 1152921504606846976)
                * (1152921504606846976 # 1) + (1 # 2)
                == inject_Z k + (1 # 2)) by field.
    rewrite E, Qfloor_half_up. reflexivity.
  - intros x _ _. unfold Num.grid, Spec.ulp_bound.
    set (y := x * (1152921504606846976 # 1) + (1 # 2)).
    pose proof (Qfloor_le y) as Hlo. pose proof (Qlt_floor y) as Hhi.
    rewrite inject_Z_plus in Hhi. change (inject_Z 1) with 1%Q in Hhi.
    set (f := inject_Z (Qfloor y)) in *. unfold y in Hlo, Hhi.
    split; lra.
Qed.

Lemma overall_score_example :
  Spec.rounding Num.grid
  /\ Spec.unit_metrics Spec.sample_metrics
  /\ 0 <= calculateOverallScore Num.grid Spec.sample_metrics
  /\ calculateOverallScore Num.grid Spec.sample_metrics <= 1
  /\ Qabs (calculateOverallScore Num.grid Spec.sample_metrics
           - Spec.weighted_sum Spec.sample_metrics) <= Spec.tolerance.
Proof.
  assert (U : Spec.unit_metrics Spec.sample_metrics).
  { unfold Spec.unit_metrics, Spec.in_unit. simpl. repeat split; lra. }
  split; [exact grid_is_rounding|]. split; [exact U|].
  destruct (overall_score_bounds Num.grid grid_is_rounding
              Spec.sample_metrics U) as (H0 & H1 & H2 & _).
  split; [exact H0|]. split; [exact H1 | exact H2].
Defined.

End OverallScoreExample.

(* ================================================================= *)
(** * Further properties of the code *)

(** ** Strings, continued *)

Section MoreStringFacts.

Lemma eqb_eq (a b : jsstring) : JS.eqb a b = true <-> a = b.
Proof.
  revert b. induction a as [|x a IH]; intros [|y b]; simpl;
    try (split; [discriminate | discriminate]); try tauto.
  rewrite andb_true_iff, N.eqb_eq, IH. split.
  - intros [-> ->]. reflexivity.
  - intros E. injection E as -> ->. split; reflexivity.
Qed.

Lemma eqb_refl (a : jsstring) : JS.eqb a a = true.
Proof. apply eqb_eq. reflexivity. Qed.

Lemma starts_with_head (c : cu) (p s : jsstring) :
  starts_with (c :: p) s = true -> exists r, s = c :: r.
Proof.
  destruct s as [|b s]; simpl; [discriminate|].
  rewrite andb_true_iff, N.eqb_eq. intros [-> _]. exists s. reflexivity.
Qed.

(** A text that includes a non-empty pattern holds the first character of
    the pattern. *)
Lemma includes_head (s : jsstring) (c : cu) (p : jsstring) :
  includes s (c :: p) = true -> In c s.
Proof.
  induction s as [|b s IH]; simpl.
  - discriminate.
  - rewrite orb_true_iff, andb_true_iff, N.eqb_eq.
    intros [[-> _] | H]; [left; reflexivity | right; apply IH, H].
Qed.

Lemma trimStart_incl (s : jsstring) : incl (trimStart s) s.
Proof.
  induction s as [|c s IH]; simpl.
  - apply incl_refl.
  - destruct (is_space c); [apply incl_tl, IH | apply incl_refl].
Qed.

Lemma trimEnd_incl (s : jsstring) : incl (trimEnd s) s.
Proof.
  induction s as [|c s IH]; simpl.
  - apply incl_refl.
  - destruct (trimEnd s) as [|d r] eqn:E.
    + destruct (is_space c); [apply incl_nil_l|].
      intros x [<- | []]. left. reflexivity.
    + apply incl_cons; [left; reflexivity | apply incl_tl, IH].
Qed.

Lemma trim_incl (s : jsstring) : incl (trim s) s.
Proof.
  unfold trim. eapply incl_tran; [apply trimEnd_incl | apply trimStart_incl].
Qed.

Lemma trimEnd_idempotent (s : jsstring) : trimEnd (trimEnd s) = trimEnd s.
Proof.
  induction s as [|c s IH]; simpl; [reflexivity|].
  destruct (trimEnd s) as [|d r] eqn:E.
  - destruct (is_space c) eqn:Hc; simpl; [reflexivity|].
    rewrite Hc. reflexivity.
  - simpl in IH |- *. rewrite IH. reflexivity.
Qed.

(** What [trimStart] leaves is empty or starts with a visible character. *)
Lemma trimStart_head (s : jsstring) :
  trimStart s = []
  \/ exists c r, trimStart s = c :: r /\ is_space c = false.
Proof.
  induction s as [|c s IH]; simpl; [left; reflexivity|].
  destruct (is_space c) eqn:Hc; [exact IH|].
  right. exists c, s. split; [reflexivity | exact Hc].
Qed.

Lemma trimEnd_keeps_head (c : cu) (r : jsstring) :
  is_space c = false -> exists r', trimEnd (c :: r) = c :: r'.
Proof.
  intros Hc. simpl. destruct (trimEnd r) as [|d r'].
  - rewrite Hc. exists []. reflexivity.
  - exists (d :: r'). reflexivity.
Qed.

Lemma trimStart_visible (c : cu) (r : jsstring) :
  is_space c = false -> trimStart (c :: r) = c :: r.
Proof. intros Hc. simpl. rewrite Hc. reflexivity. Qed.

Lemma trim_idempotent (s : jsstring) : trim (trim s) = trim s.
Proof.
  unfold trim. destruct (trimStart_head s) as [E | (c & r & E & Hc)].
  - rewrite E. reflexivity.
  - rewrite E. destruct (trimEnd_keeps_head c r Hc) as [r' E'].
    rewrite E', (trimStart_visible c r' Hc), <- E'.
    apply trimEnd_idempotent.
Qed.

(** A text with a visible character does not trim to the empty string. *)
Lemma trimEnd_visible (s : jsstring) (c : cu) :
  In c s -> is_space c = false -> trimEnd s <> [].
Proof.
  induction s as [|b s IH]; simpl; [tauto|].
  intros [-> | Hin] Hc.
  - destruct (trimEnd s); [rewrite Hc|]; discriminate.
  - specialize (IH Hin Hc). destruct (trimEnd s); [contradiction | discriminate].
Qed.

Lemma trimStart_visible_in (s : jsstring) (c : cu) :
  In c s -> is_space c = false -> In c (trimStart s).
Proof.
  induction s as [|b s IH]; simpl; [tauto|].
  intros [-> | Hin] Hc.
  - rewrite Hc. left. reflexivity.
  - destruct (is_space b); [apply IH; assumption | right; exact Hin].
Qed.

Lemma trim_visible (s : jsstring) (c : cu) :
  In c s -> is_space c = false -> trim s <> [].
Proof.
  intros Hin Hc. unfold trim.
  apply trimEnd_visible with c; [apply trimStart_visible_in|]; assumption.
Qed.

Lemma trim_blank (s : jsstring) : forallb is_space s = true -> trim s = [].
Proof.
  unfold trim. induction s as [|c s IH]; simpl; [reflexivity|].
  rewrite andb_true_iff. intros [-> H]. apply IH, H.
Qed.

Lemma toLowerCase_keeps_out (c : cu) (s : jsstring) :
  is_upper c = false -> is_lower c = false -> c <> 0x307%N ->
  In c (toLowerCase s) -> In c s.
Proof.
  intros Hu Hl H307. unfold toLowerCase. rewrite in_flat_map.
  intros (x & Hx & Hin). unfold lower1 in Hin.
  destruct (is_upper x) eqn:Ux.
  - destruct Hin as [<- | []]. exfalso.
    unfold is_upper, is_lower, in_range in *.
    rewrite andb_true_iff, !N.leb_le in Ux.
    rewrite andb_false_iff, !N.leb_gt in Hl. lia.
  - destruct (x =? 0x212A)%N.
    + destruct Hin as [<- | []]. discriminate.
    + destruct (x =? 0x130)%N.
      * destruct Hin as [<- | [<- | []]]; [discriminate | contradiction].
      * destruct Hin as [<- | []]. exact Hx.
Qed.

Lemma join_In (sep : jsstring) (l : list jsstring) (c : cu) :
  In c (join sep l) -> In c sep \/ exists x, In x l /\ In c x.
Proof.
  induction l as [|x l IH]; simpl; [tauto|].
  destruct l as [|y l].
  - intros H. right. exists x. split; [left; reflexivity | exact H].
  - rewrite !in_app_iff. intros [H | [H | H]].
    + right. exists x. split; [left; reflexivity | exact H].
    + left. exact H.
    + destruct (IH H) as [Hs | (z & Hz & Hc)]; [left; exact Hs|].
      right. exists z. split; [right; exact Hz | exact Hc].
Qed.

Lemma filter_none {A : Type} (f : A -> bool) (l : list A) :
  Forall (fun x => f x = false) l -> filter f l = [].
Proof.
  induction 1 as [|x l Hx _ IH]; simpl; [reflexivity|].
  rewrite Hx. exact IH.
Qed.

Lemma filter_all {A : Type} (f : A -> bool) (l : list A) :
  Forall (fun x => f x = true) l -> filter f l = l.
Proof.
  induction 1 as [|x l Hx _ IH]; simpl; [reflexivity|].
  rewrite Hx, IH. reflexivity.
Qed.

Lemma filter_split_length {A : Type} (f : A -> bool) (l : list A) :
  length (filter f l) + length (filter (fun x => negb (f x)) l) = length l.
Proof.
  induction l as [|x l IH]; simpl; [reflexivity|].
  destruct (f x); simpl; lia.
Qed.

End MoreStringFacts.

(* ================================================================= *)
(** ** The tokenizer and the buckets of the classifier *)

Section Tokenizer.

Lemma split_runs_go_pieces (sep : cu -> bool) (s : jsstring) :
  forall (acc : jsstring) (in_sep : bool),
    Forall (fun c => sep c = false) acc ->
    Forall (Forall (fun c => sep c = false))
           (split_runs_go sep acc in_sep s).
Proof.
  induction s as [|c s IH]; intros acc in_sep Hacc; simpl.
  - constructor; [apply Forall_rev, Hacc | constructor].
  - destruct (sep c) eqn:Hc.
    + destruct in_sep.
      * apply IH, Hacc.
      * constructor; [apply Forall_rev, Hacc | apply IH; constructor].
    + apply IH. constructor; assumption.
Qed.

Lemma tokenize_sentences_free (text : jsstring) :
  Forall (Forall (fun c => is_sentence_end c = false)) (tokenize text).
Proof.
  apply Forall_forall. intros x Hx. unfold tokenize in Hx.
  apply filter_In in Hx. destruct Hx as [Hx _].
  apply in_map_iff in Hx. destruct Hx as (p & <- & Hp).
  pose proof (split_runs_go_pieces is_sentence_end text [] false
                (Forall_nil _)) as H.
  rewrite Forall_forall in H. specialize (H p Hp).
  rewrite Forall_forall in H |- *.
  intros c Hc. apply H, (trim_incl p), Hc.
Qed.

(** X1.  The tokenizer of the formatter returns sentences that are not
    empty, carry no white space at either end (trimming them again changes
    nothing) and hold none of the characters [.], [!] and [?]. *)
Theorem tokenize_sentences (text : jsstring) :
  Forall (fun x => x <> []
                   /\ trim x = x
                   /\ Forall (fun c => is_sentence_end c = false) x)
         (tokenize text).
Proof.
  pose proof (tokenize_sentences_free text) as F.
  rewrite Forall_forall in F.
  apply Forall_forall. intros x Hx. split; [|split].
  - unfold tokenize in Hx. apply filter_In in Hx.
    destruct x; [destruct Hx as [_ Hx]; discriminate Hx | discriminate].
  - unfold tokenize in Hx. apply filter_In in Hx. destruct Hx as [Hx _].
    apply in_map_iff in Hx. destruct Hx as (p & <- & _).
    apply trim_idempotent.
  - apply F, Hx.
Qed.

Lemma no_question_mark (x : jsstring) :
  Forall (fun c => is_sentence_end c = false) x ->
  includes x QUESTION_MARK = false.
Proof.
  intros H. destruct (includes x QUESTION_MARK) eqn:E; [|reflexivity].
  apply includes_head in E. rewrite Forall_forall in H.
  specialize (H _ E). discriminate H.
Qed.

(** X2.  On the sentences of the tokenizer the bucket [questions] of the
    classifier is always empty and [statements] holds every sentence, and
    the conversation context never records a question: the question mark
    was consumed by the split. *)
Theorem tokenized_text_has_no_questions (text : jsstring) :
  let sentences := tokenize text in
  questions (analyzeEnhancedContentStructure sentences) = []
  /\ statements (analyzeEnhancedContentStructure sentences) = sentences
  /\ hasQuestion (analyzeConversationContext sentences) = false.
Proof.
  intros sentences.
  assert (H : Forall (fun x => includes x QUESTION_MARK = false) sentences).
  { eapply Forall_impl; [|apply tokenize_sentences_free].
    intros x Hx. apply no_question_mark, Hx. }
  split; [|split].
  - apply filter_none, H.
  - apply filter_all. eapply Forall_impl; [|exact H].
    intros x Hx. simpl. rewrite Hx. reflexivity.
  - unfold analyzeConversationContext. cbn [hasQuestion].
    unfold text_has. cbn [existsb]. rewrite orb_false_r.
    match goal with |- includes ?t ?p = false =>
      destruct (includes t p) eqn:E; [|reflexivity] end.
    exfalso. apply includes_head in E.
    apply toLowerCase_keeps_out in E; [|reflexivity|reflexivity|discriminate].
    apply join_In in E. destruct E as [[E | []] | (x & Hx & Hc)].
    + discriminate E.
    + pose proof (tokenize_sentences_free text) as F.
      rewrite Forall_forall in F. specialize (F x Hx).
      rewrite Forall_forall in F. specialize (F _ Hc). discriminate F.
Qed.

(** X3.  The classifier puts every sentence in exactly one of [questions]
    and [statements], so the sizes of the two buckets add up to
    [totalSentences]; the other buckets hold sentences of the input, in
    their order, and none holds more than [totalSentences]. *)
Theorem buckets_partition (sentences : list jsstring) :
  let s := analyzeEnhancedContentStructure sentences in
  length (questions s) + length (statements s) = totalSentences s
  /\ Forall (fun bucket => incl bucket sentences
                           /\ length bucket <= totalSentences s)
       [keyPoints s; positiveAspects s; negativeAspects s; suggestions s;
        questions s; statements s].
Proof.
  intros s. split.
  - apply filter_split_length.
  - repeat constructor; try (apply incl_filter); apply filter_length_le.
Qed.

End Tokenizer.

(* ================================================================= *)
(** ** Topic labels *)

Section Topics.

Lemma seen_iff (x : jsstring) (seen : list jsstring) :
  existsb (JS.eqb x) seen = true <-> In x seen.
Proof.
  rewrite existsb_exists. split.
  - intros (y & Hy & E). apply eqb_eq in E. subst y. exact Hy.
  - intros H. exists x. split; [exact H | apply eqb_refl].
Qed.

Lemma dedupe_fresh (l seen : list jsstring) (x : jsstring) :
  In x (dedupe seen l) -> In x l /\ ~ In x seen.
Proof.
  revert seen. induction l as [|y l IH]; intros seen; simpl; [tauto|].
  destruct (existsb (JS.eqb y) seen) eqn:E.
  - intros H. destruct (IH _ H) as [H1 H2]. tauto.
  - intros [<- | H].
    + split; [left; reflexivity|]. rewrite <- seen_iff, E. discriminate.
    + destruct (IH _ H) as [H1 H2]. split; [right; exact H1|].
      intros Hs. apply H2. right. exact Hs.
Qed.

Lemma dedupe_NoDup (l seen : list jsstring) : NoDup (dedupe seen l).
Proof.
  revert seen. induction l as [|y l IH]; intros seen; simpl.
  - constructor.
  - destruct (existsb (JS.eqb y) seen); [apply IH|].
    constructor; [|apply IH].
    intros H. apply dedupe_fresh in H. apply (proj2 H). left. reflexivity.
Qed.

(** X4.  [extractTopicKeywords] never returns a label twice, and the
    [Set] it builds never has to drop one: each of the five keyword groups
    that occurs in the text contributes its three labels, so the result has
    three labels for every group found. *)
Theorem topic_labels_distinct (text : jsstring) :
  let found (kws : list string) := if text_has text kws then 1 else 0 in
  NoDup (extractTopicKeywords text)
  /\ length (extractTopicKeywords text)
     = 3 * (found ["food"; "restaurant"; "dining"; "meal"]
            + found ["hotel"; "accommodation"; "room"; "stay"]
            + found ["product"; "item"; "purchase"; "buy"]
            + found ["service"; "support"; "help"; "assistance"]
            + found ["app"; "software"; "technology"; "digital"]).
Proof.
  intros found. split; [apply dedupe_NoDup|].
  unfold extractTopicKeywords, found.
  destruct (text_has text ["food"; "restaurant"; "dining"; "meal"]),
           (text_has text ["hotel"; "accommodation"; "room"; "stay"]),
           (text_has text ["product"; "item"; "purchase"; "buy"]),
           (text_has text ["service"; "support"; "help"; "assistance"]),
           (text_has text ["app"; "software"; "technology"; "digital"]);
    vm_compute; reflexivity.
Qed.

End Topics.

(* ================================================================= *)
(** ** Blank input *)

Section BlankInput.

Lemma replace_go_blank (m : matcher) :
  (forall prev s rep n,
     forallb is_space s = true -> m prev s = Some (rep, n) -> forallb is_space rep = true) ->
  forall s prev skip, forallb is_space s = true -> forallb is_space (replace_go m prev skip s) = true.
Proof.
  intros Hm. induction s as [|c s IH]; intros prev skip Hs; [reflexivity|].
  pose proof Hs as Hs'. simpl in Hs'.
  apply andb_true_iff in Hs'. destruct Hs' as [Hc Hr].
  simpl. destruct skip as [|k].
  - destruct (m prev (c :: s)) as [[rep len]|] eqn:E.
    + rewrite forallb_app.
      rewrite (Hm _ _ _ _ Hs E). apply IH, Hr.
    + simpl. rewrite Hc. apply IH, Hr.
  - apply IH, Hr.
Qed.

Lemma blank_starts_with (c : cu) (p s : jsstring) :
  is_space c = false -> forallb is_space s = true -> starts_with (c :: p) s = false.
Proof.
  intros Hc Hs. destruct (starts_with (c :: p) s) eqn:E; [|reflexivity].
  apply starts_with_head in E. destruct E as [r ->].
  simpl in Hs. rewrite Hc in Hs. discriminate Hs.
Qed.

Lemma m_wrapped_blank (c : cu) (d s : jsstring) (prev : option cu) :
  is_space c = false -> forallb is_space s = true -> m_wrapped (c :: d) prev s = None.
Proof.
  intros Hc Hs. unfold m_wrapped.
  rewrite (blank_starts_with c d s Hc Hs). reflexivity.
Qed.

(** X5.  A text made of white space only (spaces, tabs, line breaks, in any
    number) is cleaned to the empty string: the passes before the trim keep
    it blank, the trim empties it, and the formatter is not entered. *)
Theorem blank_text_cleans_to_nothing (s : jsstring) :
  forallb is_space s = true ->
  cleaned s = [] /\ cleanAIResponse (VStr s) = VStr [].
Proof.
  intros Hs.
  assert (E : cleaned s = []).
  { unfold cleaned. cbv zeta.
    match goal with
    | |- context [trim ?t] =>
        assert (B : forallb is_space t = true); [|rewrite (trim_blank t B); reflexivity]
    end.
    unfold replace_all.
    apply replace_go_blank.
    { intros prev x rep n _. unfold m_run.
      destruct (3 <=? count_while (N.eqb NL) x)%nat; [|discriminate].
      intros [= <- _]. reflexivity. }
    apply replace_go_blank.
    { intros prev x rep n Hx.
      change (lit "`") with ([96%N]).
      rewrite m_wrapped_blank by (reflexivity || exact Hx).
      discriminate. }
    apply replace_go_blank.
    { intros prev x rep n Hx.
      change (lit "*") with ([42%N]).
      rewrite m_wrapped_blank by (reflexivity || exact Hx).
      discriminate. }
    apply replace_go_blank.
    { intros prev x rep n Hx.
      change (lit "**") with ([42%N; 42%N]).
      rewrite m_wrapped_blank by (reflexivity || exact Hx).
      discriminate. }
    apply replace_go_blank; [|exact Hs].
    intros prev x rep n Hx. unfold m_fence.
    destruct (starts_with fence x); [|discriminate].
    destruct (find_from fence (skipn 3 x)); [|discriminate].
    intros [= <- _]. reflexivity. }
  split; [exact E|].
  destruct s as [|c s]; [reflexivity|].
  simpl. rewrite E. reflexivity.
Qed.

Lemma blank_text_example :
  forallb is_space [32; 10; 9; 10; 10; 10; 32]%N = true
  /\ cleanAIResponse (VStr [32; 10; 9; 10; 10; 10; 32]%N) = VStr [].
Proof.
  split; [reflexivity|].
  apply (blank_text_cleans_to_nothing [32; 10; 9; 10; 10; 10; 32]%N).
  reflexivity.
Defined.

End BlankInput.

(* ================================================================= *)
(** ** The closing line of the formatters *)

Section Closings.

Lemma closing_visible (formatted closing : jsstring) (c : cu) :
  In c closing -> is_space c = false -> trim (formatted ++ closing) <> [].
Proof.
  intros Hin Hc. apply trim_visible with c; [|exact Hc].
  apply in_or_app. right. exact Hin.
Qed.

Lemma review_never_empty (sentences : list jsstring)
    (structure : ContentStructure) :
  formatEnhancedReviewResponse sentences structure <> [].
Proof.
  unfold formatEnhancedReviewResponse. cbv zeta.
  apply closing_visible with 0xD83C%N; [|reflexivity].
  destruct (find _ sentences); [left; reflexivity|].
  destruct (_ <? _)%nat; [left; reflexivity|].
  destruct (_ <? _)%nat; left; reflexivity.
Qed.

Lemma conversation_never_empty (sentences : list jsstring)
    (structure : ContentStructure) :
  formatEnhancedConversationResponse sentences structure <> [].
Proof.
  unfold formatEnhancedConversationResponse. cbv zeta.
  apply closing_visible with 0xD83D%N; [|reflexivity].
  unfold generateConversationalClosing.
  destruct (find _ sentences); [left; reflexivity|].
  destruct (hasQuestion _); [left; reflexivity|].
  destruct (isCasual _); [left; reflexivity|].
  destruct (isThoughtful _); left; reflexivity.
Qed.

Lemma customer_service_never_empty (sentences : list jsstring)
    (structure : ContentStructure) :
  formatEnhancedCustomerServiceResponse sentences structure <> [].
Proof.
  unfold formatEnhancedCustomerServiceResponse. cbv zeta.
  apply closing_visible with 0xD83D%N; [|reflexivity].
  destruct (find (fun s => mentions s ["contact"; _; _; _; _]) sentences);
    left; reflexivity.
Qed.

Lemma general_never_empty (sentences : list jsstring)
    (structure : ContentStructure) :
  formatEnhancedGeneralResponse sentences structure <> [].
Proof.
  unfold formatEnhancedGeneralResponse. cbv zeta.
  apply closing_visible with 0xD83C%N; [|reflexivity].
  destruct (find (fun s => mentions s ["therefore"; _; _; _; _; _]) sentences);
    left; reflexivity.
Qed.

(** X6.  The review, conversation, customer-service and general formatters
    never return the empty string, whatever the sentences: each ends with a
    closing line (found or canned) that starts with an emoji, which the
    final trim keeps.  The analysis formatter has no such line and returns
    the empty string when none of its sections applies, as for the single
    sentence "analysis". *)
Theorem formatters_closing_line (sentences : list jsstring)
    (structure : ContentStructure) :
  formatEnhancedReviewResponse sentences structure <> []
  /\ formatEnhancedConversationResponse sentences structure <> []
  /\ formatEnhancedCustomerServiceResponse sentences structure <> []
  /\ formatEnhancedGeneralResponse sentences structure <> []
  /\ formatEnhancedAnalysisResponse [lit "analysis"]
       (analyzeEnhancedContentStructure [lit "analysis"]) = [].
Proof.
  split; [apply review_never_empty|].
  split; [apply conversation_never_empty|].
  split; [apply customer_service_never_empty|].
  split; [apply general_never_empty|].
  vm_compute. reflexivity.
Qed.

(** X7.  Through the whole pipeline: when [formatForEnhancedDepthAndRelevance]
    returns the empty string for a text, the text was empty or the
    classifier tagged its sentences as an analysis. *)
Theorem empty_report_is_an_analysis (text : jsstring) :
  formatForEnhancedDepthAndRelevance text = [] ->
  text = []
  \/ type (analyzeEnhancedContentStructure (tokenize text)) = Analysis.
Proof.
  unfold formatForEnhancedDepthAndRelevance.
  destruct text as [|c text]; [left; reflexivity|].
  cbn [is_empty]. cbv zeta.
  destruct (type (analyzeEnhancedContentStructure (tokenize (c :: text))));
    intros H; try (right; reflexivity); exfalso; revert H.
  - apply review_never_empty.
  - apply conversation_never_empty.
  - apply customer_service_never_empty.
  - apply general_never_empty.
Qed.

Lemma empty_report_example :
  formatForEnhancedDepthAndRelevance (lit "analysis") = []
  /\ (lit "analysis" = []
      \/ type (analyzeEnhancedContentStructure (tokenize (lit "analysis")))
         = Analysis).
Proof.
  assert (H : formatForEnhancedDepthAndRelevance (lit "analysis") = [])
    by (vm_compute; reflexivity).
  split; [exact H|].
  exact (empty_report_is_an_analysis (lit "analysis") H).
Defined.

End Closings.

(* ================================================================= *)
(** ** Model / strategy selector, continued *)

Section SelectorDispatch.

Import EnhancedLLMService.

(** X8.  Whatever the analysis, the model chosen from the registry of the
    constructor is one that [callModelAPI] supports: the Claude entry goes
    to the Anthropic call, the GPT-4 entry to the OpenAI call, the Gemini
    entry to the Gemini call and the Llama entry to the Llama call, so the
    "Unsupported model" error is never thrown for a selected model. *)
Theorem selected_model_is_supported
    (rnd : Q -> Q) (a : Analysis) (context : value) :
  let ms := initial_models rnd in
  let m := selectOptimalModel ms a context in
  callModelAPI m <> None
  /\ ((m = claude ms /\ callModelAPI m = Some AnthropicAPI)
      \/ (m = gpt4 ms /\ callModelAPI m = Some OpenAIAPI)
      \/ (m = gemini ms /\ callModelAPI m = Some GeminiAPI)
      \/ (m = llama ms /\ callModelAPI m = Some LlamaAPI)).
Proof.
  intros ms m. unfold m, selectOptimalModel.
  destruct (content_eqb (contentType a) CCustomerService
            || match userIntent a with IComplaint => true | _ => false end).
  { split; [discriminate|]. left. split; reflexivity. }
  destruct (content_eqb (contentType a) CAnalysis
            || match complexity a with High => true | _ => false end).
  { split; [discriminate|]. right. left. split; reflexivity. }
  destruct (content_eqb (contentType a) CReview
            || match domain a with DGeneral => true | _ => false end).
  { split; [discriminate|]. right. right. left. split; reflexivity. }
  split; [discriminate|]. right. right. right. split; reflexivity.
Qed.

End SelectorDispatch.

Section SelectorFrame.

Import EnhancedLLMService.

Variable rnd : Q -> Q.

(** What a call leaves of the registry. *)
Lemma registry_after_strategy (ps : Patterns) (a : Analysis)
    (m : ModelConfig) :
  snd (generateResponseStrategy rnd ps a m)
  = match sentiment a, pattern_key (contentType a) with
    | Negative, Some k => push_tone ps k (lit "empathetic")
    | _, _ => ps
    end.
Proof.
  unfold generateResponseStrategy.
  destruct (sentiment a), (pattern_key (contentType a)),
           (urgency a), (complexity a); reflexivity.
Qed.

Lemma registry_after_call (this : Service) (input : jsstring)
    (context : value) :
  responsePatterns (snd (analyzeInputAndSelectModel rnd this input context))
  = match detectSentiment input, pattern_key (detectContentType input) with
    | Negative, Some k =>
        push_tone (responsePatterns this) k (lit "empathetic")
    | _, _ => responsePatterns this
    end.
Proof.
  unfold analyzeInputAndSelectModel. cbv zeta.
  match goal with
  | |- context [generateResponseStrategy rnd ?ps ?a ?m] =>
      pose proof (registry_after_strategy ps a m) as H;
      destruct (generateResponseStrategy rnd ps a m) as [s ps']
  end.
  simpl in H |- *. exact H.
Qed.

Lemma models_after_call (this : Service) (input : jsstring)
    (context : value) :
  models (snd (analyzeInputAndSelectModel rnd this input context))
  = models this.
Proof.
  unfold analyzeInputAndSelectModel. cbv zeta.
  destruct (generateResponseStrategy rnd _ _ _). reflexivity.
Qed.

Lemma push_tone_frame (ps : Patterns) (k j : PatternKey) (x : jsstring) :
  let p := get_pattern ps j in
  let p' := get_pattern (push_tone ps k x) j in
  p_structure p' = p_structure p
  /\ p_length p' = p_length p
  /\ p_complexity p' = p_complexity p
  /\ (p_tone p' = p_tone p \/ p_tone p' = p_tone p ++ [x]).
Proof.
  destruct k, j; simpl; repeat split; tauto.
Qed.

(** X9.  What [analyzeInputAndSelectModel] may change of the service: the
    model table is never touched; in every pattern of the registry the
    structure, length and complexity stay as they were, and the tone list
    is either unchanged or longer by the one entry "empathetic". *)
Theorem selection_frame (this : Service) (input : jsstring)
    (context : value) (j : PatternKey) :
  let after := snd (analyzeInputAndSelectModel rnd this input context) in
  let p := get_pattern (responsePatterns this) j in
  let p' := get_pattern (responsePatterns after) j in
  models after = models this
  /\ p_structure p' = p_structure p
  /\ p_length p' = p_length p
  /\ p_complexity p' = p_complexity p
  /\ (p_tone p' = p_tone p \/ p_tone p' = p_tone p ++ [lit "empathetic"]).
Proof.
  intros after p p'. split; [apply models_after_call|].
  unfold p', after. rewrite registry_after_call. fold p.
  destruct (detectSentiment input), (pattern_key (detectContentType input));
    try (repeat split; tauto).
  apply push_tone_frame.
Qed.

Lemma after_calls_step (n : nat) (this : Service) (input : jsstring)
    (context : value) :
  after_calls rnd (S n) this input context
  = snd (analyzeInputAndSelectModel rnd
           (after_calls rnd n this input context) input context).
Proof.
  revert this. induction n as [|n IH]; intros this; [reflexivity|].
  change (after_calls rnd (S (S n)) this input context)
    with (after_calls rnd (S n)
            (snd (analyzeInputAndSelectModel rnd this input context))
            input context).
  rewrite IH. reflexivity.
Qed.

Lemma repeat_snoc {A : Type} (x : A) (n : nat) :
  repeat x n ++ [x] = repeat x (S n).
Proof.
  induction n as [|n IH]; simpl; [reflexivity|]. rewrite IH. reflexivity.
Qed.

(** X10.  The registry grows without bound: after [n] calls with an input
    of negative sentiment whose content type has a pattern, the tone list
    of that pattern is the former list followed by [n] copies of
    "empathetic". *)
Theorem registry_grows_with_every_call (n : nat) (this : Service)
    (input : jsstring) (context : value) (k : PatternKey) :
  detectSentiment input = Negative ->
  pattern_key (detectContentType input) = Some k ->
  p_tone (get_pattern
            (responsePatterns (after_calls rnd n this input context)) k)
  = p_tone (get_pattern (responsePatterns this) k)
    ++ repeat (lit "empathetic") n.
Proof.
  intros Hs Hk. induction n as [|n IH].
  - simpl. rewrite app_nil_r. reflexivity.
  - rewrite after_calls_step, registry_after_call, Hs, Hk.
    change (p_tone (get_pattern (push_tone ?ps k ?x) k))
      with (deref (push_tone ps k x) (RegistryTone k)).
    rewrite deref_push_tone, IH, <- app_assoc, repeat_snoc. reflexivity.
Qed.

End SelectorFrame.

Lemma registry_grows_example :
  let input := lit "this is terrible" in
  let this := EnhancedLLMService.new_service Num.exact in
  EnhancedLLMService.detectSentiment input = EnhancedLLMService.Negative
  /\ EnhancedLLMService.pattern_key
       (EnhancedLLMService.detectContentType input)
     = Some EnhancedLLMService.KConversation
  /\ EnhancedLLMService.p_tone
       (EnhancedLLMService.conversation
          (EnhancedLLMService.responsePatterns
             (EnhancedLLMService.after_calls Num.exact 5 this input
                VUndefined)))
     = map lit ["friendly"; "casual"; "engaging"]
       ++ repeat (lit "empathetic") 5.
Proof.
  intros input this.
  split; [vm_compute; reflexivity|]. split; [vm_compute; reflexivity|].
  apply (registry_grows_with_every_call Num.exact 5 this input VUndefined
           EnhancedLLMService.KConversation); vm_compute; reflexivity.
Defined.

Section SelectorNumbers.

Import EnhancedLLMService.
Local Open Scope Q_scope.

Variable rnd : Q -> Q.
Hypothesis R : Spec.rounding rnd.

(** One conditional increment of a score: [if (b) score += d]. *)
Lemma increment_close (b : bool) (c d ideal e : Q) :
  1 # 100 <= d -> d <= 1 -> 0 <= c -> ideal + d + e <= 3 # 2 -> 0 <= e ->
  ideal - e <= c -> c <= ideal + e ->
  let c' := if b then rnd (c + rnd d) else c in
  let ideal' := ideal + (if b then d else 0) in
  c <= c'
  /\ ideal' - (e + 2 * Spec.ulp_bound) <= c'
  /\ c' <= ideal' + (e + 2 * Spec.ulp_bound).
Proof.
  intros Hd0 Hd1 Hc Hr He Hlo Hhi c' ideal'. subst c' ideal'.
  assert (U : Spec.ulp_bound == 1 # 1000000000000000) by reflexivity.
  destruct b; [|repeat split; lra].
  destruct (Spec.rnd_error R d ltac:(lra) ltac:(lra)) as [Dl Du].
  destruct (Spec.rnd_error R (c + rnd d) ltac:(lra) ltac:(lra)) as [Sl Su].
  repeat split; lra.
Qed.

Lemma min_one (x : Q) : Num.min x 1 <= 1 /\ Num.min x 1 <= x
                        /\ (x <= 1 -> Num.min x 1 == x).
Proof.
  unfold Num.min. destruct (Qle_bool x 1) eqn:E.
  - apply Qle_bool_iff in E. repeat split; lra.
  - assert (~ x <= 1) by (rewrite <- Qle_bool_iff, E; discriminate).
    repeat split; lra.
Qed.

(** The sum the confidence approximates. *)
Lemma confidence_steps (a : Analysis) :
  calculateConfidence rnd a
  = let step (b : bool) (d c : Q) := if b then rnd (c + rnd d) else c in
    Num.min
      (step (match userIntent a with IGeneral => false | _ => true end)
            (1 # 10)
         (step (match domain a with DGeneral => false | _ => true end)
               (1 # 10)
            (step (match sentiment a with Neutral => false | _ => true end)
                  (1 # 10)
               (step (negb (content_eqb (contentType a) CGeneral))
                     (2 # 10) (1 # 2))))) 1.
Proof.
  unfold calculateConfidence.
  destruct (content_eqb (contentType a) CGeneral), (sentiment a),
           (domain a), (userIntent a); reflexivity.
Qed.

(** X11.  With arithmetic rounded to nearest, the confidence of a selection
    lies between 0.5 and 1 and is, up to 1e-14, the sum of 0.5, 0.2 for a
    content type other than general, and 0.1 each for a sentiment other
    than neutral, a domain other than general and an intent other than
    general. *)
Theorem confidence_bounds (a : Analysis) :
  let ideal :=
    (1 # 2)
    + (if content_eqb (contentType a) CGeneral then 0 else 2 # 10)
    + (match sentiment a with Neutral => 0 | _ => 1 # 10 end)
    + (match domain a with DGeneral => 0 | _ => 1 # 10 end)
    + (match userIntent a with IGeneral => 0 | _ => 1 # 10 end) in
  1 # 2 <= calculateConfidence rnd a
  /\ calculateConfidence rnd a <= 1
  /\ Qabs (calculateConfidence rnd a - ideal) <= 1 # 100000000000000.
Proof.
  intros ideal. rewrite confidence_steps. cbv zeta.
  assert (U : Spec.ulp_bound == 1 # 1000000000000000) by reflexivity.
  set (b1 := negb (content_eqb (contentType a) CGeneral)).
  set (b2 := match sentiment a with Neutral => false | _ => true end).
  set (b3 := match domain a with DGeneral => false | _ => true end).
  set (b4 := match userIntent a with IGeneral => false | _ => true end).
  assert (I : ideal == (1 # 2) + (if b1 then 2 # 10 else 0)
                       + (if b2 then 1 # 10 else 0)
                       + (if b3 then 1 # 10 else 0)
                       + (if b4 then 1 # 10 else 0)).
  { unfold ideal, b1, b2, b3, b4.
    destruct (content_eqb (contentType a) CGeneral), (sentiment a),
             (domain a), (userIntent a); reflexivity. }
  assert (B1 : 0 <= (if b1 then 2 # 10 else 0) <= 2 # 10)
    by (destruct b1; lra).
  assert (B2 : 0 <= (if b2 then 1 # 10 else 0) <= 1 # 10)
    by (destruct b2; lra).
  assert (B3 : 0 <= (if b3 then 1 # 10 else 0) <= 1 # 10)
    by (destruct b3; lra).
  assert (B4 : 0 <= (if b4 then 1 # 10 else 0) <= 1 # 10)
    by (destruct b4; lra).
  destruct (increment_close b1 (1 # 2) (2 # 10) (1 # 2) 0)
    as (L1 & S1 & T1); try lra.
  cbv zeta in L1, S1, T1.
  set (c1 := if b1 then rnd ((1 # 2) + rnd (2 # 10)) else 1 # 2) in *.
  destruct (increment_close b2 c1 (1 # 10)
              ((1 # 2) + (if b1 then 2 # 10 else 0))
              (0 + 2 * Spec.ulp_bound))
    as (L2 & S2 & T2); try lra.
  cbv zeta in L2, S2, T2.
  set (c2 := if b2 then rnd (c1 + rnd (1 # 10)) else c1) in *.
  destruct (increment_close b3 c2 (1 # 10)
              ((1 # 2) + (if b1 then 2 # 10 else 0)
               + (if b2 then 1 # 10 else 0))
              (0 + 2 * Spec.ulp_bound + 2 * Spec.ulp_bound))
    as (L3 & S3 & T3); try lra.
  cbv zeta in L3, S3, T3.
  set (c3 := if b3 then rnd (c2 + rnd (1 # 10)) else c2) in *.
  destruct (increment_close b4 c3 (1 # 10)
              ((1 # 2) + (if b1 then 2 # 10 else 0)
               + (if b2 then 1 # 10 else 0) + (if b3 then 1 # 10 else 0))
              (0 + 2 * Spec.ulp_bound + 2 * Spec.ulp_bound
               + 2 * Spec.ulp_bound))
    as (L4 & S4 & T4); try lra.
  cbv zeta in L4, S4, T4.
  set (c4 := if b4 then rnd (c3 + rnd (1 # 10)) else c3) in *.
  destruct (min_one c4) as (M1 & M2 & M3).
  assert (Mlo : 1 # 2 <= Num.min c4 1).
  { unfold Num.min. destruct (Qle_bool c4 1); lra. }
  assert (Mclose : c4 - 8 * Spec.ulp_bound <= Num.min c4 1).
  { unfold Num.min. destruct (Qle_bool c4 1); lra. }
  split; [exact Mlo|]. split; [exact M1|].
  apply Qabs_Qle_condition. split; lra.
Qed.

Lemma min_bounds (x y : Q) :
  Num.min x y <= x /\ Num.min x y <= y
  /\ (0 <= x -> 0 <= y -> 0 <= Num.min x y).
Proof.
  unfold Num.min. destruct (Qle_bool x y) eqn:E.
  - apply Qle_bool_iff in E. repeat split; intros; lra.
  - assert (~ x <= y) by (rewrite <- Qle_bool_iff, E; discriminate).
    repeat split; intros; lra.
Qed.

Lemma strategy_numbers (ps : Patterns) (a : Analysis) (m : ModelConfig) :
  let s := fst (generateResponseStrategy rnd ps a m) in
  s_temperature s
  = match urgency a with
    | UrgencyHigh => Num.min (rnd (temperature m + rnd (2 # 10))) 1
    | UrgencyNormal => temperature m
    end
  /\ s_maxTokens s
     = match complexity a with
       | High => Num.min (rnd (maxTokens m * (3 # 2))) 8000
       | _ => maxTokens m
       end.
Proof.
  unfold generateResponseStrategy.
  destruct (urgency a), (sentiment a), (complexity a),
           (pattern_key (contentType a)); split; reflexivity.
Qed.

Lemma registry_models_in_range (a : Analysis) (context : value) :
  let m := selectOptimalModel (initial_models rnd) a context in
  0 <= temperature m /\ temperature m <= 1
  /\ 0 <= maxTokens m /\ maxTokens m <= 4000.
Proof.
  intros m. unfold m, selectOptimalModel.
  repeat match goal with
         | |- context [if ?b then _ else _] => destruct b
         end;
    cbn [temperature maxTokens initial_models claude gpt4 gemini llama];
    (split; [apply (rnd_nonneg rnd R); lra|]);
    (split; [apply (rnd_le_one rnd R); lra|]); split; lra.
Qed.

(** X12.  With arithmetic rounded to nearest, every strategy produced from
    the model table of the constructor has a temperature between 0 and 1
    and a token limit between 0 and 8000, whatever the input and whatever
    the registry of patterns holds. *)
Theorem strategy_within_limits (this : Service) (input : jsstring)
    (context : value) :
  models this = initial_models rnd ->
  let s := responseStrategy
             (fst (analyzeInputAndSelectModel rnd this input context)) in
  0 <= s_temperature s /\ s_temperature s <= 1
  /\ 0 <= s_maxTokens s /\ s_maxTokens s <= 8000.
Proof.
  intros Hm s. unfold s, analyzeInputAndSelectModel. cbv zeta. rewrite Hm.
  match goal with
  | |- context [generateResponseStrategy rnd ?ps ?a ?m] =>
      destruct (strategy_numbers ps a m) as [Ht Hk];
      destruct (registry_models_in_range a context) as (T0 & T1 & K0 & K1);
      cbv zeta in Ht, Hk, T0, T1, K0, K1;
      destruct (generateResponseStrategy rnd ps a m) as [st ps'] eqn:E;
      set (mm := m) in *; set (aa := a) in *
  end.
  cbn [fst responseStrategy] in *. rewrite Ht, Hk.
  assert (D : 0 <= rnd (2 # 10)) by (apply (rnd_nonneg rnd R); lra).
  split; [|split; [|split]].
  - destruct (urgency aa); [|exact T0].
    apply min_bounds; [apply (rnd_nonneg rnd R)|]; lra.
  - destruct (urgency aa); [|exact T1]. apply min_bounds.
  - destruct (complexity aa); try exact K0.
    apply min_bounds; [apply (rnd_nonneg rnd R)|]; lra.
  - destruct (complexity aa); try lra. apply min_bounds.
Qed.

End SelectorNumbers.

Lemma confidence_example :
  let a := {| EnhancedLLMService.contentType := EnhancedLLMService.CReview;
              EnhancedLLMService.complexity := EnhancedLLMService.Low;
              EnhancedLLMService.sentiment := EnhancedLLMService.Negative;
              EnhancedLLMService.urgency := EnhancedLLMService.UrgencyNormal;
              EnhancedLLMService.domain := EnhancedLLMService.DRestaurant;
              EnhancedLLMService.userIntent := EnhancedLLMService.IGeneral |} in
  Spec.rounding Num.grid
  /\ (1 # 2 <= EnhancedLLMService.calculateConfidence Num.grid a)%Q
  /\ (EnhancedLLMService.calculateConfidence Num.grid a <= 1)%Q
  /\ (Qabs (EnhancedLLMService.calculateConfidence Num.grid a - (9 # 10))
      <= 1 # 100000000000000)%Q.
Proof.
  intros a. split; [exact grid_is_rounding|].
  destruct (confidence_bounds Num.grid grid_is_rounding a) as (H0 & H1 & H2).
  split; [exact H0|]. split; [exact H1|].
  cbv zeta in H2. cbn [EnhancedLLMService.contentType
    EnhancedLLMService.sentiment EnhancedLLMService.domain
    EnhancedLLMService.userIntent EnhancedLLMService.content_eqb a] in H2.
  assert (E : ((1 # 2) + (2 # 10) + (1 # 10) + (1 # 10) + 0 == 9 # 10)%Q)
    by reflexivity.
  rewrite E in H2. exact H2.
Defined.

Lemma strategy_limits_example :
  let this := EnhancedLLMService.new_service Num.grid in
  let s := EnhancedLLMService.responseStrategy
             (fst (EnhancedLLMService.analyzeInputAndSelectModel Num.grid
                     this (lit "urgent: this is terrible") VUndefined)) in
  EnhancedLLMService.models this = EnhancedLLMService.initial_models Num.grid
  /\ (0 <= EnhancedLLMService.s_temperature s)%Q
  /\ (EnhancedLLMService.s_temperature s <= 1)%Q
  /\ (0 <= EnhancedLLMService.s_maxTokens s)%Q
  /\ (EnhancedLLMService.s_maxTokens s <= 8000)%Q.
Proof.
  intros this s. split; [reflexivity|].
  exact (strategy_within_limits Num.grid grid_is_rounding this
           (lit "urgent: this is terrible") VUndefined eq_refl).
Defined.

(* ================================================================= *)
(** ** Substrings *)

Section Substrings.

Lemma starts_with_iff (p s : jsstring) :
  starts_with p s = true <-> exists r, s = p ++ r.
Proof.
  revert s. induction p as [|a p IH]; intros s; simpl.
  - split; [intros _; exists s; reflexivity | reflexivity].
  - destruct s as [|b s].
    + split; [discriminate | intros [r E]; discriminate E].
    + rewrite andb_true_iff, N.eqb_eq, IH. split.
      * intros [-> [r ->]]. exists r. reflexivity.
      * intros [r E]. injection E as -> ->. split; [reflexivity|].
        exists r. reflexivity.
Qed.

Lemma includes_iff (s p : jsstring) :
  includes s p = true <-> exists a b, s = a ++ p ++ b.
Proof.
  induction s as [|c s IH]; simpl.
  - rewrite orb_false_r, starts_with_iff. split.
    + intros [r E]. exists [], r. exact E.
    + intros (a & b & E). destruct a; [exists b; exact E | discriminate E].
  - rewrite orb_true_iff, starts_with_iff, IH. split.
    + intros [[r E] | (a & b & E)].
      * exists [], r. exact E.
      * exists (c :: a), b. rewrite E. reflexivity.
    + intros (a & b & E). destruct a as [|x a].
      * left. exists b. exact E.
      * right. injection E as -> E. exists a, b. exact E.
Qed.

(** A text that includes a string includes every substring of it. *)
Lemma includes_sub (s a p b : jsstring) :
  includes s (a ++ p ++ b) = true -> includes s p = true.
Proof.
  rewrite !includes_iff. intros (x & y & ->).
  exists (x ++ a), (b ++ y). rewrite <- !app_assoc. reflexivity.
Qed.

End Substrings.

(* ================================================================= *)
(** ** Quality analyzer, continued *)

Section AnalyzerTables.

Import ResponseQualityAnalyzer.

Lemma split_char_go_pieces (sep : cu) (s : jsstring) :
  forall acc : jsstring,
    ~ In sep acc ->
    Forall (fun piece => ~ In sep piece) (split_char_go sep acc s).
Proof.
  induction s as [|c s IH]; intros acc Hacc; simpl.
  - constructor; [|constructor]. rewrite <- in_rev. exact Hacc.
  - destruct (c =? sep)%N eqn:E.
    + constructor; [rewrite <- in_rev; exact Hacc|]. apply IH. intros [].
    + apply IH. intros [H | H]; [|exact (Hacc H)].
      subst c. rewrite N.eqb_refl in E. discriminate E.
Qed.

(** X13.  The completeness metric looks synonyms up for the words it gets
    by splitting a required element at the underscores, and such a word
    holds no underscore; so the entries of the synonym table under
    "main_content", "key_points" and "follow_up" are never found. *)
Theorem compound_synonyms_unreachable (element word : jsstring) :
  In word (split_char UNDERSCORE element) ->
  ~ In UNDERSCORE word
  /\ findSynonyms word <> get synonymMap (lit "main_content")
  /\ findSynonyms word <> get synonymMap (lit "key_points")
  /\ findSynonyms word <> get synonymMap (lit "follow_up").
Proof.
  intros Hin.
  assert (Hw : ~ In UNDERSCORE word).
  { pose proof (split_char_go_pieces UNDERSCORE element [] (fun f => f)) as F.
    rewrite Forall_forall in F. apply F, Hin. }
  split; [exact Hw|].
  assert (K : forall k : string,
             In UNDERSCORE (lit k) -> JS.eqb (lit k) word = false).
  { intros k Hk. destruct (JS.eqb (lit k) word) eqn:E; [|reflexivity].
    apply eqb_eq in E. subst word. contradiction. }
  unfold findSynonyms, get, synonymMap.
  cbn [own_property].
  rewrite (K "main_content"), (K "key_points"), (K "follow_up")
    by (vm_compute; tauto).
  repeat match goal with
         | |- context [if JS.eqb (lit ?k) word then _ else _] =>
             destruct (JS.eqb (lit k) word);
             [repeat split; vm_compute; discriminate|]
         end.
  destruct (existsb _ object_prototype_names);
    repeat split; vm_compute; discriminate.
Qed.

Lemma compound_synonyms_example :
  In (lit "content") (split_char UNDERSCORE (lit "main_content"))
  /\ findSynonyms (lit "content") = Absent
  /\ findSynonyms (lit "content") <> get synonymMap (lit "main_content").
Proof.
  assert (H : In (lit "content") (split_char UNDERSCORE (lit "main_content")))
    by (vm_compute; tauto).
  split; [exact H|]. split; [reflexivity|].
  exact (proj1 (proj2 (compound_synonyms_unreachable
                         (lit "main_content") (lit "content") H))).
Defined.

End AnalyzerTables.

Section AnalyzerVerdicts.

Import ResponseQualityAnalyzer.
Local Open Scope Q_scope.

Variable rnd : Q -> Q.
Hypothesis R : Spec.rounding rnd.

Lemma push_if_length (c : bool) (x : string) (l : list jsstring) :
  length (push_if c x l) = (length l + if c then 1 else 0)%nat.
Proof.
  unfold push_if. destruct c; [rewrite length_app; reflexivity | lia].
Qed.

Lemma threshold_above_half (d : Q) : 6 # 10 <= d -> d <= 1 -> 1 # 2 < rnd d.
Proof.
  intros H0 H1. destruct (Spec.rnd_error R d ltac:(lra) ltac:(lra)) as [L _].
  unfold Spec.ulp_bound in L. lra.
Qed.

Lemma ltb_true_iff (a b : Q) : ltb a b = true <-> a < b.
Proof.
  unfold ltb. rewrite negb_true_iff. split.
  - intros E. destruct (Qlt_le_dec a b) as [H | H]; [exact H|].
    apply Qle_bool_iff in H. rewrite H in E. discriminate E.
  - intros H. destruct (Qle_bool b a) eqn:E; [|reflexivity].
    apply Qle_bool_iff in E. lra.
Qed.

(** A metric is not both a strength and a weakness. *)
Lemma strength_or_weakness (x : Q) :
  ((if Num.geb x (rnd (8 # 10)) then 1 else 0)
   + (if ltb x (1 # 2) then 1 else 0) <= 1)%nat.
Proof.
  pose proof (threshold_above_half (8 # 10) ltac:(lra) ltac:(lra)) as T.
  destruct (Num.geb x (rnd (8 # 10))) eqn:G; [|destruct (ltb _ _); lia].
  destruct (ltb x (1 # 2)) eqn:L; [|lia].
  apply ltb_true_iff in L. unfold Num.geb in G. apply Qle_bool_iff in G. lra.
Qed.

(** A weak metric has its suggestion. *)
Lemma weakness_has_suggestion (x : Q) :
  ((if ltb x (1 # 2) then 1 else 0)
   <= (if ltb x (rnd (6 # 10)) then 1 else 0))%nat.
Proof.
  pose proof (threshold_above_half (6 # 10) ltac:(lra) ltac:(lra)) as T.
  destruct (ltb x (1 # 2)) eqn:L; [|lia].
  apply ltb_true_iff in L.
  assert (S : ltb x (rnd (6 # 10)) = true) by (apply ltb_true_iff; lra).
  rewrite S. lia.
Qed.

(** X14.  With arithmetic rounded to nearest, no metric is reported both as
    a strength (at least 0.8) and as a weakness (below 0.5), so a report
    has at most eight strengths and weaknesses together; and every
    weakness comes with the suggestion of its metric (below 0.6), so there
    are at least as many suggestions as weaknesses. *)
Theorem verdicts_consistent (metrics : Metrics) :
  (length (identifyStrengths rnd metrics)
   + length (identifyWeaknesses metrics) <= 8)%nat
  /\ (length (identifyWeaknesses metrics)
      <= length (generateSuggestions rnd metrics))%nat
  /\ (generateSuggestions rnd metrics = [] ->
      identifyWeaknesses metrics = []).
Proof.
  assert (L : (length (identifyWeaknesses metrics)
               <= length (generateSuggestions rnd metrics))%nat).
  { unfold identifyWeaknesses, generateSuggestions. cbv zeta.
    rewrite !push_if_length. cbn [length].
    pose proof (weakness_has_suggestion (get_coherence metrics)).
    pose proof (weakness_has_suggestion (get_relevance metrics)).
    pose proof (weakness_has_suggestion (get_completeness metrics)).
    pose proof (weakness_has_suggestion (get_clarity metrics)).
    pose proof (weakness_has_suggestion (get_engagement metrics)).
    pose proof (weakness_has_suggestion (get_structure metrics)).
    pose proof (weakness_has_suggestion (get_tone metrics)).
    pose proof (weakness_has_suggestion (get_length metrics)).
    lia. }
  split; [|split; [exact L|]].
  - unfold identifyStrengths, identifyWeaknesses. cbv zeta.
    rewrite !push_if_length. cbn [length].
    pose proof (strength_or_weakness (get_coherence metrics)).
    pose proof (strength_or_weakness (get_relevance metrics)).
    pose proof (strength_or_weakness (get_completeness metrics)).
    pose proof (strength_or_weakness (get_clarity metrics)).
    pose proof (strength_or_weakness (get_engagement metrics)).
    pose proof (strength_or_weakness (get_structure metrics)).
    pose proof (strength_or_weakness (get_tone metrics)).
    pose proof (strength_or_weakness (get_length metrics)).
    lia.
  - intros E. rewrite E in L. simpl in L.
    destruct (identifyWeaknesses metrics); [reflexivity | simpl in L; lia].
Qed.

End AnalyzerVerdicts.

Lemma verdicts_example :
  Spec.rounding Num.grid
  /\ (length (ResponseQualityAnalyzer.identifyStrengths Num.grid
                Spec.sample_metrics)
      + length (ResponseQualityAnalyzer.identifyWeaknesses
                  Spec.sample_metrics) <= 8)%nat
  /\ (length (ResponseQualityAnalyzer.identifyWeaknesses Spec.sample_metrics)
      <= length (ResponseQualityAnalyzer.generateSuggestions Num.grid
                   Spec.sample_metrics))%nat.
Proof.
  split; [exact grid_is_rounding|].
  destruct (verdicts_consistent Num.grid grid_is_rounding Spec.sample_metrics)
    as (H1 & H2 & _).
  split; [exact H1 | exact H2].
Defined.

Section KeyPoints.

Import ResponseQualityAnalyzer.

Lemma sentences_of_free (response : jsstring) :
  Forall (Forall (fun c => is_sentence_end c = false))
         (sentences_of response).
Proof.
  apply Forall_forall. intros x Hx. unfold sentences_of in Hx.
  apply filter_In in Hx. destruct Hx as [Hx _].
  pose proof (split_runs_go_pieces is_sentence_end response [] false
                (Forall_nil _)) as H.
  rewrite Forall_forall in H. exact (H x Hx).
Qed.

Lemma sentences_of_visible (response : jsstring) :
  Forall (fun s => trim s <> []) (sentences_of response).
Proof.
  apply Forall_forall. intros x Hx. unfold sentences_of in Hx.
  apply filter_In in Hx. destruct Hx as [_ Hx].
  destruct (trim x); [discriminate Hx | discriminate].
Qed.

Lemma firstn_incl {A : Type} (n : nat) (l : list A) : incl (firstn n l) l.
Proof.
  revert l. induction n as [|n IH]; intros [|x l]; simpl;
    try apply incl_nil_l.
  apply incl_cons; [left; reflexivity | apply incl_tl, IH].
Qed.

Lemma firstn_nonempty {A : Type} (n : nat) (l : list A) :
  (0 < n)%nat -> l <> [] -> firstn n l <> [].
Proof.
  destruct n; [lia|]. destruct l; [contradiction | discriminate].
Qed.

(** X15.  [extractKeyPoints] returns at most five key points; each is a
    trimmed, non-empty piece of the response without [.], [!] or [?]; and
    it returns none only when the response has no sentence at all, since
    the first sentences stand in when no sentence has a key indicator. *)
Theorem key_points_shape (response : jsstring) :
  let keyPoints := extractKeyPoints response in
  (length keyPoints <= 5)%nat
  /\ Forall (fun x => x <> []
                      /\ trim x = x
                      /\ Forall (fun c => is_sentence_end c = false) x)
       keyPoints
  /\ (keyPoints = []
      <-> response = [] \/ sentences_of response = []).
Proof.
  intros keyPoints. unfold keyPoints, extractKeyPoints.
  destruct response as [|c0 r0];
    [cbn; split; [lia | split; [constructor | tauto]]|].
  cbn [is_empty]. cbv zeta. set (response := c0 :: r0).
  set (sentences := sentences_of response).
  set (chosen := filter _ sentences).
  assert (Hs : forall l, incl l sentences ->
            Forall (fun x => x <> [] /\ trim x = x
                      /\ Forall (fun c => is_sentence_end c = false) x)
                   (map trim l)).
  { intros l Hl. apply Forall_forall. intros x Hx.
    apply in_map_iff in Hx. destruct Hx as (s & <- & Hin).
    pose proof (sentences_of_free response) as F.
    pose proof (sentences_of_visible response) as V.
    rewrite Forall_forall in F, V.
    split; [apply V, Hl, Hin|]. split; [apply trim_idempotent|].
    specialize (F s (Hl s Hin)). rewrite Forall_forall in F |- *.
    intros c Hc. apply F, (trim_incl s), Hc. }
  assert (Hchosen : incl chosen sentences) by apply incl_filter.
  assert (Hfirst : incl (firstn (Nat.min 3 (length sentences)) sentences)
                        sentences)
    by apply firstn_incl.
  split; [apply firstn_le_length|]. split.
  - apply Forall_forall. intros x Hx. apply firstn_incl in Hx.
    revert x Hx. apply Forall_forall.
    destruct ((length (map trim chosen) =? 0)%nat
              && (0 <? length sentences)%nat).
    + apply Forall_app. split; apply Hs; assumption.
    + apply Hs, Hchosen.
  - split.
    + intros E. right.
      destruct sentences as [|s1 rest] eqn:Es; [reflexivity|]. exfalso.
      revert E. apply firstn_nonempty; [lia|].
      destruct chosen as [|k ks]; [|discriminate].
      cbn. discriminate.
    + intros [E | E]; [discriminate E|].
      unfold chosen. rewrite E. reflexivity.
Qed.

End KeyPoints.

Section AnalyzerRanges.

Import ResponseQualityAnalyzer.
Local Open Scope Q_scope.

Variable rnd : Q -> Q.
Hypothesis R : Spec.rounding rnd.

Lemma clamp01_unit (x : Q) : 0 <= clamp01 x /\ clamp01 x <= 1.
Proof.
  unfold clamp01, Num.min, Num.max.
  destruct (Qle_bool x 0) eqn:E0.
  - simpl. split; lra.
  - assert (~ x <= 0) by (rewrite <- Qle_bool_iff, E0; discriminate).
    destruct (Qle_bool x 1) eqn:E1.
    + apply Qle_bool_iff in E1. split; lra.
    + split; lra.
Qed.

Lemma clamp01_above (lo x : Q) :
  0 <= lo -> lo <= 1 -> lo <= x -> lo <= clamp01 x.
Proof.
  intros H0 H1 Hx. unfold clamp01, Num.min, Num.max.
  destruct (Qle_bool x 0) eqn:E0.
  - apply Qle_bool_iff in E0. simpl. lra.
  - destruct (Qle_bool x 1); lra.
Qed.

Lemma clamp01_below (hi x : Q) : 0 <= hi -> x <= hi -> clamp01 x <= hi.
Proof.
  intros H0 Hx. unfold clamp01, Num.min, Num.max.
  destruct (Qle_bool x 0) eqn:E0.
  - change (Qle_bool 0 1) with true. cbv iota. exact H0.
  - destruct (Qle_bool x 1) eqn:E1; [exact Hx|].
    assert (~ x <= 1) by (rewrite <- Qle_bool_iff, E1; discriminate). lra.
Qed.

(** [score += d], rounded. *)
Lemma increment_mono (c d : Q) :
  1 # 100 <= d -> d <= 1 # 2 -> 0 <= c -> c <= 7 # 5 ->
  c <= rnd (c + rnd d)
  /\ c + d - 2 * Spec.ulp_bound <= rnd (c + rnd d)
  /\ rnd (c + rnd d) <= c + d + 2 * Spec.ulp_bound.
Proof.
  intros Hd0 Hd1 Hc0 Hc1.
  assert (U : Spec.ulp_bound == 1 # 1000000000000000) by reflexivity.
  destruct (Spec.rnd_error R d ltac:(lra) ltac:(lra)) as [Dl Du].
  destruct (Spec.rnd_error R (c + rnd d) ltac:(lra) ltac:(lra)) as [Sl Su].
  repeat split; lra.
Qed.

Lemma maybe_increment (b : bool) (c d : Q) :
  1 # 100 <= d -> d <= 1 # 2 -> 0 <= c -> c <= 7 # 5 ->
  c <= (if b then rnd (c + rnd d) else c)
  /\ (if b then rnd (c + rnd d) else c) <= c + d + 2 * Spec.ulp_bound.
Proof.
  intros Hd0 Hd1 Hc0 Hc1.
  assert (U : Spec.ulp_bound == 1 # 1000000000000000) by reflexivity.
  destruct b; [|split; lra].
  destruct (increment_mono c d Hd0 Hd1 Hc0 Hc1) as (H1 & _ & H3).
  split; assumption.
Qed.

Lemma your_counts_thrice (text : jsstring) :
  includes text (lit "your") = true ->
  (3 <=? how_many text ["you"; "your"; "we"; "our"; "us"])%nat = true.
Proof.
  intros H.
  assert (Hyou : includes text (lit "you") = true)
    by (apply (includes_sub text [] (lit "you") (lit "r")); exact H).
  assert (Hour : includes text (lit "our") = true)
    by (apply (includes_sub text (lit "y") (lit "our") []); exact H).
  unfold how_many. cbn [filter]. rewrite Hyou, H, Hour.
  destruct (includes text (lit "we")), (includes text (lit "us"));
    reflexivity.
Qed.

(** X16.  With arithmetic rounded to nearest, the engagement metric of a
    non-empty response lies between 0.5 and 1; and a response that holds
    the word "your" always earns the full bonus for personal pronouns,
    since "your" contains "you" and "our": its engagement is at least
    0.7 (up to rounding). *)
Theorem engagement_range (response : jsstring) :
  response <> [] ->
  1 # 2 <= analyzeEngagement rnd response
  /\ analyzeEngagement rnd response <= 1
  /\ (includes (toLowerCase response) (lit "your") = true ->
      (7 # 10) - (1 # 100000000000000) <= analyzeEngagement rnd response).
Proof.
  intros Hne. unfold analyzeEngagement.
  destruct response as [|c0 r0]; [contradiction|]. cbn [is_empty]. cbv zeta.
  set (response := c0 :: r0).
  set (b1 := (0 <? length (filter (N.eqb 63%N) response))%nat).
  set (n := how_many (toLowerCase response) ["you"; "your"; "we"; "our"; "us"]).
  set (b3 := (2 <=? how_many (toLowerCase response) _)%nat).
  set (b4 := text_has (toLowerCase response) _).
  assert (U : Spec.ulp_bound == 1 # 1000000000000000) by reflexivity.
  destruct (maybe_increment b1 (1 # 2) (2 # 10)) as [L1 U1]; try lra.
  set (c1 := if b1 then rnd ((1 # 2) + rnd (2 # 10)) else 1 # 2) in *.
  set (c2 := if (3 <=? n)%nat then rnd (c1 + rnd (2 # 10))
             else if (1 <=? n)%nat then rnd (c1 + rnd (1 # 10)) else c1).
  assert (B2 : c1 <= c2 /\ c2 <= c1 + (2 # 10) + 2 * Spec.ulp_bound
               /\ ((3 <=? n)%nat = true
                   -> c1 + (2 # 10) - 2 * Spec.ulp_bound <= c2)).
  { unfold c2. destruct (3 <=? n)%nat.
    - destruct (increment_mono c1 (2 # 10)) as (H1 & H2 & H3); try lra.
    - destruct (maybe_increment (1 <=? n)%nat c1 (1 # 10)) as [H1 H2];
        try lra. }
  destruct B2 as (L2 & U2 & P2).
  destruct (maybe_increment b3 c2 (1 # 10)) as [L3 U3]; try lra.
  set (c3 := if b3 then rnd (c2 + rnd (1 # 10)) else c2) in *.
  destruct (maybe_increment b4 c3 (1 # 10)) as [L4 U4]; try lra.
  set (c4 := if b4 then rnd (c3 + rnd (1 # 10)) else c3) in *.
  split; [apply clamp01_above; lra|].
  split; [apply clamp01_unit|].
  intros Hyour. apply your_counts_thrice in Hyour. fold n in Hyour.
  specialize (P2 Hyour). apply clamp01_above; lra.
Qed.

End AnalyzerRanges.

Lemma engagement_example :
  let response := lit "Tell me about your day" in
  Spec.rounding Num.grid
  /\ response <> []
  /\ includes (toLowerCase response) (lit "your") = true
  /\ ((7 # 10) - (1 # 100000000000000)
      <= ResponseQualityAnalyzer.analyzeEngagement Num.grid response)%Q.
Proof.
  intros response.
  assert (N : response <> []) by discriminate.
  assert (Y : includes (toLowerCase response) (lit "your") = true)
    by (vm_compute; reflexivity).
  split; [exact grid_is_rounding|]. split; [exact N|]. split; [exact Y|].
  exact (proj2 (proj2 (engagement_range Num.grid grid_is_rounding
                         response N)) Y).
Defined.

Section MetricOutcomes.

Import ResponseQualityAnalyzer.
Local Open Scope Q_scope.

Variable rnd : Q -> Q.
Hypothesis R : Spec.rounding rnd.

Lemma pattern_for_cases (contentType : jsstring) :
  match pattern_for contentType with
  | Some p => In p known_patterns
  | None => get responsePatterns contentType = Inherited
  end.
Proof.
  unfold pattern_for, get, responsePatterns, known_patterns.
  cbn [own_property].
  repeat match goal with
         | |- context [if JS.eqb (lit ?k) contentType then _ else _] =>
             destruct (JS.eqb (lit k) contentType); [simpl; tauto|]
         end.
  destruct (existsb _ object_prototype_names); simpl; tauto.
Qed.

Lemma some_m_total {A : Type} (f : A -> result bool) (l : list A) :
  (forall x, In x l -> exists b, f x = Ok b) ->
  exists b, some_m f l = Ok b.
Proof.
  induction l as [|x l IH]; intros H; simpl.
  - exists false. reflexivity.
  - destruct (H x (or_introl eq_refl)) as [b ->]. destruct b.
    + exists true. reflexivity.
    + apply IH. intros y Hy. apply H. right. exact Hy.
Qed.

(** A loop that adds [d] to its score on some turns. *)
Lemma accumulate_bounded {A : Type} (f : Q -> A -> result Q) (d : Q)
    (l : list A) :
  1 # 100 <= d -> d <= 1 # 2 ->
  (forall s x, In x l ->
     exists b : bool, f s x = Ok (if b then rnd (s + rnd d) else s)) ->
  forall acc,
    0 <= acc ->
    acc + Num.of_nat (length l) * (d + 2 * Spec.ulp_bound) <= 7 # 5 ->
    exists r, forEach_m f acc l = Ok r
              /\ acc <= r
              /\ r <= acc + Num.of_nat (length l) * (d + 2 * Spec.ulp_bound).
Proof.
  intros Hd0 Hd1. induction l as [|x l IH]; intros Hf acc H0 Hb.
  - exists acc. split; [reflexivity|]. split; [lra|].
    change (Num.of_nat (length (@nil A))) with 0. lra.
  - assert (E : Num.of_nat (length (x :: l))
                == Num.of_nat (length l) + 1).
    { unfold Num.of_nat. cbn [length]. rewrite Nat2Z.inj_succ.
      unfold Z.succ. rewrite inject_Z_plus. reflexivity. }
    assert (P : 0 <= Num.of_nat (length l)).
    { unfold Num.of_nat. change 0 with (inject_Z 0). rewrite <- Zle_Qle.
      lia. }
    set (K := Num.of_nat (length l) * (d + 2 * Spec.ulp_bound)) in *.
    assert (EK : Num.of_nat (length (x :: l)) * (d + 2 * Spec.ulp_bound)
                 == K + (d + 2 * Spec.ulp_bound)).
    { rewrite E. unfold K. ring. }
    assert (U : Spec.ulp_bound == 1 # 1000000000000000) by reflexivity.
    assert (K0 : 0 <= K) by (unfold K; apply Qmult_le_0_compat; lra).
    rewrite EK in Hb.
    destruct (Hf acc x (or_introl eq_refl)) as [b Eb].
    destruct (maybe_increment rnd R b acc d Hd0 Hd1 H0 ltac:(lra))
      as [L1 U1].
    set (acc' := if b then rnd (acc + rnd d) else acc) in *.
    destruct (IH (fun s y Hy => Hf s y (or_intror Hy)) acc'
                 ltac:(lra) ltac:(fold K; lra)) as (r & Er & Lr & Ur).
    fold K in Ur.
    exists r. cbn [forEach_m]. rewrite Eb. cbn [bind].
    split; [exact Er|]. split; [lra|]. rewrite EK. lra.
Qed.

Lemma tones_are_known :
  Forall (fun p => Forall (fun t => get toneIndicators t <> Inherited)
                          (tone p))
         known_patterns.
Proof.
  repeat constructor; vm_compute; discriminate.
Qed.

Lemma element_words_are_known :
  Forall (fun p =>
            Forall (fun element =>
                      Forall (fun word => findSynonyms word <> Inherited)
                             (split_char UNDERSCORE element))
                   (requiredElements p))
         known_patterns.
Proof.
  repeat constructor; vm_compute; discriminate.
Qed.

Lemma some_of_total {A : Type} (found : slot (list A)) (f : A -> bool) :
  found <> Inherited -> exists b, some_of found f = Ok b.
Proof.
  destruct found; intros H; [eexists; reflexivity | contradiction
                             | eexists; reflexivity].
Qed.

Lemma tone_of_known (p : Pattern) (response : jsstring) :
  In p known_patterns ->
  exists q,
    bind
      (forEach_m
         (fun toneScore expectedTone =>
            bind
              (some_of (get toneIndicators expectedTone)
                 (fun indicator => includes (toLowerCase response) indicator))
              (fun hasTone =>
                 Ok (if hasTone
                     then rnd (toneScore + rnd (2 # 10))
                     else toneScore)))
         (1 # 2) (tone p))
      (fun toneScore => Ok (clamp01 toneScore)) = Ok q
    /\ 1 # 2 <= q /\ q <= 1.
Proof.
  intros Hp.
  pose proof tones_are_known as T. rewrite Forall_forall in T.
  specialize (T p Hp). rewrite Forall_forall in T.
  assert (Hlen : (length (tone p) = 3)%nat).
  { destruct Hp as [<- | [<- | [<- | [<- | []]]]]; reflexivity. }
  match goal with
  | |- exists q, bind (forEach_m ?f _ _) _ = _ /\ _ =>
      destruct (accumulate_bounded f (2 # 10) (tone p)
                  ltac:(lra) ltac:(lra)) with (acc := 1 # 2)
        as (r & Er & Lr & Ur)
  end.
  - intros s x Hx. destruct (some_of_total (get toneIndicators x)
      (fun indicator => includes (toLowerCase response) indicator)
      (T x Hx)) as [b Eb].
    exists b. rewrite Eb. reflexivity.
  - lra.
  - rewrite Hlen. change (Num.of_nat 3) with 3. unfold Spec.ulp_bound. lra.
  - exists (clamp01 r). rewrite Er. cbn [bind].
    split; [reflexivity|].
    split; [apply clamp01_above; lra | apply clamp01_unit].
Qed.

(** X17.  The outcome of the structure, tone and length metrics, for every
    response and every content-type string, with arithmetic rounded to
    nearest: the structure metric always returns, a value of [0,1]; the
    tone and length metrics return a value of [0,1] unless the response is
    not empty and the content type names a property inherited from
    [Object.prototype], in which case both throw. *)
Theorem bounded_metrics (response contentType : jsstring) :
  (exists q, analyzeStructure rnd response contentType = Ok q
             /\ Spec.in_unit q)
  /\ match pattern_for contentType with
     | Some _ =>
         (exists q, analyzeTone rnd response contentType = Ok q
                    /\ Spec.in_unit q)
         /\ (exists q, analyzeLength rnd response contentType = Ok q
                       /\ Spec.in_unit q)
     | None =>
         get responsePatterns contentType = Inherited
         /\ (response = []
             \/ (analyzeTone rnd response contentType = TypeError
                 /\ analyzeLength rnd response contentType = TypeError))
     end.
Proof.
  assert (Z : Spec.in_unit 0) by (unfold Spec.in_unit; lra).
  split.
  - unfold analyzeStructure. destruct (is_empty response).
    + exists 0. split; [reflexivity | exact Z].
    + cbv zeta. eexists. split; [reflexivity|]. apply clamp01_unit.
  - pose proof (pattern_for_cases contentType) as C.
    unfold analyzeTone, analyzeLength.
    destruct (pattern_for contentType) as [p|].
    + destruct response as [|c0 r0].
      { split; exists 0; (split; [reflexivity | exact Z]). }
      cbn [is_empty]. cbv zeta. split.
      * destruct (tone_of_known p (c0 :: r0) C) as (q & Eq & L & U).
        exists q. split; [exact Eq|]. unfold Spec.in_unit. lra.
      * repeat match goal with
               | |- context [if ?b then _ else _] => destruct b
               end;
          eexists; (split; [reflexivity|]); unfold Spec.in_unit;
          try lra;
          (split; [apply (rnd_nonneg rnd R) | apply (rnd_le_one rnd R)]);
          lra.
    + split; [exact C|].
      destruct response as [|c0 r0]; [left; reflexivity|].
      right. split; reflexivity.
Qed.

Lemma completeness_of_known (p : Pattern) (response : jsstring) :
  In p known_patterns ->
  exists q,
    forEach_m
      (fun completenessScore element =>
         bind
           (some_m
              (fun word =>
                 if includes (toLowerCase response) word then Ok true
                 else some_of (findSynonyms word)
                        (fun synonym =>
                           includes (toLowerCase response) synonym))
              (split_char UNDERSCORE element))
           (fun hasElement =>
              Ok (if hasElement
                  then rnd (completenessScore
                            + rnd (1 / Num.of_nat
                                         (length (requiredElements p))))
                  else completenessScore)))
      0 (requiredElements p) = Ok q
    /\ 0 <= q /\ q <= 1 + (1 # 100000000000000).
Proof.
  intros Hp.
  pose proof element_words_are_known as T. rewrite Forall_forall in T.
  specialize (T p Hp). rewrite Forall_forall in T.
  set (n := length (requiredElements p)).
  assert (Hn : (n = 3 \/ n = 4)%nat).
  { unfold n. destruct Hp as [<- | [<- | [<- | [<- | []]]]];
      simpl; tauto. }
  assert (Hd : 1 / Num.of_nat n == 1 # 3 \/ 1 / Num.of_nat n == 1 # 4)
    by (destruct Hn as [-> | ->]; [left | right]; reflexivity).
  assert (Hd' : 1 # 100 <= 1 / Num.of_nat n <= 1 # 2)
    by (destruct Hd as [-> | ->]; lra).
  match goal with
  | |- exists q, forEach_m ?f _ _ = _ /\ _ =>
      destruct (accumulate_bounded f (1 / Num.of_nat n) (requiredElements p)
                  (proj1 Hd') (proj2 Hd')) with (acc := 0)
        as (r & Er & Lr & Ur)
  end.
  - intros s x Hx. specialize (T x Hx). rewrite Forall_forall in T.
    match goal with
    | |- exists b, bind (some_m ?g ?l) _ = _ =>
        destruct (some_m_total g l) as [b Eb]
    end.
    + intros w Hw. destruct (includes (toLowerCase response) w).
      * exists true. reflexivity.
      * apply some_of_total, T, Hw.
    + exists b. rewrite Eb. reflexivity.
  - lra.
  - fold n. unfold Spec.ulp_bound.
    destruct Hn as [E | E]; rewrite E;
      [change (Num.of_nat 3) with 3 | change (Num.of_nat 4) with 4];
      [setoid_replace (1 / 3) with (1 # 3) by reflexivity
      |setoid_replace (1 / 4) with (1 # 4) by reflexivity]; lra.
  - exists r. split; [exact Er|]. split; [lra|].
    fold n in Ur. revert Ur. unfold Spec.ulp_bound.
    destruct Hn as [E | E]; rewrite E;
      [change (Num.of_nat 3) with 3 | change (Num.of_nat 4) with 4];
      [setoid_replace (1 / 3) with (1 # 3) by reflexivity
      |setoid_replace (1 / 4) with (1 # 4) by reflexivity]; lra.
Qed.

(** X18.  The completeness metric is a sum of equal shares and is not
    clamped: with arithmetic rounded to nearest it returns a value between
    0 and 1 + 1e-14, unless the response is not empty and the content type
    names a property inherited from [Object.prototype], in which case it
    throws. *)
Theorem completeness_range (response contentType : jsstring) :
  match pattern_for contentType with
  | Some _ =>
      exists q, analyzeCompleteness rnd response contentType = Ok q
                /\ 0 <= q /\ q <= 1 + (1 # 100000000000000)
  | None =>
      response = []
      \/ analyzeCompleteness rnd response contentType = TypeError
  end.
Proof.
  pose proof (pattern_for_cases contentType) as C.
  unfold analyzeCompleteness.
  destruct (pattern_for contentType) as [p|].
  - destruct response as [|c0 r0].
    + exists 0. split; [reflexivity|]. lra.
    + cbn [is_empty]. cbv zeta.
      exact (completeness_of_known p (c0 :: r0) C).
  - destruct response as [|c0 r0]; [left; reflexivity|].
    right. reflexivity.
Qed.

End MetricOutcomes.

Lemma bounded_metrics_example :
  let response := lit "Hello there." in
  Spec.rounding Num.grid
  /\ (exists q,
        ResponseQualityAnalyzer.analyzeStructure Num.grid response
          (lit "constructor") = ResponseQualityAnalyzer.Ok q
        /\ Spec.in_unit q)
  /\ (exists q,
        ResponseQualityAnalyzer.analyzeTone Num.grid response (lit "review")
        = ResponseQualityAnalyzer.Ok q
        /\ Spec.in_unit q)
  /\ (exists q,
        ResponseQualityAnalyzer.analyzeLength Num.grid response (lit "review")
        = ResponseQualityAnalyzer.Ok q
        /\ Spec.in_unit q).
Proof.
  intros response. split; [exact grid_is_rounding|].
  split.
  - exact (proj1 (bounded_metrics Num.grid grid_is_rounding response
                    (lit "constructor"))).
  - exact (proj2 (bounded_metrics Num.grid grid_is_rounding response
                    (lit "review"))).
Defined.

Lemma completeness_example :
  Spec.rounding Num.grid
  /\ exists q,
       ResponseQualityAnalyzer.analyzeCompleteness Num.grid
         (lit "Thanks for the details of your experience.") (lit "review")
       = ResponseQualityAnalyzer.Ok q
       /\ (0 <= q)%Q /\ (q <= 1 + (1 # 100000000000000))%Q.
Proof.
  split; [exact grid_is_rounding|].
  exact (completeness_range Num.grid grid_is_rounding
           (lit "Thanks for the details of your experience.") (lit "review")).
Defined.

(* ================================================================= *)
(** ** JSON recovery paths, continued *)

Section RecoveryShape.

Import LlamaService.

Lemma has_property_insert (x key : jsstring) (v : value)
    (props : list (jsstring * value)) :
  has_property x (insert_property key v props)
  = JS.eqb key x || has_property x props.
Proof.
  induction props as [|[k y] r IH]; simpl.
  - reflexivity.
  - destruct (array_index key) as [n|]; [destruct (array_index k) as [m|]|].
    + destruct (n <? m)%N; simpl; [reflexivity|].
      rewrite IH. destruct (JS.eqb k x), (JS.eqb key x); reflexivity.
    + reflexivity.
    + simpl. rewrite IH. destruct (JS.eqb k x), (JS.eqb key x); reflexivity.
Qed.

Lemma has_property_replace (x key : jsstring) (v : value)
    (props : list (jsstring * value)) :
  has_property x (replace_property key v props) = has_property x props.
Proof.
  induction props as [|[k y] r IH]; simpl; [reflexivity|].
  destruct (JS.eqb k key); simpl; [reflexivity|]. rewrite IH. reflexivity.
Qed.

Lemma has_property_set (x key : jsstring) (v : value)
    (props : list (jsstring * value)) :
  has_property x (set_property props key v)
  = JS.eqb key x || has_property x props.
Proof.
  unfold set_property. destruct (has_property key props) eqn:E.
  - rewrite has_property_replace.
    destruct (JS.eqb key x) eqn:K; [|reflexivity].
    apply eqb_eq in K. subst x. rewrite E. reflexivity.
  - apply has_property_insert.
Qed.

Lemma has_property_spread (x : jsstring) (b : list (jsstring * value)) :
  forall a : list (jsstring * value),
    has_property x
      (fold_left (fun acc kv => set_property acc (fst kv) (snd kv)) b a)
    = has_property x a || has_property x b.
Proof.
  induction b as [|[k v] b IH]; intros a; simpl.
  - rewrite orb_false_r. reflexivity.
  - rewrite IH, has_property_set. cbn [fst snd].
    destruct (JS.eqb k x), (has_property x a), (has_property x b);
      reflexivity.
Qed.

Lemma cleaned_text_is_text (s : jsstring) :
  is_string (cleanAIResponse (VStr s)) = true.
Proof. simpl. destruct (is_empty s); reflexivity. Qed.

Section Runtime.

Variable JSON_parse : value -> option value.
Variable serialize : value -> jsstring.
Variable now : jsstring.

(** X19.  Once the completion has arrived, [analyzeVoiceInput] always
    returns, with [success: true]: whatever [JSON.parse] made of the text,
    the object that is serialized has every field of the default analysis
    (and every field of the parsed value), and the [analysis] that is
    returned is a string, the serialized object after the text cleaner,
    never the object. *)
Theorem voice_analysis_shape (transcript : jsstring) (content usage : value) :
  let data := parse_or JSON_parse (voice_fallback transcript)
                (voice_response content) in
  let finalAnalysis := spread (defaultAnalysis transcript) data in
  Forall (fun kv => has_property (fst kv) finalAnalysis = true)
         (defaultAnalysis transcript ++ own_enumerable data)
  /\ (10 <= length finalAnalysis)%nat
  /\ exists r,
       analyzeVoiceInput JSON_parse serialize now transcript
         (Completed content usage) = Returned r
       /\ va_success r = true
       /\ va_analysis r
          = cleanAIResponse (VStr (serialize (VObj finalAnalysis)))
       /\ is_string (va_analysis r) = true.
Proof.
  intros data finalAnalysis.
  assert (F : Forall (fun kv => has_property (fst kv) finalAnalysis = true)
                     (defaultAnalysis transcript ++ own_enumerable data)).
  { apply Forall_forall. intros [k v] Hin. cbn [fst].
    unfold finalAnalysis, spread. rewrite has_property_spread.
    assert (G : forall l : list (jsstring * value),
               In (k, v) l -> has_property k l = true).
    { induction l as [|[k' v'] l IH]; simpl; [tauto|].
      intros [E | H].
      - injection E as -> _. rewrite eqb_refl. reflexivity.
      - rewrite (IH H). apply orb_true_r. }
    apply in_app_or in Hin. destruct Hin as [H | H];
      rewrite (G _ H); [reflexivity | apply orb_true_r]. }
  split; [exact F|]. split.
  - unfold finalAnalysis, spread.
    assert (G : forall b a,
               (length a
                <= length (fold_left
                             (fun acc kv =>
                                set_property acc (fst kv) (snd kv)) b a))%nat).
    { induction b as [|[k v] b IH]; intros a; simpl; [lia|].
      eapply Nat.le_trans; [|apply IH].
      unfold set_property. destruct (has_property k a).
      - clear. induction a as [|[k' v'] a IH]; simpl; [lia|].
        destruct (JS.eqb k' k); simpl; lia.
      - clear. induction a as [|[k' v'] a IH]; simpl; [lia|].
        destruct (array_index k); [destruct (array_index k')|];
          try destruct (_ <? _)%N; simpl; lia. }
    apply (G (own_enumerable data) (defaultAnalysis transcript)).
  - eexists. split; [reflexivity|]. cbn [va_success va_analysis].
    split; [reflexivity|]. split; [reflexivity|].
    apply cleaned_text_is_text.
Qed.

(** X20.  Whenever [JSON.parse] does not return [undefined],
    [generateLocationSuggestions] returns [suggestions: []] and
    [analysis: {}] for every completion: the parsed suggestions are
    serialized and cleaned into a string, and the fields [suggestions] and
    [analysis] are then read from that string. *)
Theorem location_suggestions_discarded
    (transcript : jsstring) (content usage : value) :
  parse_or JSON_parse location_fallback (location_response content)
  <> VUndefined ->
  generateLocationSuggestions JSON_parse serialize now transcript
    (Completed content usage)
  = Returned {| ls_success := true;
                ls_suggestions := VArr [];
                ls_analysis := VObj [];
                ls_provider := PROVIDER;
                ls_usage := usage;
                ls_model := MODEL;
                ls_timestamp := now |}.
Proof.
  intros H. unfold generateLocationSuggestions. cbv zeta.
  destruct (parse_or JSON_parse location_fallback
              (location_response content)) eqn:E; try contradiction;
    cbn [JSON_stringify];
    rewrite !cleaned_string_has_no_fields by reflexivity; reflexivity.
Qed.

End Runtime.

End RecoveryShape.

Lemma location_suggestions_example :
  let content := LlamaService.str "{}" in
  LlamaService.parse_or LlamaService.parse_empty_object_only
    LlamaService.location_fallback (LlamaService.location_response content)
  = VObj []
  /\ exists r,
       LlamaService.generateLocationSuggestions
         LlamaService.parse_empty_object_only
         LlamaService.serialize_as_empty_object
         (lit "2024-01-01T00:00:00.000Z") (lit "pizza near me")
         (LlamaService.Completed content VNull)
       = LlamaService.Returned r
       /\ LlamaService.ls_suggestions r = VArr []
       /\ LlamaService.ls_analysis r = VObj [].
Proof.
  intros content. split; [reflexivity|].
  eexists. split.
  - apply (location_suggestions_discarded
             LlamaService.parse_empty_object_only
             LlamaService.serialize_as_empty_object
             (lit "2024-01-01T00:00:00.000Z") (lit "pizza near me")
             content VNull).
    discriminate.
  - split; reflexivity.
Defined.

(* ================================================================= *)
(** ** Conversation utilities *)

Section ConversationFlow.

Import ConversationUtils.

Lemma add_keeps (set : list jsstring) (x : jsstring)
    (names : list jsstring) :
  NoDup set -> incl set names -> In x names ->
  NoDup (add set x) /\ incl (add set x) names.
Proof.
  intros Hn Hi Hx. unfold add, has. destruct (existsb (JS.eqb x) set) eqn:E.
  - split; assumption.
  - split.
    + apply NoDup_app; [exact Hn | repeat constructor; intros [] |].
      intros y Hy [<- | []]. apply seen_iff in Hy. rewrite Hy in E.
      discriminate E.
    + apply incl_app; [exact Hi|]. intros y [<- | []]. exact Hx.
Qed.

Lemma maybe_add_keeps (b : bool) (set : list jsstring) (x : jsstring)
    (names : list jsstring) :
  In x names -> NoDup set /\ incl set names ->
  NoDup (if b then add set x else set)
  /\ incl (if b then add set x else set) names.
Proof.
  intros Hx [Hn Hi]. destruct b; [apply add_keeps; assumption|].
  split; assumption.
Qed.

(** One turn of the loop keeps the invariant. *)
Lemma flow_step_invariant (history seen rest : list Message)
    (context : Flow) (msg : Message) :
  history = seen ++ msg :: rest ->
  Spec.flow_invariant seen context ->
  exists context',
    flow_step history context (length seen) msg = Some context'
    /\ Spec.flow_invariant (seen ++ [msg]) context'.
Proof.
  intros Hh (Hc & Ht & Hn & Hi).
  assert (Htopics :
    forall t1 t2 t3 t4 : bool,
      NoDup (let s := topics context in
             let s := if t1 then add s (lit "technology") else s in
             let s := if t2 then add s (lit "future") else s in
             let s := if t3 then add s (lit "personal") else s in
             if t4 then add s (lit "assistance") else s)
      /\ incl (let s := topics context in
               let s := if t1 then add s (lit "technology") else s in
               let s := if t2 then add s (lit "future") else s in
               let s := if t3 then add s (lit "personal") else s in
               if t4 then add s (lit "assistance") else s)
              (map lit ["technology"; "future"; "personal"; "assistance"])).
  { intros t1 t2 t3 t4. cbv zeta.
    apply maybe_add_keeps; [simpl; tauto|].
    apply maybe_add_keeps; [simpl; tauto|].
    apply maybe_add_keeps; [simpl; tauto|].
    apply maybe_add_keeps; [simpl; tauto|]. split; assumption. }
  assert (Htone :
    forall q : bool,
      let e := text_has (toLowerCase (content msg)) ["!"; "amazing"] in
      let t := if e then ToneEnthusiastic else tone context in
      (if q && is_neutral t then ToneCurious else t) = ToneEnthusiastic
      <-> existsb (fun m => text_has (toLowerCase (content m))
                                     ["!"; "amazing"]) (seen ++ [msg])
          = true).
  { intros q e t. rewrite existsb_app. cbn [existsb].
    rewrite orb_false_r, orb_true_iff, <- Ht. fold e. unfold t.
    destruct e, q, (tone context); simpl; split; intros H;
      try reflexivity; try discriminate H; try tauto;
      try (destruct H as [H | H]; discriminate H). }
  unfold flow_step. cbv zeta.
  destruct seen as [|m0 seen'].
  - simpl length. cbv iota. eexists. split; [reflexivity|].
    unfold Spec.flow_invariant.
    cbn [continuity tone topics]. split; [|split].
    + rewrite Hc. reflexivity.
    + apply Htone.
    + apply Htopics.
  - cbn [length].
    assert (Hp : exists prev, nth_error history (length seen') = Some prev).
    { destruct (nth_error history (length seen')) eqn:E; [eexists; reflexivity|].
      apply nth_error_None in E. rewrite Hh, length_app in E.
      cbn [length] in E. lia. }
    destruct Hp as [prev ->]. eexists. split; [reflexivity|].
    unfold Spec.flow_invariant.
    cbn [continuity tone topics]. split; [|split].
    + rewrite !length_app, Hc. cbn [length]. lia.
    + apply Htone.
    + apply Htopics.
Qed.

Lemma flow_from_invariant (history : list Message) :
  forall (rest seen : list Message) (context : Flow),
    history = seen ++ rest ->
    Spec.flow_invariant seen context ->
    exists context',
      forEach_from (flow_step history) context (length seen) rest
      = Some context'
      /\ Spec.flow_invariant history context'.
Proof.
  induction rest as [|msg rest IH]; intros seen context Hh Hinv.
  - rewrite app_nil_r in Hh. subst seen. exists context.
    split; [reflexivity | exact Hinv].
  - destruct (flow_step_invariant history seen rest context msg Hh Hinv)
      as (c1 & E1 & I1).
    cbn [forEach_from]. rewrite E1.
    replace (S (length seen)) with (length (seen ++ [msg]))
      by (rewrite length_app; cbn [length]; lia).
    apply IH; [|exact I1]. rewrite <- app_assoc. exact Hh.
Qed.

Lemma flow_total (history : list Message) :
  exists context,
    analyzeConversationFlow history = Some context
    /\ Spec.flow_invariant history context.
Proof.
  unfold analyzeConversationFlow.
  apply (flow_from_invariant history history [] initial_flow eq_refl).
  unfold Spec.flow_invariant, initial_flow. cbn.
  split; [reflexivity|]. split; [split; discriminate|].
  split; [constructor | apply incl_nil_l].
Qed.


(** X22.  [hasTopicContinuity] does not depend on the order of its two
    texts, and an empty text continues nothing. *)
Theorem topic_continuity_symmetric (prevText currentText : jsstring) :
  hasTopicContinuity prevText currentText
  = hasTopicContinuity currentText prevText
  /\ hasTopicContinuity [] currentText = false.
Proof.
  split.
  - unfold hasTopicContinuity.
    induction ["ai"; "technology"; "future"; "personal"; "help"; "question";
               "think"; "feel"] as [|topic l IH]; simpl; [reflexivity|].
    rewrite IH, andb_comm. reflexivity.
  - reflexivity.
Qed.

(** X23.  [enhanceUserMessage] only ever puts one of three bracketed hints
    in front of the message, which stays intact behind it; and with the
    context of a history of at most one message the hint "[New topic]" is
    never used, since there is no continuity flag to read. *)
Theorem enhanced_message_keeps_content
    (content' : jsstring) (history : list Message) (context : Flow) :
  analyzeConversationFlow history = Some context ->
  exists hint,
    enhanceUserMessage content' context = hint ++ content'
    /\ In hint [ []; lit "[Continuing our AI discussion] ";
                 lit "[Following up on your question] ";
                 lit "[New topic] " ]
    /\ (length history <= 1 -> hint <> lit "[New topic] ").
Proof.
  intros E. destruct (flow_total history) as (c & E' & (Hc & _)).
  rewrite E in E'. injection E' as <-.
  unfold enhanceUserMessage.
  destruct (has (topics context) (lit "technology")
            && includes (toLowerCase content') (lit "ai")).
  { eexists. split; [reflexivity|]. split; [simpl; tauto|].
    intros _. discriminate. }
  destruct (match engagement context with
            | EngagementHigh => true
            | EngagementMedium => false
            end && includes content' (lit "?")).
  { eexists. split; [reflexivity|]. split; [simpl; tauto|].
    intros _. discriminate. }
  destruct (nth_error (continuity context) (length (continuity context) - 1))
    as [[|]|] eqn:N.
  - exists []. split; [reflexivity|]. split; [simpl; tauto|].
    intros _. discriminate.
  - eexists. split; [reflexivity|]. split; [simpl; tauto|].
    intros Hl. exfalso.
    assert (H0 : length (continuity context) = 0) by lia.
    destruct (continuity context); [discriminate N | discriminate H0].
  - exists []. split; [reflexivity|]. split; [simpl; tauto|].
    intros _. discriminate.
Qed.

End ConversationFlow.

Lemma enhanced_message_example :
  let history :=
    [ {| ConversationUtils.role := lit "user";
         ConversationUtils.content := lit "What a day" |} ] in
  let context :=
    {| ConversationUtils.topics := [lit "personal"];
       ConversationUtils.tone := ConversationUtils.ToneNeutral;
       ConversationUtils.complexity := ConversationUtils.Simple;
       ConversationUtils.engagement := ConversationUtils.EngagementMedium;
       ConversationUtils.continuity := [] |} in
  ConversationUtils.analyzeConversationFlow history = Some context
  /\ exists hint,
       ConversationUtils.enhanceUserMessage (lit "Is it safe?") context
       = hint ++ lit "Is it safe?"
       /\ hint <> lit "[New topic] ".
Proof.
  intros history context.
  assert (E : ConversationUtils.analyzeConversationFlow history
              = Some context) by (vm_compute; reflexivity).
  split; [exact E|].
  destruct (enhanced_message_keeps_content (lit "Is it safe?") history
              context E) as (hint & Eh & _ & Hn).
  exists hint. split; [exact Eh|]. apply Hn. simpl. lia.
Defined.

Section ConversationMessages.

Import ConversationUtils.
Import LlamaService.




End ConversationMessages.

(* ================================================================= *)
(** ** Routes *)

Section RouteChecks.

Import Routes.

Lemma trimStart_length (s : jsstring) :
  (length (trimStart s) <= length s)%nat.
Proof.
  induction s as [|c s IH]; simpl; [lia|].
  destruct (is_space c); simpl; lia.
Qed.

Lemma trimEnd_length (s : jsstring) :
  (length (trimEnd s) <= length s)%nat.
Proof.
  induction s as [|c s IH]; simpl; [lia|].
  destruct (trimEnd s); [destruct (is_space c)|]; simpl in *; lia.
Qed.

Lemma trim_length (s : jsstring) : (length (trim s) <= length s)%nat.
Proof.
  unfold trim. eapply Nat.le_trans; [apply trimEnd_length|].
  apply trimStart_length.
Qed.

(** Removing the angle brackets is a filter. *)
Lemma remove_angles (s : jsstring) (prev : option cu) :
  replace_go m_angle prev 0 s
  = filter (fun c => negb ((c =? 60) || (c =? 62))%N) s.
Proof.
  revert prev. induction s as [|c s IH]; intros prev; simpl; [reflexivity|].
  destruct ((c =? 60) || (c =? 62))%N; simpl; rewrite IH; reflexivity.
Qed.

(** X25.  What [POST /llama] and [POST /enhanced-llm] hand to the service
    after their checks: the trimmed input ([text], or [prompt] when [text]
    is falsy) without any [<] or [>], of at most 4000 code units, taken
    from a non-empty string of at most 4000 code units, and only when the
    API key is a non-empty string.  A truthy [text] that is not a string is
    refused even when [prompt] is a valid string. *)
Theorem checked_input_is_sanitized
    (text prompt apiKey : value) (sanitizedText : jsstring) :
  check_input text prompt apiKey = Accepted sanitizedText ->
  (exists inputText,
     LlamaService.or_else text prompt = VStr inputText
     /\ inputText <> []
     /\ (length inputText <= 4000)%nat
     /\ sanitizedText
        = filter (fun c => negb ((c =? 60) || (c =? 62))%N) (trim inputText))
  /\ Forall (fun c => c <> 60%N /\ c <> 62%N) sanitizedText
  /\ (length sanitizedText <= 4000)%nat
  /\ (exists k, apiKey = VStr k /\ k <> [])
  /\ (truthy text = true -> is_string text = true).
Proof.
  unfold check_input. cbv zeta. intros H.
  destruct (as_text (LlamaService.or_else text prompt)) as [inputText|] eqn:Ei;
    [|discriminate H].
  destruct (as_text apiKey) as [k|] eqn:Ek; [|discriminate H].
  destruct (4000 <? length inputText)%nat eqn:El; [discriminate H|].
  injection H as <-. apply Nat.ltb_ge in El.
  assert (T : forall v s, as_text v = Some s -> v = VStr s /\ s <> []).
  { intros v s. destruct v; simpl; try discriminate.
    destruct s0; simpl; [discriminate|]. intros [= <-].
    split; [reflexivity | discriminate]. }
  destruct (T _ _ Ei) as [Ev Hne]. destruct (T _ _ Ek) as [Ekey Hk].
  unfold replace_all. rewrite remove_angles.
  split; [exists inputText; repeat split; assumption|].
  split; [|split; [|split]].
  - apply Forall_forall. intros c Hc. apply filter_In in Hc.
    destruct Hc as [_ Hc]. apply negb_true_iff, orb_false_iff in Hc.
    rewrite !N.eqb_neq in Hc. exact Hc.
  - eapply Nat.le_trans; [apply filter_length_le|].
    eapply Nat.le_trans; [apply trim_length | exact El].
  - exists k. split; assumption.
  - intros Ht. unfold LlamaService.or_else in Ev. rewrite Ht in Ev.
    rewrite Ev. reflexivity.
Qed.

Lemma checked_input_example :
  check_input VUndefined (LlamaService.str "  <b>hello</b> ")
              (LlamaService.str "nvapi-key")
  = Accepted (lit "bhello/b")
  /\ Forall (fun c => c <> 60%N /\ c <> 62%N) (lit "bhello/b")
  /\ check_input (VNum 42) (LlamaService.str "hello")
                 (LlamaService.str "nvapi-key")
     = Refused 400 (lit "INVALID_INPUT").
Proof.
  assert (E : check_input VUndefined (LlamaService.str "  <b>hello</b> ")
                (LlamaService.str "nvapi-key") = Accepted (lit "bhello/b"))
    by (vm_compute; reflexivity).
  split; [exact E|]. split; [|vm_compute; reflexivity].
  exact (proj1 (proj2 (checked_input_is_sanitized _ _ _ _ E))).
Defined.

Lemma handler_object_kind (error code : string) :
  In code ["INVALID_API_KEY"; "QUOTA_EXCEEDED"; "RATE_LIMIT_EXCEEDED";
           "LLAMA_API_ERROR"; "ENHANCED_LLM_ERROR"] ->
  (error_kind (failure error code) = Some Other)
  /\ forall details,
       error_kind (failure_with_details error code details) = Some Other.
Proof.
  intros [<- | [<- | [<- | [<- | [<- | []]]]]]; split; reflexivity.
Qed.

Lemma handler_object_message (error code : string) (details : value) :
  LlamaService.get_property (failure error code) "message" = Some VUndefined
  /\ LlamaService.get_property (failure_with_details error code details)
       "message" = Some VUndefined.
Proof. split; reflexivity. Qed.

(** X26.  An error that went through [handleAPIError] of a service is never
    recognised by the [catch] block of its route: the object that the
    service throws has no [status] and carries the codes of the replies,
    not those of the provider, so whatever the provider reported (401,
    quota, rate limit) the routes [POST /llama] and [POST /enhanced-llm]
    answer 500 with the generic code, and in development mode without
    details. *)
Theorem service_errors_answered_500
    (development development' : bool) (error thrown : value) :
  (Llama.handleAPIError development error = Some thrown ->
   Llama.route_catch development' thrown
   = Some {| status := 500;
             body := failure_with_details
                       "Failed to generate conversational response"
                       "LLAMA_API_ERROR"
                       (if development' then VUndefined
                        else LlamaService.str "Internal server error") |})
  /\ (Enhanced.handleAPIError development error = Some thrown ->
      Enhanced.route_catch development' thrown
      = Some {| status := 500;
                body := failure_with_details
                          "Failed to generate enhanced response"
                          "ENHANCED_LLM_ERROR"
                          (if development' then VUndefined
                           else LlamaService.str "Internal server error") |}).
Proof.
  split.
  - unfold Llama.handleAPIError.
    destruct (error_kind error) as [[| | |]|]; intros [= <-];
      destruct development'; reflexivity.
  - unfold Enhanced.handleAPIError.
    destruct (error_kind error) as [[| | |]|]; intros [= <-];
      destruct development'; reflexivity.
Qed.

Lemma service_errors_example :
  let unauthorized :=
    VObj [ LlamaService.prop "status" (VNum 401);
           LlamaService.prop "message"
             (LlamaService.str "Request failed with status code 401") ] in
  exists thrown reply,
    Llama.handleAPIError false unauthorized = Some thrown
    /\ Llama.route_catch false unauthorized
       = Some {| status := 401;
                 body := failure
                   "Invalid or missing NVIDIA API key. Please check your API key configuration."
                   "INVALID_API_KEY" |}
    /\ Llama.route_catch false thrown = Some reply
    /\ status reply = 500.
Proof.
  intros unauthorized.
  assert (E : Llama.handleAPIError false unauthorized
              = Some (failure
                   "Invalid or missing NVIDIA API key. Please check your API key configuration."
                   "INVALID_API_KEY")) by reflexivity.
  eexists. eexists. split; [exact E|]. split; [reflexivity|].
  split.
  - exact (proj1 (service_errors_answered_500 false false unauthorized _) E).
  - reflexivity.
Defined.

End RouteChecks.

(* ================================================================= *)
(** ** The model catalogue *)

Section ModelCatalogue.

Import ModelsRoute.

(** X27.  [GET /models/:useCase] answers 404 exactly when no model has the
    use case; otherwise every model it sends has the use case, and the
    description it sends is the entry of [useCases] under that name: the
    default text "No description available" is never sent, and neither is
    a property inherited from [Object.prototype], since a name such as
    "constructor" is the use case of no model. *)
Theorem use_case_reply_shape (useCase' : jsstring) :
  match models_for_use_case useCase' with
  | NotFound message =>
      Forall (fun model => useCase model <> useCase') models
      /\ message = lit "No models found for use case: " ++ useCase'
  | Found modelsForUseCase sent description =>
      modelsForUseCase <> []
      /\ sent = useCase'
      /\ Forall (fun model => In model models /\ useCase model = useCase')
                modelsForUseCase
      /\ exists d,
           description = Some d
           /\ ResponseQualityAnalyzer.own_property useCases useCase' = Some d
           /\ d <> lit "No description available"
  end.
Proof.
  unfold models_for_use_case. cbv zeta.
  set (selected := filter _ models).
  assert (Hsel : Forall (fun model => In model models
                                      /\ useCase model = useCase') selected).
  { apply Forall_forall. intros m Hm. apply filter_In in Hm.
    destruct Hm as [Hin E]. apply eqb_eq in E. split; assumption. }
  destruct (length selected =? 0)%nat eqn:El.
  - split; [|reflexivity]. apply Nat.eqb_eq in El.
    apply Forall_forall. intros m Hm E.
    assert (In m selected).
    { apply filter_In. split; [exact Hm|]. apply eqb_eq. exact E. }
    destruct selected; [contradiction | discriminate El].
  - apply Nat.eqb_neq in El.
    split; [intros E; rewrite E in El; apply El; reflexivity|].
    split; [reflexivity|]. split; [exact Hsel|].
    destruct selected as [|m rest]; [contradiction El; reflexivity|].
    inversion Hsel as [|? ? [Hin Hu] _]. subst.
    destruct Hin as [<- | [<- | [<- | [<- | [<- | []]]]]];
      eexists; (split; [reflexivity|]); split;
        solve [reflexivity | vm_compute; discriminate].
Qed.

End ModelCatalogue.

(* ================================================================= *)
(** ** The quality gate of the selector *)

Section QualityGate.

Import EnhancedLLMService.
Import ResponseAssessment.
Local Open Scope Q_scope.

Variable rnd : Q -> Q.
Hypothesis R : Spec.rounding rnd.

(** X28.  With arithmetic rounded to nearest, the score of
    [assessResponseQuality] lies between 0.5 and 1.  The bonus for the tone
    is given only when the first tone of the strategy is "professional",
    "casual" or "empathetic": for any other first tone, such as "friendly"
    (conversation) and "personal" (review) in the registry of the
    constructor, the score cannot exceed 0.9 (up to rounding).  The method
    throws only when the first tone names a property inherited from
    [Object.prototype]. *)
Theorem quality_gate_range (ps : Patterns) (response : jsstring)
    (strategy : Strategy) :
  let expectedTone := first_tone (deref ps (s_tone strategy)) in
  match assessResponseQuality rnd ps response strategy with
  | Some q =>
      1 # 2 <= q /\ q <= 1
      /\ (ResponseQualityAnalyzer.get toneWords expectedTone
          = ResponseQualityAnalyzer.Absent ->
          q <= (9 # 10) + (1 # 100000000000000))
  | None =>
      ResponseQualityAnalyzer.get toneWords expectedTone
      = ResponseQualityAnalyzer.Inherited
  end
  /\ Forall (fun k =>
               ResponseQualityAnalyzer.get toneWords
                 (first_tone (deref (initial_patterns) (RegistryTone k)))
               = ResponseQualityAnalyzer.Absent)
            [KConversation; KReview].
Proof.
  intros expectedTone. split; [|repeat constructor].
  unfold assessResponseQuality. cbv zeta. fold expectedTone.
  set (b1 := (Z.abs _ <? 50)%Z).
  set (b2 := existsb _ (s_structure strategy)).
  assert (U : Spec.ulp_bound == 1 # 1000000000000000) by reflexivity.
  destruct (maybe_increment rnd R b1 (1 # 2) (2 # 10)) as [L1 U1]; try lra.
  set (c1 := if b1 then rnd ((1 # 2) + rnd (2 # 10)) else 1 # 2) in *.
  destruct (maybe_increment rnd R b2 c1 (2 # 10)) as [L2 U2]; try lra.
  set (c2 := if b2 then rnd (c1 + rnd (2 # 10)) else c1) in *.
  destruct (ResponseQualityAnalyzer.get toneWords expectedTone)
    as [words| |] eqn:G.
  - set (b3 := (0 <? _)%nat).
    destruct (maybe_increment rnd R b3 c2 (1 # 10)) as [L3 U3]; try lra.
    set (c3 := if b3 then rnd (c2 + rnd (1 # 10)) else c2) in *.
    destruct (min_bounds c3 1) as (M1 & M2 & _).
    split; [unfold Num.min; destruct (Qle_bool c3 1); lra|].
    split; [exact M2 | discriminate].
  - reflexivity.
  - cbn [length Nat.ltb Nat.leb].
    destruct (min_bounds c2 1) as (M1 & M2 & _).
    split; [unfold Num.min; destruct (Qle_bool c2 1); lra|].
    split; [exact M2|]. intros _. lra.
Qed.

End QualityGate.

Lemma quality_gate_example :
  let this := EnhancedLLMService.new_service Num.grid in
  let selection :=
    fst (EnhancedLLMService.analyzeInputAndSelectModel Num.grid this
           (lit "hello there") VUndefined) in
  let strategy := EnhancedLLMService.responseStrategy selection in
  let ps := EnhancedLLMService.responsePatterns this in
  Spec.rounding Num.grid
  /\ ResponseAssessment.first_tone
       (EnhancedLLMService.deref ps (EnhancedLLMService.s_tone strategy))
     = lit "friendly"
  /\ exists q,
       ResponseAssessment.assessResponseQuality Num.grid ps
         (lit "Hello! What a great and awesome greeting.") strategy = Some q
       /\ (q <= (9 # 10) + (1 # 100000000000000))%Q.
Proof.
  intros this selection strategy ps.
  split; [exact grid_is_rounding|]. split; [vm_compute; reflexivity|].
  destruct (ResponseAssessment.assessResponseQuality Num.grid ps
              (lit "Hello! What a great and awesome greeting.") strategy)
    as [q|] eqn:E; [|vm_compute in E; discriminate E].
  exists q. split; [reflexivity|].
  pose proof (quality_gate_range Num.grid grid_is_rounding ps
                (lit "Hello! What a great and awesome greeting.")
                strategy) as H.
  cbv zeta in H. destruct H as [H _]. rewrite E in H.
  destruct H as (_ & _ & H). apply H. vm_compute. reflexivity.
Defined.

(* ================================================================= *)
(** ** Coherence and clarity *)

Section Coherence.

Import ResponseQualityAnalyzer.
Local Open Scope Q_scope.

Variable rnd : Q -> Q.
Hypothesis RR : Spec.relative_rounding rnd.

Lemma rel_nonneg (x : Q) : 0 <= x -> 0 <= rnd x.
Proof.
  intros H. destruct (Spec.rel_error RR x H) as [L _].
  unfold Spec.ulp_bound in L. nra.
Qed.

(** Rounding a number of at most ten adds less than a thousandth. *)
Lemma rel_up (x b : Q) :
  0 <= x -> x <= b -> b <= 10 -> rnd x <= b + (1 # 1000).
Proof.
  intros H0 Hb H10. destruct (Spec.rel_error RR x H0) as [_ U].
  unfold Spec.ulp_bound in U. nra.
Qed.

Lemma of_nat_succ (k : nat) : Num.of_nat (S k) == Num.of_nat k + 1.
Proof.
  unfold Num.of_nat. rewrite Nat2Z.inj_succ. unfold Z.succ.
  rewrite inject_Z_plus. reflexivity.
Qed.

Lemma of_nat_le (a b : nat) : (a <= b)%nat -> Num.of_nat a <= Num.of_nat b.
Proof. intros H. unfold Num.of_nat. rewrite <- Zle_Qle. lia. Qed.

(** The loop of [analyzeCoherence] adds at most 0.21 to the score and at
    most one to the count on every turn. *)
Lemma coherence_loop_bounds (rest : list jsstring) :
  forall (previous : jsstring) (score : Q) (count k : nat),
    0 <= score -> score <= (21 # 100) * Num.of_nat k ->
    (count <= k)%nat -> (Z.of_nat (k + length rest) <= 1000000000)%Z ->
    0 <= fst (coherence_loop rnd previous rest score count)
    /\ fst (coherence_loop rnd previous rest score count)
       <= (21 # 100) * Num.of_nat (k + length rest)
    /\ (snd (coherence_loop rnd previous rest score count)
        <= k + length rest)%nat.
Proof.
  induction rest as [|current rest IH];
    intros previous score count k H0 Hs Hc Hk.
  - cbn [coherence_loop fst snd length]. rewrite Nat.add_0_r.
    repeat split; assumption.
  - cbn [coherence_loop]. cbv zeta. cbn [length] in Hk |- *.
    replace (k + S (length rest))%nat with (S k + length rest)%nat by lia.
    apply IH.
    + destruct (existsb _ _); [|exact H0].
      apply rel_nonneg. pose proof (rel_nonneg (2 # 10)). lra.
    + rewrite of_nat_succ.
      destruct (existsb _ _); [|lra].
      assert (K : Num.of_nat k <= 1000000000).
      { unfold Num.of_nat. change 1000000000 with (inject_Z 1000000000).
        rewrite <- Zle_Qle. lia. }
      assert (K0 : 0 <= Num.of_nat k)
        by (change 0 with (Num.of_nat 0); apply of_nat_le; lia).
      destruct (Spec.rel_error RR (2 # 10) ltac:(lra)) as [D0 D1].
      destruct (Spec.rel_error RR (score + rnd (2 # 10))) as [_ S1].
      { pose proof (rel_nonneg (2 # 10)). lra. }
      unfold Spec.ulp_bound in *. nra.
    + destruct (text_has _ _); lia.
    + lia.
Qed.

Lemma hd_error_push_if (c : bool) (x : string) (a : jsstring)
    (l : list jsstring) :
  hd_error l = Some a -> hd_error (push_if c x l) = Some a.
Proof.
  unfold push_if. destruct c, l; simpl; try discriminate; trivial.
Qed.

(** X29.  With arithmetic rounded to nearest, [analyzeCoherence] stays
    below 0.5 for every response of two or more sentences (up to a billion
    of them): the transition share is below 0.3 and the continuity share
    below 0.15, because both are divided by the number of sentences while
    the loop runs one turn less.  A response of one sentence gets 0.5; so
    every longer response is reported with the weakness "Poor logical flow
    and coherence". *)
Theorem coherence_below_half (response : jsstring) :
  (2 <= length (sentences_of response))%nat ->
  (Z.of_nat (length (sentences_of response)) <= 1000000000)%Z ->
  0 <= analyzeCoherence rnd response
  /\ analyzeCoherence rnd response < 1 # 2
  /\ forall metrics,
       get_coherence metrics = analyzeCoherence rnd response ->
       hd_error (identifyWeaknesses metrics)
       = Some (lit "Poor logical flow and coherence").
Proof.
  intros H2 Hmax.
  assert (B : 0 <= analyzeCoherence rnd response
              /\ analyzeCoherence rnd response < 1 # 2).
  { unfold analyzeCoherence.
    destruct response as [|c0 r0]; [simpl in H2; lia|]. cbn [is_empty].
    cbv zeta. destruct (sentences_of (c0 :: r0)) as [|first [|second rest]];
      [simpl in H2; lia | simpl in H2; lia |].
    set (tail := second :: rest) in *.
    destruct (coherence_loop_bounds tail first 0 0 0
                ltac:(lra) ltac:(change (Num.of_nat 0) with 0; lra)
                ltac:(lia) ltac:(cbn [length] in Hmax |- *; lia))
      as (S0 & S1 & C1).
    destruct (coherence_loop rnd first tail 0 0) as [score count].
    cbn [fst snd] in S0, S1, C1. cbn [Nat.add] in S1, C1.
    set (n := Num.of_nat (length (first :: tail))).
    assert (En : n == Num.of_nat (length tail) + 1)
      by (unfold n; cbn [length]; apply of_nat_succ).
    assert (T0 : 0 <= Num.of_nat (length tail))
      by (change 0 with (Num.of_nat 0); apply of_nat_le; lia).
    assert (Npos : 0 < n) by lra.
    assert (C0 : 0 <= Num.of_nat count)
      by (change 0 with (Num.of_nat 0); apply of_nat_le; lia).
    assert (Cn : Num.of_nat count <= n)
      by (apply of_nat_le in C1; lra).
    (* the transition share *)
    assert (Q1 : 0 <= Num.of_nat count / n /\ Num.of_nat count / n <= 1).
    { split; [apply Qle_shift_div_l | apply Qle_shift_div_r]; lra. }
    pose proof (rel_nonneg _ (proj1 Q1)) as T1.
    destruct (min_bounds (rnd (Num.of_nat count / n)) 1) as (_ & M1 & M0).
    specialize (M0 T1 ltac:(lra)).
    set (m1 := Num.min (rnd (Num.of_nat count / n)) 1) in *.
    pose proof (rel_nonneg (3 # 10) ltac:(lra)) as R3.
    pose proof (rel_up (3 # 10) (3 # 10) ltac:(lra) ltac:(lra) ltac:(lra))
      as R3'.
    assert (P1 : 0 <= m1 * rnd (3 # 10) /\ m1 * rnd (3 # 10) <= 301 # 1000)
      by (split; nra).
    pose proof (rel_nonneg _ (proj1 P1)) as TS0.
    pose proof (rel_up _ (301 # 1000) (proj1 P1) (proj2 P1) ltac:(lra))
      as TS1.
    set (ts := rnd (m1 * rnd (3 # 10))) in *.
    (* the continuity share *)
    assert (Q2 : 0 <= score / n /\ score / n <= 21 # 100).
    { split; [apply Qle_shift_div_l | apply Qle_shift_div_r]; lra. }
    pose proof (rel_nonneg _ (proj1 Q2)) as U1.
    pose proof (rel_up _ (21 # 100) (proj1 Q2) (proj2 Q2) ltac:(lra)) as U2.
    destruct (min_bounds (rnd (score / n)) 1) as (N1 & _ & N0).
    specialize (N0 U1 ltac:(lra)).
    set (m2 := Num.min (rnd (score / n)) 1) in *.
    pose proof (rel_nonneg (7 # 10) ltac:(lra)) as R7.
    pose proof (rel_up (7 # 10) (7 # 10) ltac:(lra) ltac:(lra) ltac:(lra))
      as R7'.
    assert (P2 : 0 <= m2 * rnd (7 # 10) /\ m2 * rnd (7 # 10) <= 148 # 1000)
      by (split; nra).
    pose proof (rel_nonneg _ (proj1 P2)) as CS0.
    pose proof (rel_up _ (148 # 1000) (proj1 P2) (proj2 P2) ltac:(lra))
      as CS1.
    set (cs := rnd (m2 * rnd (7 # 10))) in *.
    pose proof (rel_nonneg (ts + cs) ltac:(lra)) as F0.
    pose proof (rel_up (ts + cs) (451 # 1000) ltac:(lra) ltac:(lra)
                  ltac:(lra)) as F1.
    destruct (min_bounds (rnd (ts + cs)) 1) as (G1 & _ & G0).
    specialize (G0 F0 ltac:(lra)). split; lra. }
  destruct B as [B0 B1]. split; [exact B0|]. split; [exact B1|].
  intros metrics E. unfold identifyWeaknesses. cbv zeta.
  assert (L : ltb (get_coherence metrics) (1 # 2) = true).
  { rewrite E. unfold ltb.
    destruct (Qle_bool (1 # 2) (analyzeCoherence rnd response)) eqn:Q;
      [|reflexivity].
    apply Qle_bool_iff in Q. lra. }
  rewrite L. do 7 apply hd_error_push_if. reflexivity.
Qed.

End Coherence.

Lemma exact_is_relative : Spec.relative_rounding Num.exact.
Proof.
  constructor. intros x H. unfold Num.exact, Spec.ulp_bound. split; nra.
Qed.

Lemma coherence_example :
  let response :=
    lit "The food was great. However the service was slow. Therefore we left."
  in
  Spec.relative_rounding Num.exact
  /\ length (ResponseQualityAnalyzer.sentences_of response) = 3
  /\ (ResponseQualityAnalyzer.analyzeCoherence Num.exact response < 1 # 2)%Q
  /\ ResponseQualityAnalyzer.analyzeCoherence Num.exact (lit "Fine.")
     = (1 # 2)%Q.
Proof.
  intros response. split; [exact exact_is_relative|].
  assert (L : length (ResponseQualityAnalyzer.sentences_of response) = 3)
    by (vm_compute; reflexivity).
  split; [exact L|]. split; [|vm_compute; reflexivity].
  apply (coherence_below_half Num.exact exact_is_relative response);
    rewrite L; simpl; lia.
Defined.

Section Clarity.

Import ResponseQualityAnalyzer.
Local Open Scope Q_scope.

Variable rnd : Q -> Q.
Hypothesis R : Spec.rounding rnd.

(** [score -= d], rounded. *)
Lemma decrement_close (c d : Q) :
  1 # 100 <= d -> d <= 1 # 2 -> d + (1 # 100) <= c -> c <= 3 # 2 ->
  c - d - 2 * Spec.ulp_bound <= rnd (c - rnd d)
  /\ rnd (c - rnd d) <= c - d + 2 * Spec.ulp_bound.
Proof.
  intros Hd0 Hd1 Hc0 Hc1.
  assert (U : Spec.ulp_bound == 1 # 1000000000000000) by reflexivity.
  destruct (Spec.rnd_error R d ltac:(lra) ltac:(lra)) as [Dl Du].
  destruct (Spec.rnd_error R (c - rnd d) ltac:(lra) ltac:(lra)) as [Sl Su].
  split; lra.
Qed.

(** X30.  With arithmetic rounded to nearest, the clarity metric of a
    non-empty response lies between 0.2 and 1 (up to rounding).  For a
    response without any sentence, such as "...", the average sentence
    length is [0 / 0]; both comparisons with it are false, so the response
    is scored as one with long sentences and cannot exceed 0.7. *)
Theorem clarity_range (response : jsstring) :
  response <> [] ->
  (2 # 10) - (1 # 100000000000000) <= analyzeClarity rnd response
  /\ analyzeClarity rnd response <= 1
  /\ (sentences_of response = [] ->
      analyzeClarity rnd response <= (7 # 10) + (1 # 100000000000000)).
Proof.
  intros Hne. unfold analyzeClarity.
  destruct response as [|c0 r0]; [contradiction|]. cbn [is_empty]. cbv zeta.
  set (response := c0 :: r0).
  set (avg := average rnd _ (length (sentences_of response))).
  set (n2 := how_many (toLowerCase response) ["notwithstanding"; _; _; _; _]).
  set (n3 := how_many (toLowerCase response) ["is being"; _; _; _; _; _]).
  assert (U : Spec.ulp_bound == 1 # 1000000000000000) by reflexivity.
  set (c1 := if at_most avg 15 then rnd ((1 # 2) + rnd (2 # 10))
             else if at_most avg 25 then rnd ((1 # 2) + rnd (1 # 10))
             else rnd ((1 # 2) - rnd (1 # 10))).
  assert (B1 : (4 # 10) - 2 * Spec.ulp_bound <= c1
               /\ c1 <= (7 # 10) + 2 * Spec.ulp_bound
               /\ (avg = None -> c1 <= (4 # 10) + 2 * Spec.ulp_bound)).
  { destruct (increment_mono rnd R (1 # 2) (2 # 10)
                ltac:(lra) ltac:(lra) ltac:(lra) ltac:(lra))
      as (_ & A1 & A2).
    destruct (increment_mono rnd R (1 # 2) (1 # 10)
                ltac:(lra) ltac:(lra) ltac:(lra) ltac:(lra))
      as (_ & A3 & A4).
    destruct (decrement_close (1 # 2) (1 # 10)
                ltac:(lra) ltac:(lra) ltac:(lra) ltac:(lra))
      as (A5 & A6).
    unfold c1. destruct avg as [a|]; cbn [at_most];
      [destruct (Num.leb a 15); [|destruct (Num.leb a 25)]|];
      (split; [lra|]); (split; [lra|]);
      first [discriminate | intros _; lra]. }
  destruct B1 as (L1 & H1 & N1).
  set (c2 := if (n2 =? 0)%nat then rnd (c1 + rnd (2 # 10))
             else if (n2 <=? 2)%nat then rnd (c1 + rnd (1 # 10))
             else rnd (c1 - rnd (1 # 10))).
  assert (B2 : c1 - (1 # 10) - 2 * Spec.ulp_bound <= c2
               /\ c2 <= c1 + (2 # 10) + 2 * Spec.ulp_bound).
  { unfold c2. destruct (n2 =? 0)%nat; [|destruct (n2 <=? 2)%nat].
    - destruct (increment_mono rnd R c1 (2 # 10)
                  ltac:(lra) ltac:(lra) ltac:(lra) ltac:(lra))
        as (_ & L & H).
      split; lra.
    - destruct (increment_mono rnd R c1 (1 # 10)
                  ltac:(lra) ltac:(lra) ltac:(lra) ltac:(lra))
        as (_ & L & H).
      split; lra.
    - destruct (decrement_close c1 (1 # 10)
                  ltac:(lra) ltac:(lra) ltac:(lra) ltac:(lra))
        as (L & H).
      split; lra. }
  destruct B2 as (L2 & H2).
  set (c3 := if (n3 =? 0)%nat then rnd (c2 + rnd (1 # 10))
             else rnd (c2 - rnd (1 # 10))).
  assert (B3 : c2 - (1 # 10) - 2 * Spec.ulp_bound <= c3
               /\ c3 <= c2 + (1 # 10) + 2 * Spec.ulp_bound).
  { unfold c3. destruct (n3 =? 0)%nat.
    - destruct (increment_mono rnd R c2 (1 # 10)
                  ltac:(lra) ltac:(lra) ltac:(lra) ltac:(lra))
        as (_ & L & H).
      split; lra.
    - destruct (decrement_close c2 (1 # 10)
                  ltac:(lra) ltac:(lra) ltac:(lra) ltac:(lra))
        as (L & H).
      split; lra. }
  destruct B3 as (L3 & H3).
  split; [apply clamp01_above; lra|]. split; [apply clamp01_unit|].
  intros Es.
  assert (Ea : avg = None) by (unfold avg; rewrite Es; reflexivity).
  specialize (N1 Ea). apply clamp01_below; lra.
Qed.

End Clarity.

Lemma clarity_example :
  Spec.rounding Num.grid
  /\ lit "..." <> []
  /\ ResponseQualityAnalyzer.sentences_of (lit "...") = []
  /\ (ResponseQualityAnalyzer.analyzeClarity Num.grid (lit "...")
      <= (7 # 10) + (1 # 100000000000000))%Q.
Proof.
  assert (N : lit "..." <> []) by discriminate.
  assert (E : ResponseQualityAnalyzer.sentences_of (lit "...") = [])
    by reflexivity.
  split; [exact grid_is_rounding|]. split; [exact N|]. split; [exact E|].
  exact (proj2 (proj2 (clarity_range Num.grid grid_is_rounding
                         (lit "...") N)) E).
Defined.
